(** * few-shot: dataset adapters and metrics

    A shallow embedding of [few_shot/datasets.py] and [few_shot/metrics.py].

    Python values are modelled as follows.
    - [int] is [Z]; [%] is floor modulo and raises on a zero divisor.
    - [float] (and float64 array entries) is a rational, plus the two
      special values a NumPy division by zero produces.  The conversion of
      an int rounds to the nearest double and raises beyond the range of a
      double; the rounding of a quotient is not modelled.
    - an image array carries the type of its pixels (bool, uint8 or
      uint16), and its arithmetic is that of the type.
    - an exception is a constructor of [exception]; a computation that may
      raise returns a [result].
    - code that touches the file system runs in the monad [io], which threads
      a [world]: the (read-only) content of the disk, the trace of the
      accesses made so far, and the state of the random number generator
      that random transforms draw from.
    - a dict keyed by dataset id is a [gmap Z _], a dict keyed by class name
      a [gmap string _]. *)

From Stdlib Require Import ZArith QArith Lia Ascii.
From stdpp Require Import base option list strings gmap fin_maps sorting.

Open Scope Z_scope.

(** ** Exceptions and results *)

Inductive exception : Type :=
  | ValueError
  | TypeError
  | KeyError
  | IndexError
  | AttributeError
  | ZeroDivisionError
  | RuntimeError
  | OverflowError
  | FileNotFoundError
  | OSError.

#[global] Instance exception_eq_dec : EqDecision exception.
Proof. solve_decision. Defined.

Inductive result (A : Type) : Type :=
  | Ok (a : A)
  | Raise (e : exception).
Arguments Ok {A} a.
Arguments Raise {A} e.

#[global] Instance result_bind : MBind result := λ A B k r,
  match r with
  | Ok a => k a
  | Raise e => Raise e
  end.
#[global] Instance result_ret : MRet result := λ A a, Ok a.
#[global] Instance result_fmap : FMap result := λ A B f r,
  match r with
  | Ok a => Ok (f a)
  | Raise e => Raise e
  end.

(** [for x in xs: f x], collecting the results; stops at the first raise. *)
Fixpoint rmapM {A B} (f : A → result B) (xs : list A) : result (list B) :=
  match xs with
  | [] => Ok []
  | x :: xs' => y ← f x; ys ← rmapM f xs'; Ok (y :: ys)
  end.

(** The LookupError family of Python's exception hierarchy: a subscript that
    does not exist, in a sequence ([IndexError]) or in a mapping ([KeyError]). *)
Definition is_LookupError (e : exception) : bool :=
  match e with
  | KeyError | IndexError => true
  | _ => false
  end.

(** The errors Python and its libraries report for a path that does not
    exist. *)
Definition is_NotFound (e : exception) : bool :=
  match e with
  | FileNotFoundError => true
  | _ => false
  end.

(** ** The [raise] statement

    [raise e] needs [e] to be an exception class or instance.  Any other
    object, a tuple for one, makes the statement itself fail with
    [TypeError] (exceptions must derive from BaseException). *)

#[warnings="-register-all"] Inductive pyobj : Type :=
  | ExcClass (e : exception)
  | PyStr (s : string)
  | PyTuple (items : list pyobj).

Definition py_raise (v : pyobj) : exception :=
  match v with
  | ExcClass e => e
  | PyStr _ | PyTuple _ => TypeError
  end.

(** ** Numbers *)

Inductive np_float : Type :=
  | Fin (q : Q)
  | Inf
  | NaN.

(** [a % b] on ints. *)
Definition py_mod (a b : Z) : result Z :=
  if decide (b = 0) then Raise ZeroDivisionError else Ok (a mod b).

(** [a / b] on ints: true division. *)
Definition py_truediv (a b : Z) : result Q :=
  if decide (b = 0) then Raise ZeroDivisionError
  else Ok (inject_Z a / inject_Z b)%Q.

(** [sys.maxsize], the largest size of a container (a 64-bit build). *)
Definition sys_maxsize : Z := 9223372036854775807.

(** The builtin [len(obj)]: the value of [obj.__len__()], which must not be
    negative and must fit the size type. *)
Definition py_len (n : Z) : result Z :=
  if decide (n < 0) then Raise ValueError
  else if decide (sys_maxsize < n) then Raise OverflowError
  else Ok n.

(** [xs * n] on lists: a count that does not fit the size type is an
    error, a negative one gives the empty list.  (Running out of memory is
    not modelled, here or elsewhere.) *)
Definition py_list_mul {A} (xs : list A) (n : Z) : result (list A) :=
  if decide (sys_maxsize < n) then Raise OverflowError
  else Ok (mjoin (replicate (Z.to_nat n) xs)).

(** The double nearest to the integer [a >= 0], ties to even.  Up to
    [2^53] every integer is a double; above, a double is a multiple of the
    power of two that leaves 53 bits. *)
Definition round_to_double (a : Z) : Z :=
  if decide (a < 2 ^ 53) then a
  else
    let s := Z.log2 a - 52 in
    let q := Z.shiftr a s in
    let r := a - Z.shiftl q s in
    let half := Z.shiftl 1 (s - 1) in
    let q' := if decide (half < r) then q + 1
              else if decide (r = half ∧ Z.odd q = true) then q + 1
              else q in
    Z.shiftl q' s.

(** [float(z)] on an int, which is also the conversion [np.array] makes of
    an int for a float64 array: the nearest double, and OverflowError for
    an int beyond the range of a double. *)
Definition float_of_int (z : Z) : result np_float :=
  let v := round_to_double (Z.abs z) in
  if decide (2 ^ 1024 ≤ v) then Raise OverflowError
  else Ok (Fin (inject_Z (Z.sgn z * v))).

(** NumPy's true division of two integers: no exception on a zero divisor. *)
Definition np_truediv (a b : Z) : np_float :=
  if decide (b = 0) then (if decide (a = 0) then NaN else Inf)
  else Fin (inject_Z a / inject_Z b)%Q.

(** ** metrics.py *)

Module metrics.

(** [row.argmax()]: the index of the first maximal entry; a reduction over
    an empty dimension is an error. *)
Fixpoint argmax_from (best_i : nat) (best : Q) (i : nat) (row : list Q) : nat :=
  match row with
  | [] => best_i
  | x :: row' =>
      if Qle_bool x best then argmax_from best_i best (S i) row'
      else argmax_from i x (S i) row'
  end.

Definition argmax (row : list Q) : result nat :=
  match row with
  | [] => Raise IndexError
  | x :: row' => Ok (argmax_from 0%nat x 1%nat row')
  end.

(** [torch.eq(a, b)] on two vectors, with broadcasting of a vector of
    length one. *)
Definition torch_eq (a b : list Z) : result (list bool) :=
  if decide (length a = length b) then
    Ok (zip_with (λ x y, bool_decide (x = y)) a b)
  else match a, b with
       | [x], _ => Ok ((λ y, bool_decide (x = y)) <$> b)
       | _, [y] => Ok ((λ x, bool_decide (x = y)) <$> a)
       | _, _ => Raise RuntimeError
       end.

(** [t.sum().item()] on a boolean vector. *)
Definition sum_item (t : list bool) : Z :=
  Z.of_nat (length (filter (λ b, b = true) t)).

(** [torch.eq(y_pred.argmax(dim=-1), y).sum().item() / y_pred.shape[0]] *)
Definition categorical_accuracy (y : list Z) (y_pred : list (list Q)) : result Q :=
  am ← rmapM argmax y_pred;
  hits ← torch_eq (Z.of_nat <$> am) y;
  py_truediv (sum_item hits) (Z.of_nat (length y_pred)).

(** What an argmax is, stated without the scan: [k] indexes an entry that
    no entry exceeds and that every earlier entry is strictly below. *)
Definition is_first_argmax (row : list Q) (k : nat) : Prop :=
  ∃ v, row !! k = Some v
       ∧ (∀ j w, row !! j = Some w → (w <= v)%Q)
       ∧ (∀ j w, (j < k)%nat → row !! j = Some w → (w < v)%Q).

End metrics.

(** ** datasets.py: DummyDataset *)

Module DummyDataset.

Record t : Type := {
  samples_per_class : Z;
  n_classes : Z;
  n_features : Z;
  (** the data frame, one row per sample: columns [class_id] and [id] *)
  df : list (Z * Z)
}.

(** [__len__] *)
Definition len (self : t) : Z :=
  samples_per_class self * n_classes self.

(** [__init__]; [len(self)] is evaluated when the three parameters are
    set and the data frame is not. *)
Definition init (samples_per_class n_classes n_features : Z) : result t :=
  n ← py_len (samples_per_class * n_classes);
  class_ids ← rmapM (λ i, py_mod i n_classes) (seqZ 0 n);
  Ok {| samples_per_class := samples_per_class;
        n_classes := n_classes;
        n_features := n_features;
        df := zip class_ids (seqZ 0 n) |}.

(** [__getitem__]: [np.array([item] + [class_id]*n_features, dtype=float)]
    and [float(class_id)]. *)
Definition getitem (self : t) (item : Z) : result (list np_float * np_float) :=
  class_id ← py_mod item (n_classes self);
  features ← py_list_mul [class_id] (n_features self);
  sample ← rmapM float_of_int ([item] ++ features);
  label ← float_of_int class_id;
  Ok (sample, label).

End DummyDataset.

(** ** Strings and paths *)

(** [s.endswith(suffix)] *)
Definition endswith (s suffix : string) : bool :=
  let n := String.length s in
  let k := String.length suffix in
  bool_decide (k ≤ n)%nat
  && bool_decide (String.substring (n - k) k s = suffix).

(** [s.split(sep)] for a separator of one character. *)
Fixpoint split (sep : Ascii.ascii) (s : string) : list string :=
  match s with
  | EmptyString => [""]
  | String c s' =>
      if decide (c = sep) then "" :: split sep s'
      else match split sep s' with
           | [] => [String c ""]
           | w :: ws => String c w :: ws
           end
  end.

(** [l[i]] on a list: a negative index counts from the end. *)
Definition py_list_get {A} (l : list A) (i : Z) : result A :=
  let n := Z.of_nat (length l) in
  let j := if decide (i < 0) then i + n else i in
  if decide (0 ≤ j < n) then
    match l !! Z.to_nat j with
    | Some x => Ok x
    | None => Raise IndexError
    end
  else Raise IndexError.

(** [d[k]] on a dict. *)
Definition py_dict_get `{Countable K} {V} (d : gmap K V) (k : K) : result V :=
  match d !! k with
  | Some v => Ok v
  | None => Raise KeyError
  end.

(** [os.path.join(a, b)] for two components (POSIX). *)
Definition os_path_join (a b : string) : string :=
  if String.prefix "/" b then b
  else if bool_decide (a = "") || endswith a "/" then a +:+ b
  else a +:+ "/" +:+ b.

(** ** The file system and the [io] monad *)

(** A directory entry: a plain file, or a folder with its entries in the
    order the operating system lists them. *)
#[warnings="-register-all"] Inductive entry : Type :=
  | File (name : string)
  | Folder (name : string) (children : list entry).

Definition entry_name (e : entry) : string :=
  match e with
  | File n => n
  | Folder n _ => n
  end.

Definition is_folder (e : entry) : bool :=
  match e with
  | File _ => false
  | Folder _ _ => true
  end.

(** An n-dimensional array: its shape and its entries in row-major order. *)
Record ndarray (A : Type) : Type := {
  shape : list nat;
  data : list A
}.
Arguments shape {A} _.
Arguments data {A} _.

(** The types of the pixels of a decoded image file: one bit, eight bits
    or sixteen bits to the sample. *)
Inductive dtype : Type :=
  | bool_
  | uint8
  | uint16.

#[global] Instance dtype_eq_dec : EqDecision dtype.
Proof. solve_decision. Defined.

(** A decoded image: the type of its pixels and their values. *)
Record image : Type := {
  dtype_of : dtype;
  pixels : ndarray Z
}.

(** What a path holds when it is read as an image. *)
Inductive file_state : Type :=
  | Missing
  | Corrupt
  | Pixels (a : image).

(** An HDF5 container with the three regions the logo data set reads. *)
Record blob : Type := {
  labels_resnet_rc_32 : list Z;
  shapes : list (list nat);
  blob_data : list (ndarray Z)
}.

Record filesystem : Type := {
  (** the entries of the directory at a path, when there is one *)
  fs_dir : string → option (list entry);
  (** the rows of the two-column csv file at a path, when there is one *)
  fs_csv : string → option (list (string * Z));
  fs_image : string → file_state;
  fs_hdf5 : string → option blob
}.

Inductive fs_event : Type :=
  | EvWalk (top : string)
  | EvReadCsv (path : string)
  | EvOpenImage (path : string)
  | EvOpenHdf5 (path : string).

(** The world a computation runs in: the disk, the accesses made so far,
    and the state of the random number generator. *)
Record world : Type := {
  disk : filesystem;
  trace : list fs_event;
  rng : Z
}.

Definition io (A : Type) : Type := world → result A * world.

#[global] Instance io_ret : MRet io := λ A a w, (Ok a, w).
#[global] Instance io_bind : MBind io := λ A B k m w,
  match m w with
  | (Ok a, w') => k a w'
  | (Raise e, w') => (Raise e, w')
  end.

Definition io_raise {A} (e : exception) : io A := λ w, (Raise e, w).

Definition lift {A} (r : result A) : io A := λ w, (r, w).

(** Record one access to the file system. *)
Definition log (w : world) (ev : fs_event) : world :=
  {| disk := disk w; trace := trace w ++ [ev]; rng := rng w |}.

Definition touch (ev : fs_event) : io () := λ w, (Ok (), log w ev).

Definition read_disk : io filesystem := λ w, (Ok (disk w), w).

(** One item of [os.walk]: [(root, folders, files)]. *)
Definition walk_item : Type := string * list string * list string.

(** [os.walk] below a folder, top-down. *)
Fixpoint walk_entry (path : string) (e : entry) : list walk_item :=
  match e with
  | File _ => []
  | Folder _ children =>
      (path,
       entry_name <$> filter (λ c, is_folder c = true) children,
       entry_name <$> filter (λ c, is_folder c = false) children)
      :: flat_map (λ c, walk_entry (os_path_join path (entry_name c)) c) children
  end.

(** What [os.walk(top)] yields on a disk: errors of the directory scan are
    ignored, so a [top] that does not exist yields nothing. *)
Definition walk (fs : filesystem) (top : string) : list walk_item :=
  match fs_dir fs top with
  | None => []
  | Some children => walk_entry top (Folder "" children)
  end.

Definition os_walk (top : string) : io (list walk_item) :=
  _ ← touch (EvWalk top);
  fs ← read_disk;
  mret (walk fs top).

(** [io.imread(path)] of scikit-image: a file it finds no decoder for is a
    ValueError. *)
Definition imread (path : string) : io image :=
  _ ← touch (EvOpenImage path);
  fs ← read_disk;
  match fs_image fs path with
  | Missing => io_raise FileNotFoundError
  | Corrupt => io_raise ValueError
  | Pixels a => mret a
  end.

(** [Image.open(path)] of Pillow, with the load of the pixels that the
    first transform makes: a file Pillow cannot identify or decode is an
    OSError. *)
Definition Image_open (path : string) : io image :=
  _ ← touch (EvOpenImage path);
  fs ← read_disk;
  match fs_image fs path with
  | Missing => io_raise FileNotFoundError
  | Corrupt => io_raise OSError
  | Pixels a => mret a
  end.

(** [h5py.File(path, 'r')] *)
Definition h5py_File (path : string) : io blob :=
  _ ← touch (EvOpenHdf5 path);
  fs ← read_disk;
  match fs_hdf5 fs path with
  | None => io_raise FileNotFoundError
  | Some b => mret b
  end.

(** [pd.read_csv(path, names=[...])]: the rows of the table.  The column
    names are given, so a file with no row is read as a frame with no
    row. *)
Definition pd_read_csv (path : string) : io (list (string * Z)) :=
  _ ← touch (EvReadCsv path);
  fs ← read_disk;
  match fs_csv fs path with
  | None => io_raise FileNotFoundError
  | Some rows => mret rows
  end.

(** ** A small model of pandas

    A data frame is its index and its named columns; a column holds strings
    or integers. *)

Record DataFrame : Type := {
  df_index : list Z;
  str_columns : gmap string (list string);
  int_columns : gmap string (list Z)
}.

(** [pd.DataFrame(records)] for a list of dicts with string values: the
    index is [0..n-1] and the columns are the keys of the records, so no
    record gives no column.  The records of one index builder share their
    keys; a cell whose record lacks the key is not modelled and reads as the
    empty string. *)
Definition pd_DataFrame (records : list (gmap string string)) : DataFrame :=
  {| df_index := seqZ 0 (Z.of_nat (length records));
     str_columns :=
       set_to_map (λ k, (k, (λ r : gmap string string, default "" (r !! k)) <$> records))
                  (⋃ (dom <$> records) : gset string);
     int_columns := ∅ |}.

(** [len(df)] *)
Definition df_len (df : DataFrame) : Z := Z.of_nat (length (df_index df)).

(** [df[name]] for a column of strings, and for a column of integers. *)
Definition df_str (df : DataFrame) (name : string) : result (list string) :=
  py_dict_get (str_columns df) name.

Definition df_int (df : DataFrame) (name : string) : result (list Z) :=
  py_dict_get (int_columns df) name.

(** [df.assign(name=values)] for integer values. *)
Definition df_assign_int (df : DataFrame) (name : string) (values : list Z) : DataFrame :=
  {| df_index := df_index df;
     str_columns := delete name (str_columns df);
     int_columns := <[name := values]> (int_columns df) |}.

(** [df.to_dict()[name]]: the column as a dict from index to value. *)
Definition to_dict_str (df : DataFrame) (name : string) : result (gmap Z string) :=
  values ← py_dict_get (str_columns df) name;
  Ok (list_to_map (zip (df_index df) values)).

Definition to_dict_int (df : DataFrame) (name : string) : result (gmap Z Z) :=
  values ← py_dict_get (int_columns df) name;
  Ok (list_to_map (zip (df_index df) values)).

(** [series.unique()]: the distinct values, in order of first appearance. *)
Fixpoint unique_from `{EqDecision A} (seen : list A) (l : list A) : list A :=
  match l with
  | [] => []
  | x :: l' =>
      if decide (x ∈ seen) then unique_from seen l'
      else x :: unique_from (x :: seen) l'
  end.

Definition unique `{EqDecision A} (l : list A) : list A := unique_from [] l.

(** [sorted(names)] on strings. *)
Definition sorted (names : list string) : list string :=
  merge_sort String.le names.

(** ** The label encoder

    [{unique_characters[i]: i for i in range(n)}] *)
Definition class_table (unique_characters : list string) (n : Z) : result (gmap string Z) :=
  foldl (λ acc i, d ← acc; c ← py_list_get unique_characters i; Ok (<[c := i]> d))
        (Ok ∅) (seqZ 0 n).

(** [len(df['class_name'].unique())], the body of [num_classes] of the
    classes that walk a directory. *)
Definition count_class_names (df : DataFrame) : result Z :=
  names ← df_str df "class_name";
  Ok (Z.of_nat (length (unique names))).

(** The part of [__init__] that the three directory-walk classes share, from
    the data frame of the indexed records to the class ids:
    [df.assign(id=...)], [sorted(df['class_name'].unique())], the dict
    comprehension over [range(num_classes)], and
    [df.assign(class_id=df['class_name'].apply(...))]. *)
Definition encode_labels (images : list (gmap string string))
  : result (DataFrame * list string * gmap string Z) :=
  let df := pd_DataFrame images in
  let df := df_assign_int df "id" (df_index df) in
  names ← df_str df "class_name";
  let unique_characters := sorted (unique names) in
  num_classes ← count_class_names df;
  class_name_to_id ← class_table unique_characters num_classes;
  names ← df_str df "class_name";
  class_ids ← rmapM (py_dict_get class_name_to_id) names;
  let df := df_assign_int df "class_id" class_ids in
  Ok (df, unique_characters, class_name_to_id).

(** ** Progress bar and the two passes of an index builder *)

Record tqdm : Type := {
  total : nat;
  n : nat
}.

Definition tqdm_update (bar : tqdm) (k : nat) : tqdm :=
  {| total := total bar; n := (n bar + k)%nat |}.

(** The first pass: [subset_len += len([f for f in files if f.endswith('.png')])]. *)
Definition count_png (items : list walk_item) : nat :=
  foldl (λ subset_len '(root, folders, files),
           (subset_len + length (filter (λ f, endswith f ".png" = true) files))%nat)
        0%nat items.

(** The second pass.  [describe root] is what a class computes once for a
    folder that holds files (the keys every record of the folder shares);
    each file then adds its [filepath] and advances the bar by one. *)
Definition index_pass (describe : string → result (gmap string string))
    (items : list walk_item) (bar : tqdm)
  : result (tqdm * list (gmap string string)) :=
  foldl (λ acc '(root, folders, files),
           '(bar, images) ← acc;
           if decide (length files = 0%nat) then Ok (bar, images)
           else
             common ← describe root;
             Ok (tqdm_update bar (length files),
                 images ++ ((λ f, <["filepath" := os_path_join root f]> common) <$> files)))
        (Ok (bar, [])) items.

(** ** torchvision transforms

    The transforms of [torchvision.transforms] come in two kinds.  Those of
    [transform_op] are functions of their input.  Those of [random_op]
    draw from the random number generator: what they return depends on its
    state, and they advance it. *)

Inductive transform_op : Type :=
  | CenterCrop (size : nat)
  | Resize (size : nat)
  | ResizeTo (height width : nat)
  | Grayscale (num_output_channels : nat)
  | ToTensor
  | Normalize (mean std : list Q).

Inductive random_op : Type :=
  | RandomCrop (size : nat)
  | RandomResizedCrop (size : nat)
  | RandomHorizontalFlip
  | RandomVerticalFlip
  | RandomRotation (degrees : nat)
  | ColorJitter.

(** An entry of the list given to [transforms.Compose]. *)
Inductive transform : Type :=
  | Fixed (op : transform_op)
  | Random (op : random_op).

Inductive picture : Type :=
  | PIL (a : image)
  | Tensor (a : ndarray np_float).

(** What the code takes from outside: [config.DATA_PATH], and what each
    torchvision transform computes; a random transform is given the state
    of the generator and returns the next state with its result. *)
Record environment : Type := {
  DATA_PATH : string;
  torchvision : transform_op → picture → result picture;
  torchvision_random : random_op → Z → picture → result picture * Z
}.

(** [transforms.Compose(ops)(x)] for transforms that are functions. *)
Definition Compose (E : environment) (ops : list transform_op) (x : picture) : result picture :=
  foldl (λ acc op, p ← acc; torchvision E op p) (Ok x) ops.

(** One call of a random transform: it reads the generator and leaves it
    in its next state. *)
Definition draw (E : environment) (op : random_op) (p : picture) : io picture :=
  λ w, let '(r, g) := torchvision_random E op (rng w) p in
       (r, {| disk := disk w; trace := trace w; rng := g |}).

(** [transforms.Compose(ts)(x)] for any list of transforms: each is
    called on the result of the one before. *)
Definition Compose_call (E : environment) (ts : list transform) (x : picture) : io picture :=
  foldl (λ acc t, p ← acc;
                  match t with
                  | Fixed op => lift (torchvision E op p)
                  | Random op => draw E op p
                  end)
        (mret x) ts.

(** The check every constructor makes on [subset], and the statement it
    runs when the check fails: [raise(ValueError, '...')], which raises a
    tuple. *)
Definition valid_subset (subset : string) : bool :=
  bool_decide (subset ∈ ["background"; "evaluation"]).

Definition subset_error : exception :=
  py_raise (PyTuple [ExcClass ValueError;
                     PyStr "subset must be one of (background, evaluation)"]).

(** What [__getitem__] returns. *)
Inductive sample : Type :=
  | Array (a : ndarray np_float)
  | Picture (p : picture)
  | Vector (v : list np_float).

Inductive label : Type :=
  | IntLabel (z : Z)
  | FloatLabel (x : np_float).

(** ** NumPy on arrays *)

(** [a[np.newaxis, :, :]]: two slices need two dimensions. *)
Definition np_newaxis {A} (a : ndarray A) : result (ndarray A) :=
  if decide (length (shape a) < 2)%nat then Raise IndexError
  else Ok {| shape := 1%nat :: shape a; data := data a |}.

(** [a.min()] and [a.max()]: a reduction over no element is an error. *)
Definition np_min (a : ndarray Z) : result Z :=
  match data a with
  | [] => Raise ValueError
  | x :: xs => Ok (foldl Z.min x xs)
  end.

Definition np_max (a : ndarray Z) : result Z :=
  match data a with
  | [] => Raise ValueError
  | x :: xs => Ok (foldl Z.max x xs)
  end.

(** uint8 arithmetic wraps around, and so does uint16 arithmetic. *)
Definition u8 (z : Z) : Z := z mod 256.

Definition u16 (z : Z) : Z := z mod 65536.

(** [(instance - instance.min()) / (instance.max() - instance.min())] on a
    uint8 array. *)
Definition min_max_rescale (a : ndarray Z) : result (ndarray np_float) :=
  lo ← np_min a;
  hi ← np_max a;
  lo' ← np_min a;
  Ok {| shape := shape a;
        data := (λ x, np_truediv (u8 (x - lo)) (u8 (hi - lo'))) <$> data a |}.

(** The same expression on a uint16 array. *)
Definition min_max_rescale16 (a : ndarray Z) : result (ndarray np_float) :=
  lo ← np_min a;
  hi ← np_max a;
  lo' ← np_min a;
  Ok {| shape := shape a;
        data := (λ x, np_truediv (u16 (x - lo)) (u16 (hi - lo'))) <$> data a |}.

(** [instance[np.newaxis, :, :]] keeps the type of the pixels. *)
Definition image_newaxis (instance : image) : result image :=
  a ← np_newaxis (pixels instance);
  Ok {| dtype_of := dtype_of instance; pixels := a |}.

(** [(instance - instance.min()) / (instance.max() - instance.min())] on
    a decoded image.  NumPy has no subtraction of booleans: on an image of
    one bit to the pixel the minimum is taken and the [-] is a
    TypeError. *)
Definition rescale (instance : image) : result (ndarray np_float) :=
  match dtype_of instance with
  | uint8 => min_max_rescale (pixels instance)
  | uint16 => min_max_rescale16 (pixels instance)
  | bool_ => _ ← np_min (pixels instance); Raise TypeError
  end.

(** [Image.fromarray(a)] on a uint8 array.  Pillow takes the mode from the
    shape: a grey image for one or two dimensions, and for three
    dimensions the last one has to hold two, three or four channels; it
    has no mode for another number of channels (TypeError) and takes no
    array of more dimensions (ValueError). *)
Definition Image_fromarray (a : ndarray Z) : result picture :=
  match shape a with
  | [] => Raise IndexError
  | [_] | [_; _] => Ok (PIL {| dtype_of := uint8; pixels := a |})
  | [_; _; c] =>
      if decide (2 ≤ c ≤ 4)%nat then Ok (PIL {| dtype_of := uint8; pixels := a |})
      else Raise TypeError
  | _ => Raise ValueError
  end.

(** [stored[:, :h, :w]] on an array of three dimensions, the entry of a
    stacked store of four. *)
Definition crop (a : ndarray Z) (h w : nat) : result (ndarray Z) :=
  match shape a with
  | [C; H; W] =>
      let h' := (h `min` H)%nat in
      let w' := (w `min` W)%nat in
      Ok {| shape := [C; h'; w'];
            data := i ← seq 0 C; j ← seq 0 h'; k ← seq 0 w';
                    [default 0 (data a !! (i * H * W + j * W + k)%nat)] |}
  | _ => Raise IndexError
  end.

(** [a.astype(np.uint8)] *)
Definition astype_uint8 (a : ndarray Z) : ndarray Z :=
  {| shape := shape a; data := u8 <$> data a |}.

(** [a.T] on an array of three dimensions: the axes reversed. *)
Definition transpose (a : ndarray Z) : ndarray Z :=
  match shape a with
  | [C; H; W] =>
      {| shape := [W; H; C];
         data := k ← seq 0 W; j ← seq 0 H; i ← seq 0 C;
                 [default 0 (data a !! (i * H * W + j * W + k)%nat)] |}
  | _ => {| shape := reverse (shape a); data := data a |}
  end.

(** The body of [__getitem__] that the four classes reading image files
    through PIL share: open the file of [item], run the composed
    transform, look the label up. *)
Definition pil_getitem (E : environment) (datasetid_to_filepath : gmap Z string)
    (datasetid_to_class_id : gmap Z Z) (transform : list transform) (item : Z)
  : io (picture * Z) :=
  path ← lift (py_dict_get datasetid_to_filepath item);
  instance ← Image_open path;
  instance ← Compose_call E transform (PIL instance);
  label ← lift (py_dict_get datasetid_to_class_id item);
  mret (instance, label).

(** The data frame [pd.read_csv(path, names=['filepath', 'class_id'])]
    builds from the rows of a manifest. *)
Definition manifest_frame (rows : list (string * Z)) : DataFrame :=
  {| df_index := seqZ 0 (Z.of_nat (length rows));
     str_columns := {[ "filepath" := rows.*1 ]};
     int_columns := {[ "class_id" := rows.*2 ]} |}.

(** ** OmniglotDataset *)

Module OmniglotDataset.

Record t : Type := {
  subset : string;
  df : DataFrame;
  unique_characters : list string;
  class_name_to_id : gmap string Z;
  datasetid_to_filepath : gmap Z string;
  datasetid_to_class_id : gmap Z Z
}.

(** [alphabet = root.split('/')[-2]] and
    [class_name = '{}.{}'.format(alphabet, root.split('/')[-1])] *)
Definition describe (subset root : string) : result (gmap string string) :=
  alphabet ← py_list_get (split "/"%char root) (-2);
  character ← py_list_get (split "/"%char root) (-1);
  let class_name := alphabet +:+ "." +:+ character in
  Ok ({[ "subset" := subset; "alphabet" := alphabet; "class_name" := class_name ]}
      : gmap string string).

(** [index_subset]; the progress bar is returned next to the records. *)
Definition index_subset (E : environment) (subset : string)
  : io (tqdm * list (gmap string string)) :=
  let top := DATA_PATH E +:+ "/Omniglot/images_" +:+ subset +:+ "/" in
  items ← os_walk top;
  let subset_len := count_png items in
  let progress_bar := {| total := subset_len; n := 0 |} in
  items ← os_walk top;
  lift (index_pass (describe subset) items progress_bar).

(** [__init__] *)
Definition init (E : environment) (subset : string) : io t :=
  if negb (valid_subset subset) then io_raise subset_error
  else
    '(_, images) ← index_subset E subset;
    '(df, unique_characters, class_name_to_id) ← lift (encode_labels images);
    datasetid_to_filepath ← lift (to_dict_str df "filepath");
    datasetid_to_class_id ← lift (to_dict_int df "class_id");
    mret {| subset := subset;
            df := df;
            unique_characters := unique_characters;
            class_name_to_id := class_name_to_id;
            datasetid_to_filepath := datasetid_to_filepath;
            datasetid_to_class_id := datasetid_to_class_id |}.

(** [__getitem__] *)
Definition getitem (self : t) (item : Z) : io (ndarray np_float * Z) :=
  path ← lift (py_dict_get (datasetid_to_filepath self) item);
  instance ← imread path;
  instance ← lift (image_newaxis instance);
  instance ← lift (rescale instance);
  label ← lift (py_dict_get (datasetid_to_class_id self) item);
  mret (instance, label).

(** [__len__] *)
Definition len (self : t) : Z := df_len (df self).

Definition num_classes (self : t) : result Z := count_class_names (df self).

End OmniglotDataset.

(** ** MiniImageNet *)

Module MiniImageNet.

Record t : Type := {
  subset : string;
  df : DataFrame;
  unique_characters : list string;
  class_name_to_id : gmap string Z;
  datasetid_to_filepath : gmap Z string;
  datasetid_to_class_id : gmap Z Z;
  transform : list transform
}.

(** [class_name = root.split('/')[-1]] *)
Definition describe (subset root : string) : result (gmap string string) :=
  class_name ← py_list_get (split "/"%char root) (-1);
  Ok ({[ "subset" := subset; "class_name" := class_name ]} : gmap string string).

Definition index_subset (E : environment) (subset : string)
  : io (tqdm * list (gmap string string)) :=
  let top := DATA_PATH E +:+ "/miniImageNet/images_" +:+ subset +:+ "/" in
  items ← os_walk top;
  let subset_len := count_png items in
  let progress_bar := {| total := subset_len; n := 0 |} in
  items ← os_walk top;
  lift (index_pass (describe subset) items progress_bar).

Definition crop_transform : list transform_op :=
  [CenterCrop 224; Resize 84; ToTensor;
   Normalize [485 # 1000; 456 # 1000; 406 # 1000]%Q
             [229 # 1000; 224 # 1000; 225 # 1000]%Q].

Definition init (E : environment) (subset : string) : io t :=
  if negb (valid_subset subset) then io_raise subset_error
  else
    '(_, images) ← index_subset E subset;
    '(df, unique_characters, class_name_to_id) ← lift (encode_labels images);
    datasetid_to_filepath ← lift (to_dict_str df "filepath");
    datasetid_to_class_id ← lift (to_dict_int df "class_id");
    mret {| subset := subset;
            df := df;
            unique_characters := unique_characters;
            class_name_to_id := class_name_to_id;
            datasetid_to_filepath := datasetid_to_filepath;
            datasetid_to_class_id := datasetid_to_class_id;
            transform := Fixed <$> crop_transform |}.

Definition getitem (E : environment) (self : t) (item : Z) : io (picture * Z) :=
  pil_getitem E (datasetid_to_filepath self) (datasetid_to_class_id self)
              (transform self) item.

Definition len (self : t) : Z := df_len (df self).

Definition num_classes (self : t) : result Z := count_class_names (df self).

End MiniImageNet.

(** The transform of the classes that read a manifest or the blob. *)
Definition resize_transform : list transform_op :=
  [ResizeTo 86 86; Grayscale 3; ToTensor].

(** ** ImageNetKamonDataset *)

Module ImageNetKamonDataset.

(** The two attributes of the label encoder exist on a [background]
    instance only. *)
Record t : Type := {
  subset : string;
  df : DataFrame;
  unique_characters : option (list string);
  class_name_to_id : option (gmap string Z);
  transform : list transform;
  datasetid_to_filepath : gmap Z string;
  datasetid_to_class_id : gmap Z Z
}.

Definition csv_filepath : string :=
  "/data/input/configs/input_files/eval_input_charge_classification_v1.csv".

Definition describe (subset root : string) : result (gmap string string) :=
  class_name ← py_list_get (split "/"%char root) (-1);
  Ok ({[ "subset" := subset; "class_name" := class_name ]} : gmap string string).

Definition index_subset (E : environment) (subset : string)
  : io (tqdm * list (gmap string string)) :=
  let top := DATA_PATH E +:+ "/miniImageNet/images_" +:+ subset +:+ "/" in
  items ← os_walk top;
  let subset_len := count_png items in
  let progress_bar := {| total := subset_len; n := 0 |} in
  items ← os_walk top;
  lift (index_pass (describe subset) items progress_bar).

(** [__init__]: an if/elif/elif chain, then the two dicts.  The last
    branch of the model is the fall-through of the chain, where [self.df]
    would not exist. *)
Definition init (E : environment) (subset : string) : io t :=
  if negb (valid_subset subset) then io_raise subset_error
  else if decide (subset = "background") then
    '(_, images) ← index_subset E subset;
    '(df, unique_characters, class_name_to_id) ← lift (encode_labels images);
    datasetid_to_filepath ← lift (to_dict_str df "filepath");
    datasetid_to_class_id ← lift (to_dict_int df "class_id");
    mret {| subset := subset;
            df := df;
            unique_characters := Some unique_characters;
            class_name_to_id := Some class_name_to_id;
            transform := Fixed <$> MiniImageNet.crop_transform;
            datasetid_to_filepath := datasetid_to_filepath;
            datasetid_to_class_id := datasetid_to_class_id |}
  else if decide (subset = "evaluation") then
    rows ← pd_read_csv csv_filepath;
    let df := manifest_frame rows in
    let df := df_assign_int df "id" (df_index df) in
    datasetid_to_filepath ← lift (to_dict_str df "filepath");
    datasetid_to_class_id ← lift (to_dict_int df "class_id");
    mret {| subset := subset;
            df := df;
            unique_characters := None;
            class_name_to_id := None;
            transform := Fixed <$> resize_transform;
            datasetid_to_filepath := datasetid_to_filepath;
            datasetid_to_class_id := datasetid_to_class_id |}
  else io_raise AttributeError.

Definition getitem (E : environment) (self : t) (item : Z) : io (picture * Z) :=
  pil_getitem E (datasetid_to_filepath self) (datasetid_to_class_id self)
              (transform self) item.

Definition len (self : t) : Z := df_len (df self).

(** [len(self.df['class_id'].unique())] *)
Definition num_classes (self : t) : result Z :=
  ids ← df_int (df self) "class_id";
  Ok (Z.of_nat (length (unique ids))).

End ImageNetKamonDataset.

(** ** KamonDataset and OldKamonDataset *)

(** The attributes of the two classes are the same. *)
Record manifest_dataset : Type := {
  m_subset : string;
  m_df : DataFrame;
  m_datasetid_to_filepath : gmap Z string;
  m_datasetid_to_class_id : gmap Z Z;
  m_transform : list transform
}.

(** [__init__] after the choice of [csv_filepath], the same text in both
    classes. *)
Definition manifest_init (subset csv_filepath : string) : io manifest_dataset :=
  rows ← pd_read_csv csv_filepath;
  let df := manifest_frame rows in
  let df := df_assign_int df "id" (df_index df) in
  datasetid_to_filepath ← lift (to_dict_str df "filepath");
  datasetid_to_class_id ← lift (to_dict_int df "class_id");
  mret {| m_subset := subset;
          m_df := df;
          m_datasetid_to_filepath := datasetid_to_filepath;
          m_datasetid_to_class_id := datasetid_to_class_id;
          m_transform := Fixed <$> resize_transform |}.

Module KamonDataset.

Definition t : Type := manifest_dataset.

Definition init (E : environment) (subset : string) : io t :=
  if decide (subset = "background") then
    manifest_init subset
      "/data/input/configs/input_files/training_input_charge_classification_v1.csv"
  else if decide (subset = "evaluation") then
    manifest_init subset
      "/data/input/configs/input_files/eval_input_charge_classification_v1.csv"
  else io_raise subset_error.

Definition len (self : t) : Z := df_len (m_df self).

Definition getitem (E : environment) (self : t) (item : Z) : io (picture * Z) :=
  pil_getitem E (m_datasetid_to_filepath self) (m_datasetid_to_class_id self)
              (m_transform self) item.

End KamonDataset.

Module OldKamonDataset.

Definition t : Type := manifest_dataset.

Definition init (E : environment) (subset : string) : io t :=
  if decide (subset = "background") then
    manifest_init subset
      "/data/input/configs/input_files/training_input_classification_extended_v6.csv"
  else if decide (subset = "evaluation") then
    manifest_init subset
      "/data/input/configs/input_files/eval_input_classification_extended_v6.csv"
  else io_raise subset_error.

Definition len (self : t) : Z := df_len (m_df self).

Definition getitem (E : environment) (self : t) (item : Z) : io (picture * Z) :=
  pil_getitem E (m_datasetid_to_filepath self) (m_datasetid_to_class_id self)
              (m_transform self) item.

End OldKamonDataset.

(** ** LogoDataset *)

Module LogoDataset.

Record t : Type := {
  hdf5_filepath : string;
  subset : string;
  df : DataFrame;
  datasetid_to_image_id : gmap Z Z;
  datasetid_to_class_id : gmap Z Z;
  transform : list transform
}.

(** [__init__]: the container is opened first, the subset is looked at
    next. *)
Definition init (E : environment) (subset : string) : io t :=
  let hdf5_filepath := "/data/input/logo/LLD-logo.hdf5" in
  hdf5_file ← h5py_File hdf5_filepath;
  '(starting_index, ending_index) ←
    (if decide (subset = "background") then mret (0, 20000)
     else if decide (subset = "evaluation") then mret (20000, 30000)
     else io_raise subset_error);
  let index := seqZ 0 (ending_index - starting_index) in
  rows ← lift (rmapM (λ i,
                  let image_id := i + starting_index in
                  class_id ← py_list_get (labels_resnet_rc_32 hdf5_file) image_id;
                  Ok (image_id, class_id)) index);
  let df := {| df_index := index;
               str_columns := ∅;
               int_columns := {[ "image_id" := rows.*1; "class_id" := rows.*2 ]} |} in
  let df := df_assign_int df "id" (df_index df) in
  datasetid_to_image_id ← lift (to_dict_int df "image_id");
  datasetid_to_class_id ← lift (to_dict_int df "class_id");
  mret {| hdf5_filepath := hdf5_filepath;
          subset := subset;
          df := df;
          datasetid_to_image_id := datasetid_to_image_id;
          datasetid_to_class_id := datasetid_to_class_id;
          transform := Fixed <$> resize_transform |}.

Definition len (self : t) : Z := df_len (df self).

(** [__getitem__]: the container is opened again at every call. *)
Definition getitem (E : environment) (self : t) (item : Z) : io (picture * Z) :=
  hdf5_file ← h5py_File (hdf5_filepath self);
  image_id ← lift (py_dict_get (datasetid_to_image_id self) item);
  image_shape ← lift (py_list_get (shapes hdf5_file) image_id);
  height ← lift (py_list_get image_shape 1);
  width ← lift (py_list_get image_shape 2);
  stored ← lift (py_list_get (blob_data hdf5_file) image_id);
  image ← lift (crop stored height width);
  let image := astype_uint8 image in
  instance ← lift (Image_fromarray (transpose image));
  instance ← Compose_call E (transform self) instance;
  label ← lift (py_dict_get (datasetid_to_class_id self) item);
  mret (instance, label).

End LogoDataset.

(** ** The data set interface

    The classes behind one interface: [construct(subset)], [len(d)],
    [d[i]] and [d.num_classes()].  A class that does not define
    [num_classes] answers the call with AttributeError. *)

Module Dataset.

Inductive dataset_class : Type :=
  | COmniglot
  | CMiniImageNet
  | CImageNetKamon
  | CKamon
  | COldKamon
  | CLogo.

#[global] Instance dataset_class_eq_dec : EqDecision dataset_class.
Proof. solve_decision. Defined.

Inductive dataset : Type :=
  | Omniglot (d : OmniglotDataset.t)
  | MiniImageNet (d : MiniImageNet.t)
  | ImageNetKamon (d : ImageNetKamonDataset.t)
  | Kamon (d : KamonDataset.t)
  | OldKamon (d : OldKamonDataset.t)
  | Logo (d : LogoDataset.t)
  | Dummy (d : DummyDataset.t).

(** How a class finds its samples. *)
Inductive variant : Type :=
  | DirectoryWalk
  | Manifest
  | EmbeddedBlob.

Definition variant_of (c : dataset_class) (subset : string) : variant :=
  match c with
  | COmniglot | CMiniImageNet => DirectoryWalk
  | CImageNetKamon =>
      if decide (subset = "background") then DirectoryWalk else Manifest
  | CKamon | COldKamon => Manifest
  | CLogo => EmbeddedBlob
  end.

Definition construct (E : environment) (c : dataset_class) (subset : string) : io dataset :=
  match c with
  | COmniglot => d ← OmniglotDataset.init E subset; mret (Omniglot d)
  | CMiniImageNet => d ← MiniImageNet.init E subset; mret (MiniImageNet d)
  | CImageNetKamon => d ← ImageNetKamonDataset.init E subset; mret (ImageNetKamon d)
  | CKamon => d ← KamonDataset.init E subset; mret (Kamon d)
  | COldKamon => d ← OldKamonDataset.init E subset; mret (OldKamon d)
  | CLogo => d ← LogoDataset.init E subset; mret (Logo d)
  end.

(** [len(d)]: the builtin calls [__len__] and checks the number it is
    given.  A class backed by a data frame answers with the size of a
    container, which is a size; DummyDataset answers with the product of
    two of its parameters, which need not be one. *)
Definition length (d : dataset) : result Z :=
  match d with
  | Omniglot d => Ok (OmniglotDataset.len d)
  | MiniImageNet d => Ok (MiniImageNet.len d)
  | ImageNetKamon d => Ok (ImageNetKamonDataset.len d)
  | Kamon d => Ok (KamonDataset.len d)
  | OldKamon d => Ok (OldKamonDataset.len d)
  | Logo d => Ok (LogoDataset.len d)
  | Dummy d => py_len (DummyDataset.len d)
  end.

Definition with_int_label {A} (f : A → sample) (m : io (A * Z)) : io (sample * label) :=
  '(x, l) ← m; mret (f x, IntLabel l).

(** [d[index]] *)
Definition get (E : environment) (d : dataset) (index : Z) : io (sample * label) :=
  match d with
  | Omniglot d => with_int_label Array (OmniglotDataset.getitem d index)
  | MiniImageNet d => with_int_label Picture (MiniImageNet.getitem E d index)
  | ImageNetKamon d => with_int_label Picture (ImageNetKamonDataset.getitem E d index)
  | Kamon d => with_int_label Picture (KamonDataset.getitem E d index)
  | OldKamon d => with_int_label Picture (OldKamonDataset.getitem E d index)
  | Logo d => with_int_label Picture (LogoDataset.getitem E d index)
  | Dummy d =>
      '(v, l) ← lift (DummyDataset.getitem d index);
      mret (Vector v, FloatLabel l)
  end.

(** [d.num_classes()] *)
Definition num_classes (d : dataset) : result Z :=
  match d with
  | Omniglot d => OmniglotDataset.num_classes d
  | MiniImageNet d => MiniImageNet.num_classes d
  | ImageNetKamon d => ImageNetKamonDataset.num_classes d
  | Kamon _ | OldKamon _ | Logo _ | Dummy _ => Raise AttributeError
  end.

End Dataset.

(** The three classes that walk a directory, the folder each walks and its
    [index_subset]. *)
Inductive walker : Type :=
  | WOmniglot
  | WMiniImageNet
  | WImageNetKamon.

Definition walker_top (E : environment) (c : walker) (subset : string) : string :=
  match c with
  | WOmniglot => DATA_PATH E +:+ "/Omniglot/images_" +:+ subset +:+ "/"
  | WMiniImageNet | WImageNetKamon =>
      DATA_PATH E +:+ "/miniImageNet/images_" +:+ subset +:+ "/"
  end.

Definition walker_index_subset (E : environment) (c : walker) (subset : string)
  : io (tqdm * list (gmap string string)) :=
  match c with
  | WOmniglot => OmniglotDataset.index_subset E subset
  | WMiniImageNet => MiniImageNet.index_subset E subset
  | WImageNetKamon => ImageNetKamonDataset.index_subset E subset
  end.

Definition walker_describe (c : walker) (subset : string)
  : string → result (gmap string string) :=
  match c with
  | WOmniglot => OmniglotDataset.describe subset
  | WMiniImageNet => MiniImageNet.describe subset
  | WImageNetKamon => ImageNetKamonDataset.describe subset
  end.

(** The files below a walked folder, each with the [root] it is listed
    under, in the order of the walk. *)
Definition walked_files (items : list walk_item) : list (string * string) :=
  '(root, folders, files) ← items; (λ f, (root, f)) <$> files.

(** ** The vocabulary of the properties *)

(** Strictly before, in the order [sorted] uses. *)
Definition string_lt (s1 s2 : string) : Prop := String.le s1 s2 ∧ s1 ≠ s2.

#[global] Instance string_lt_dec s1 s2 : Decision (string_lt s1 s2).
Proof. unfold string_lt. apply _. Defined.

(** The rank of a class name: how many distinct observed names come
    strictly before it. *)
Definition rank_of (names : list string) (c : string) : Z :=
  Z.of_nat (length (filter (λ c', string_lt c' c) (unique names))).

(** A path with a separator in it: its split has a last but one part. *)
Definition has_parent (path : string) : Prop :=
  (2 ≤ length (split "/" path))%nat.

Definition is_png (file : string * string) : Prop := endswith file.2 ".png" = true.

#[global] Instance is_png_dec file : Decision (is_png file).
Proof. unfold is_png. apply _. Defined.

(** A data set whose two dicts were made from columns of [n] rows. *)
Definition keyed_by_rows {V W} (n : Z) (dict1 : gmap Z V) (dict2 : gmap Z W) : Prop :=
  0 ≤ n ∧ ∀ i, if decide (0 ≤ i < n)
               then is_Some (dict1 !! i) ∧ is_Some (dict2 !! i)
               else dict1 !! i = None ∧ dict2 !! i = None.

(** The class names and the file paths of a list of records. *)
Definition class_names_of (images : list (gmap string string)) : list string :=
  (λ r : gmap string string, default "" (r !! "class_name")) <$> images.

Definition filepaths_of (images : list (gmap string string)) : list string :=
  (λ r : gmap string string, default "" (r !! "filepath")) <$> images.

(** The directory-walk class behind a class and a subset, when there is
    one. *)
Definition walker_of (c : Dataset.dataset_class) (subset : string) : option walker :=
  match c with
  | Dataset.COmniglot => Some WOmniglot
  | Dataset.CMiniImageNet => Some WMiniImageNet
  | Dataset.CImageNetKamon =>
      if decide (subset = "background") then Some WImageNetKamon else None
  | Dataset.CKamon | Dataset.COldKamon | Dataset.CLogo => None
  end.

(** The two dicts of a data set that reads image files. *)
Definition dicts_of (d : Dataset.dataset) : option (gmap Z string * gmap Z Z) :=
  match d with
  | Dataset.Omniglot d =>
      Some (OmniglotDataset.datasetid_to_filepath d, OmniglotDataset.datasetid_to_class_id d)
  | Dataset.MiniImageNet d =>
      Some (MiniImageNet.datasetid_to_filepath d, MiniImageNet.datasetid_to_class_id d)
  | Dataset.ImageNetKamon d =>
      Some (ImageNetKamonDataset.datasetid_to_filepath d,
            ImageNetKamonDataset.datasetid_to_class_id d)
  | Dataset.Kamon d | Dataset.OldKamon d =>
      Some (m_datasetid_to_filepath d, m_datasetid_to_class_id d)
  | Dataset.Logo _ | Dataset.Dummy _ => None
  end.

(** The two attributes of the label encoder, on a data set that has
    them. *)
Definition encoder_of (d : Dataset.dataset) : option (list string * gmap string Z) :=
  match d with
  | Dataset.Omniglot d =>
      Some (OmniglotDataset.unique_characters d, OmniglotDataset.class_name_to_id d)
  | Dataset.MiniImageNet d =>
      Some (MiniImageNet.unique_characters d, MiniImageNet.class_name_to_id d)
  | Dataset.ImageNetKamon d =>
      match ImageNetKamonDataset.unique_characters d,
            ImageNetKamonDataset.class_name_to_id d with
      | Some unique_characters, Some class_name_to_id =>
          Some (unique_characters, class_name_to_id)
      | _, _ => None
      end
  | Dataset.Kamon _ | Dataset.OldKamon _ | Dataset.Logo _ | Dataset.Dummy _ => None
  end.

(** The manifest a class reads for an allowed subset, when it reads one. *)
Definition manifest_path (c : Dataset.dataset_class) (subset : string) : option string :=
  match c with
  | Dataset.CImageNetKamon =>
      if decide (subset = "evaluation") then Some ImageNetKamonDataset.csv_filepath
      else None
  | Dataset.CKamon =>
      if decide (subset = "background") then
        Some "/data/input/configs/input_files/training_input_charge_classification_v1.csv"
      else if decide (subset = "evaluation") then
        Some "/data/input/configs/input_files/eval_input_charge_classification_v1.csv"
      else None
  | Dataset.COldKamon =>
      if decide (subset = "background") then
        Some "/data/input/configs/input_files/training_input_classification_extended_v6.csv"
      else if decide (subset = "evaluation") then
        Some "/data/input/configs/input_files/eval_input_classification_extended_v6.csv"
      else None
  | Dataset.COmniglot | Dataset.CMiniImageNet | Dataset.CLogo => None
  end.

Definition logo_path : string := "/data/input/logo/LLD-logo.hdf5".

(** A computation that leaves the disk and the random number generator as
    they are, only adds to the trace, and whose result is a function of the
    disk alone: it depends neither on the accesses made before nor on the
    state of the generator. *)
Definition reads_only {A} (m : io A) : Prop :=
  ∀ w, disk (m w).2 = disk w
       ∧ rng (m w).2 = rng w
       ∧ (∃ events, trace (m w).2 = trace w ++ events)
       ∧ ∀ w', disk w' = disk w → (m w').1 = (m w).1.

(** The dicts of a constructed data set have the row numbers [0..n-1] as
    their keys, [n] being its length; nothing on the disk was changed; and
    the container of a logo data set was there. *)
Definition constructed (fs : filesystem) (d : Dataset.dataset) (n : Z) : Prop :=
  Dataset.length d = Ok n
  ∧ match d with
    | Dataset.Logo ld =>
        is_Some (fs_hdf5 fs (LogoDataset.hdf5_filepath ld))
        ∧ keyed_by_rows n (LogoDataset.datasetid_to_image_id ld)
            (LogoDataset.datasetid_to_class_id ld)
    | Dataset.Dummy _ => False
    | _ => ∃ fp ci, dicts_of d = Some (fp, ci) ∧ keyed_by_rows n fp ci
    end.

(** The folder, manifest or container a constructor reads does not exist
    on the disk. *)
Definition source_missing (E : environment) (c : Dataset.dataset_class)
    (subset : string) (fs : filesystem) : Prop :=
  match walker_of c subset, manifest_path c subset with
  | Some wk, _ => fs_dir fs (walker_top E wk subset) = None
  | None, Some path => fs_csv fs path = None
  | None, None => fs_hdf5 fs logo_path = None
  end.

(** The transform a data set applies, when it has one. *)
Definition transform_of (d : Dataset.dataset) : option (list transform) :=
  match d with
  | Dataset.MiniImageNet d => Some (MiniImageNet.transform d)
  | Dataset.ImageNetKamon d => Some (ImageNetKamonDataset.transform d)
  | Dataset.Kamon d | Dataset.OldKamon d => Some (m_transform d)
  | Dataset.Logo d => Some (LogoDataset.transform d)
  | Dataset.Omniglot _ | Dataset.Dummy _ => None
  end.

(** The image at [path] can be decoded and transformed by the data set:
    for OmniglotDataset an image of eight or sixteen bits to the pixel, of
    two dimensions at least and with a pixel in it; for the classes that
    compose transforms, an image these transforms accept. *)
Definition decodes (E : environment) (d : Dataset.dataset) (path : string)
    (fs : filesystem) : Prop :=
  ∃ a, fs_image fs path = Pixels a
       ∧ match d with
         | Dataset.Omniglot _ =>
             dtype_of a ≠ bool_
             ∧ (2 ≤ length (shape (pixels a)))%nat ∧ data (pixels a) ≠ []
         | Dataset.MiniImageNet _ | Dataset.ImageNetKamon _
         | Dataset.Kamon _ | Dataset.OldKamon _ =>
             ∃ ops p, transform_of d = Some (Fixed <$> ops)
                      ∧ Compose E ops (PIL a) = Ok p
         | Dataset.Logo _ | Dataset.Dummy _ => False
         end.

(** The slice [starting_index, ending_index) of the container that a logo
    data set of an allowed subset covers. *)
Definition logo_bounds (subset : string) : option (Z * Z) :=
  if decide (subset = "background") then Some (0, 20000)
  else if decide (subset = "evaluation") then Some (20000, 30000)
  else None.

(** A path component: a string with no separator in it. *)
Definition is_segment (s : string) : Prop := split "/" s = [s].

(** The class name [index_subset] gives to the files of a folder. *)
Definition folder_class (wk : walker) (subset root : string) : result string :=
  common ← walker_describe wk subset root;
  py_dict_get common "class_name".

(** The image ids and the class ids of a logo data set. *)
Definition logo_ids_of (d : Dataset.dataset) : option (gmap Z Z * gmap Z Z) :=
  match d with
  | Dataset.Logo d =>
      Some (LogoDataset.datasetid_to_image_id d, LogoDataset.datasetid_to_class_id d)
  | _ => None
  end.

(** ** A small disk for the examples *)

Definition example_tree : list entry :=
  [Folder "Latin" [Folder "character01" [File "a.png"; File "notes.txt"];
                   Folder "character02" [File "b.png"]];
   Folder "Greek" [Folder "character01" [File "g.png"; File "h.png"]]].

Definition example_image (values : list Z) : file_state :=
  Pixels {| dtype_of := uint8; pixels := {| shape := [2; 2]%nat; data := values |} |}.

Definition example_disk : filesystem :=
  {| fs_dir := λ p,
       if String.eqb p "/data/Omniglot/images_background/" then Some example_tree
       else None;
     fs_csv := λ p,
       if String.eqb p ImageNetKamonDataset.csv_filepath
       then Some [("/img/x.png", 5); ("/img/y.png", 7)]
       else None;
     fs_image := λ p,
       if String.eqb p "/img/x.png" then example_image [1; 2; 3; 4]
       else if String.eqb p "/data/Omniglot/images_background/Latin/character01/a.png"
       then example_image [7; 7; 7; 7]
       else if String.eqb p "/data/Omniglot/images_background/Latin/character02/b.png"
       then example_image [0; 255; 10; 20]
       else Missing;
     fs_hdf5 := λ _, None |}.

Definition example_world : world := {| disk := example_disk; trace := []; rng := 0 |}.

(** The transforms are left as the identity: the examples do not depend on
    what they compute.  A random transform advances the generator. *)
Definition example_env : environment :=
  {| DATA_PATH := "/data";
     torchvision := λ _ p, Ok p;
     torchvision_random := λ _ g p, (Ok p, g + 1) |}.

Definition from_Ok {A} (default : A) (r : result A) : A :=
  match r with
  | Ok a => a
  | Raise _ => default
  end.

Definition no_dataset : Dataset.dataset :=
  Dataset.Dummy {| DummyDataset.samples_per_class := 0;
                   DummyDataset.n_classes := 0;
                   DummyDataset.n_features := 0;
                   DummyDataset.df := [] |}.

Definition example_kamon : Dataset.dataset :=
  from_Ok no_dataset
          (Dataset.construct example_env Dataset.CKamon "evaluation" example_world).1.

Definition example_omniglot : Dataset.dataset :=
  from_Ok no_dataset
          (Dataset.construct example_env Dataset.COmniglot "background" example_world).1.

(** A container with thirty thousand labels and no image, and a disk that
    holds nothing else. *)
Definition example_container : blob :=
  {| labels_resnet_rc_32 := replicate (Z.to_nat 30000) 3; shapes := []; blob_data := [] |}.

Definition example_logo_world : world :=
  {| disk := {| fs_dir := λ _, None;
                fs_csv := λ _, None;
                fs_image := λ _, Missing;
                fs_hdf5 := λ p, if String.eqb p logo_path then Some example_container
                                else None |};
     trace := [];
     rng := 0 |}.

(** A disk on which every manifest is there and has no row. *)
Definition example_empty_world : world :=
  {| disk := {| fs_dir := λ _, None;
                fs_csv := λ _, Some [];
                fs_image := λ _, Missing;
                fs_hdf5 := λ _, None |};
     trace := [];
     rng := 0 |}.

(** * Properties *)

(** ** Results *)

Lemma rmapM_Ok_length {A B} (f : A → result B) xs ys :
  rmapM f xs = Ok ys → length ys = length xs.
Proof.
  revert ys. induction xs as [|x xs IH]; intros ys; simpl.
  - by intros [= <-].
  - destruct (f x) as [y|e]; simpl; [|done].
    destruct (rmapM f xs) as [ys'|e]; simpl; [|done].
    intros [= <-]. simpl. f_equal. by apply IH.
Qed.

Lemma rmapM_Ok_lookup {A B} (f : A → result B) xs ys i x :
  rmapM f xs = Ok ys → xs !! i = Some x → ∃ y, ys !! i = Some y ∧ f x = Ok y.
Proof.
  revert ys i. induction xs as [|x' xs IH]; intros ys i; simpl; [done|].
  destruct (f x') as [y|e] eqn:Hf; simpl; [|done].
  destruct (rmapM f xs) as [ys'|e]; simpl; [|done].
  intros [= <-]. destruct i as [|i]; simpl.
  - intros [= ->]. eauto.
  - intros Hi. by apply IH.
Qed.

Lemma rmapM_total {A B} (f : A → result B) xs :
  Forall (λ x, ∃ y, f x = Ok y) xs → ∃ ys, rmapM f xs = Ok ys.
Proof.
  induction 1 as [|x xs [y Hy] _ [ys IH]]; simpl; [by eexists|].
  rewrite Hy, IH. simpl. by eexists.
Qed.

Lemma rmapM_Ok_fmap {A B} (f : A → result B) (g : A → B) xs :
  Forall (λ x, f x = Ok (g x)) xs → rmapM f xs = Ok (g <$> xs).
Proof.
  induction 1 as [|x xs Hx _ IH]; simpl; [done|]. by rewrite Hx, IH.
Qed.

(** ** metrics.py *)

Section categorical_accuracy.
Import metrics.

Lemma argmax_from_spec (pre rest : list Q) (best_i : nat) (best : Q) :
  pre !! best_i = Some best →
  (∀ j w, pre !! j = Some w → (w <= best)%Q) →
  (∀ j w, (j < best_i)%nat → pre !! j = Some w → (w < best)%Q) →
  is_first_argmax (pre ++ rest) (argmax_from best_i best (length pre) rest).
Proof.
  revert pre best_i best.
  induction rest as [|x rest IH]; intros pre best_i best Hbest Hmax Hfirst; simpl.
  - exists best. rewrite app_nil_r. eauto.
  - replace (pre ++ x :: rest) with ((pre ++ [x]) ++ rest) by by rewrite <-app_assoc.
    replace (S (length pre)) with (length (pre ++ [x]))
      by (rewrite length_app; simpl; lia).
    destruct (Qle_bool x best) eqn:Hx.
    + apply Qle_bool_iff in Hx. apply IH.
      * by apply lookup_app_l_Some.
      * intros j w Hj. apply lookup_app_Some in Hj as [Hj|[_ Hj]]; [eauto|].
        apply list_lookup_singleton_Some in Hj as [_ <-]. done.
      * intros j w Hlt Hj. apply lookup_app_Some in Hj as [Hj|[Hge _]]; [eauto|].
        apply lookup_lt_Some in Hbest. lia.
    + assert (best < x)%Q as Hlt.
      { apply Qnot_le_lt. intros Hle. apply Qle_bool_iff in Hle. congruence. }
      apply IH.
      * rewrite lookup_app_r by lia. by rewrite Nat.sub_diag.
      * intros j w Hj. apply lookup_app_Some in Hj as [Hj|[_ Hj]].
        -- apply Qlt_le_weak. eapply Qle_lt_trans; [|exact Hlt]. eauto.
        -- apply list_lookup_singleton_Some in Hj as [_ <-]. apply Qle_refl.
      * intros j w Hj Hw. apply lookup_app_Some in Hw as [Hw|[Hge _]]; [|lia].
        eapply Qle_lt_trans; [|exact Hlt]. eauto.
Qed.

Lemma argmax_spec (row : list Q) :
  row ≠ [] → ∃ k, argmax row = Ok k ∧ is_first_argmax row k.
Proof.
  destruct row as [|x row]; [done|]. intros _. eexists. split; [done|].
  apply (argmax_from_spec [x] row 0 x); [done| |].
  - intros [|j] w; simpl; [intros [= <-]; apply Qle_refl|done].
  - intros j w Hj. lia.
Qed.

Lemma is_first_argmax_unique (row : list Q) (k k' : nat) :
  is_first_argmax row k → is_first_argmax row k' → k = k'.
Proof.
  intros (v & Hk & Hmax & Hfirst) (v' & Hk' & Hmax' & Hfirst').
  destruct (Nat.lt_total k k') as [Hlt|[->|Hlt]]; [|done|].
  - specialize (Hfirst' _ _ Hlt Hk). specialize (Hmax _ _ Hk').
    exfalso. eapply Qlt_not_le; eauto.
  - specialize (Hfirst _ _ Hlt Hk'). specialize (Hmax' _ _ Hk).
    exfalso. eapply Qlt_not_le; eauto.
Qed.

Lemma sum_item_bounds (hits : list bool) :
  0 ≤ sum_item hits ≤ Z.of_nat (length hits).
Proof.
  unfold sum_item. pose proof (length_filter (λ b, b = true) hits). lia.
Qed.

End categorical_accuracy.

Lemma truediv_unit_interval (c n : Z) :
  0 ≤ c ≤ n → 0 < n →
  (0 <= inject_Z c / inject_Z n)%Q ∧ (inject_Z c / inject_Z n <= 1)%Q.
Proof.
  intros Hc Hn.
  assert (0 < inject_Z n)%Q as Hn' by (rewrite (Zlt_Qlt 0 n) in Hn; exact Hn).
  split.
  - apply Qle_shift_div_l; [done|]. rewrite Qmult_0_l.
    rewrite (Zle_Qle 0 c) in Hc. tauto.
  - apply Qle_shift_div_r; [done|]. rewrite Qmult_1_l.
    rewrite (Zle_Qle c n) in Hc. tauto.
Qed.

(** C9.  For a score matrix [y_pred] with at least one row, every row
    holding at least one score, and a label vector [y] with one label per
    row, [categorical_accuracy] returns the number of rows whose first
    argmax equals the label, divided by the number of rows; the value lies
    between 0 and 1.  The rows that count are given by [hits]: entry [i] is
    true exactly when the label of row [i] is the index of its first
    maximal score. *)
Theorem categorical_accuracy_spec (y : list Z) (y_pred : list (list Q)) :
  y_pred ≠ [] →
  length y = length y_pred →
  Forall (λ row, row ≠ []) y_pred →
  ∃ hits : list bool,
    length hits = length y_pred
    ∧ (∀ i, hits !! i = Some true ↔
            ∃ row k, y_pred !! i = Some row
                     ∧ metrics.is_first_argmax row k
                     ∧ y !! i = Some (Z.of_nat k))
    ∧ metrics.categorical_accuracy y y_pred
      = Ok (inject_Z (Z.of_nat (length (filter (λ b, b = true) hits)))
            / inject_Z (Z.of_nat (length y_pred)))%Q
    ∧ (0 <= inject_Z (Z.of_nat (length (filter (λ b, b = true) hits)))
            / inject_Z (Z.of_nat (length y_pred)))%Q
    ∧ (inject_Z (Z.of_nat (length (filter (λ b, b = true) hits)))
       / inject_Z (Z.of_nat (length y_pred)) <= 1)%Q.
Proof.
  intros Hne Hlen Hrows.
  destruct (rmapM_total metrics.argmax y_pred) as [am Ham].
  { eapply Forall_impl; [exact Hrows|]. intros row Hrow.
    destruct (argmax_spec row Hrow) as (k & Hk & _). eauto. }
  pose proof (rmapM_Ok_length _ _ _ Ham) as Hamlen.
  set (hits := zip_with (λ x y0 : Z, bool_decide (x = y0)) (Z.of_nat <$> am) y).
  assert (length hits = length y_pred) as Hhits.
  { unfold hits. rewrite length_zip_with, length_fmap. lia. }
  exists hits. split; [done|]. split; [|split].
  - intros i. unfold hits. rewrite lookup_zip_with_Some. split.
    + intros (a & l & Heq & Ha & Hl).
      symmetry in Heq. apply bool_decide_eq_true in Heq. subst l.
      apply list_lookup_fmap_Some in Ha as (k & -> & Hk).
      destruct (y_pred !! i) as [row|] eqn:Hrow.
      2:{ apply lookup_ge_None in Hrow. apply lookup_lt_Some in Hk. lia. }
      destruct (rmapM_Ok_lookup _ _ _ _ _ Ham Hrow) as (k' & Hk' & Harg).
      assert (k' = k) as -> by congruence.
      exists row, k. split; [done|]. split; [|done].
      assert (row ≠ []) as Hrne by (eapply Forall_lookup_1 in Hrows; eauto).
      destruct (argmax_spec row Hrne) as (k'' & Hk'' & Hspec).
      congruence.
    + intros (row & k & Hrow & Hspec & Hy).
      destruct (rmapM_Ok_lookup _ _ _ _ _ Ham Hrow) as (k' & Hk' & Harg).
      assert (row ≠ []) as Hrne by (eapply Forall_lookup_1 in Hrows; eauto).
      destruct (argmax_spec row Hrne) as (k'' & Hk'' & Hspec').
      assert (k'' = k') as -> by congruence.
      assert (k' = k) as -> by eauto using is_first_argmax_unique.
      exists (Z.of_nat k), (Z.of_nat k). split; [by rewrite bool_decide_eq_true_2|].
      split; [|done]. rewrite list_lookup_fmap, Hk'. done.
  - unfold metrics.categorical_accuracy. rewrite Ham. simpl.
    unfold metrics.torch_eq. rewrite decide_True by (rewrite length_fmap; lia).
    simpl. unfold py_truediv. rewrite decide_False; [done|].
    destruct y_pred; [done|simpl; lia].
  - apply truediv_unit_interval.
    + pose proof (length_filter (λ b, b = true) hits). lia.
    + destruct y_pred; [done|simpl; lia].
Qed.

(** A batch of three rows: two of the three labels are the argmax of their
    row. *)
Lemma categorical_accuracy_spec_witness :
  ∃ hits : list bool,
    length hits = 3%nat
    ∧ (∀ i, hits !! i = Some true ↔
            ∃ row k, [[1 # 10; 9 # 10; 0]; [1 # 2; 1 # 2; 0]; [0; 0; 0]]%Q !! i = Some row
                     ∧ metrics.is_first_argmax row k
                     ∧ [1; 0; 2] !! i = Some (Z.of_nat k))
    ∧ metrics.categorical_accuracy [1; 0; 2]
        [[1 # 10; 9 # 10; 0]; [1 # 2; 1 # 2; 0]; [0; 0; 0]]%Q
      = Ok (inject_Z (Z.of_nat (length (filter (λ b, b = true) hits))) / inject_Z 3)%Q
    ∧ (0 <= inject_Z (Z.of_nat (length (filter (λ b, b = true) hits))) / inject_Z 3)%Q
    ∧ (inject_Z (Z.of_nat (length (filter (λ b, b = true) hits))) / inject_Z 3 <= 1)%Q.
Proof.
  apply (categorical_accuracy_spec [1; 0; 2]
           [[1 # 10; 9 # 10; 0]; [1 # 2; 1 # 2; 0]; [0; 0; 0]]%Q).
  - discriminate.
  - reflexivity.
  - repeat constructor; discriminate.
Defined.

(** The example batch has two hits in three rows. *)
Example categorical_accuracy_two_of_three :
  metrics.categorical_accuracy [1; 0; 2]
    [[1 # 10; 9 # 10; 0]; [1 # 2; 1 # 2; 0]; [0; 0; 0]]%Q
  = Ok (2 # 3)%Q.
Proof. reflexivity. Qed.

(** With no row the quotient has a zero divisor. *)
Lemma categorical_accuracy_empty_batch :
  metrics.categorical_accuracy [] [] = Raise ZeroDivisionError.
Proof. reflexivity. Qed.

(** ** DummyDataset *)

Lemma py_list_mul_singleton {A} (x : A) (k : Z) :
  k ≤ sys_maxsize → py_list_mul [x] k = Ok (replicate (Z.to_nat k) x).
Proof.
  intros Hk. unfold py_list_mul. rewrite decide_False by lia. f_equal.
  induction (Z.to_nat k) as [|m IH]; simpl; [done|]. by rewrite IH.
Qed.

(** Up to [2^53] in magnitude an int is a double: the conversion returns
    it as it is. *)
Lemma float_of_int_exact (z : Z) :
  - 2 ^ 53 ≤ z ≤ 2 ^ 53 → float_of_int z = Ok (Fin (inject_Z z)).
Proof.
  intros Hz. change (2 ^ 53) with 9007199254740992 in Hz.
  destruct (decide (Z.abs z = 9007199254740992)) as [Habs|Habs].
  - assert (z = 9007199254740992 ∨ z = - 9007199254740992) as [-> | ->] by lia;
      vm_compute; reflexivity.
  - unfold float_of_int, round_to_double.
    change (2 ^ 53) with 9007199254740992.
    destruct (decide (Z.abs z < 9007199254740992)); [|lia].
    assert (9007199254740992 < 2 ^ 1024) as Hbig by (vm_compute; reflexivity).
    rewrite decide_False by lia.
    do 3 f_equal. destruct z; simpl; lia.
Qed.

Lemma rmapM_float_of_int_exact (zs : list Z) :
  Forall (λ z, - 2 ^ 53 ≤ z ≤ 2 ^ 53) zs →
  rmapM float_of_int zs = Ok ((λ z, Fin (inject_Z z)) <$> zs).
Proof.
  intros Hzs. apply rmapM_Ok_fmap. eapply Forall_impl; [exact Hzs|].
  intros z Hz. by apply float_of_int_exact.
Qed.

(** C10, as the code has it.  A [DummyDataset] built from
    [samples_per_class], [n_classes] and [n_features], with [n_classes] not
    zero and at most [2^53] in magnitude, and [n_features] a size that is
    not negative: its length is [samples_per_class * n_classes], and for
    every integer [item] of at most [2^53] in magnitude, inside the range
    of the data set or not, [get] returns [n_features + 1] entries, [item]
    first and [item % n_classes] in every other place, with the label
    [item % n_classes].  (The entries are float64 numbers, which hold
    these integers exactly.) *)
Theorem DummyDataset_spec (E : environment) (spc nc nf : Z) (d : DummyDataset.t) :
  DummyDataset.init spc nc nf = Ok d →
  nc ≠ 0 →
  - 2 ^ 53 ≤ nc ≤ 2 ^ 53 →
  0 ≤ nf ≤ sys_maxsize →
  Dataset.length (Dataset.Dummy d) = Ok (spc * nc)
  ∧ ∀ (item : Z) (w : world),
      - 2 ^ 53 ≤ item ≤ 2 ^ 53 →
      ∃ v : list np_float,
        Dataset.get E (Dataset.Dummy d) item w
        = (Ok (Vector v, FloatLabel (Fin (inject_Z (item mod nc)))), w)
        ∧ Z.of_nat (length v) = nf + 1
        ∧ v !! 0%nat = Some (Fin (inject_Z item))
        ∧ ∀ k, (1 ≤ k < length v)%nat → v !! k = Some (Fin (inject_Z (item mod nc))).
Proof.
  intros Hinit Hnc Hbound Hnf. unfold DummyDataset.init in Hinit.
  destruct (py_len (spc * nc)) as [n|] eqn:Hlen; [|done].
  cbn [mbind result_bind] in Hinit.
  destruct (rmapM _ _) as [class_ids|] in Hinit; [|done].
  cbn [mbind result_bind] in Hinit. injection Hinit as <-. split.
  - unfold Dataset.length, DummyDataset.len.
    cbn [DummyDataset.samples_per_class DummyDataset.n_classes].
    rewrite Hlen. unfold py_len in Hlen. repeat case_decide; congruence.
  - intros item w Hitem.
    assert (- 2 ^ 53 ≤ item mod nc ≤ 2 ^ 53) as Hclass.
    { change (2 ^ 53) with 9007199254740992 in *.
      destruct (decide (0 < nc)).
      - pose proof (Z.mod_pos_bound item nc). lia.
      - pose proof (Z.mod_neg_bound item nc). lia. }
    exists (Fin (inject_Z item)
            :: replicate (Z.to_nat nf) (Fin (inject_Z (item mod nc)))).
    split; [|split; [|split]].
    + unfold Dataset.get, DummyDataset.getitem, py_mod.
      cbn [DummyDataset.n_classes DummyDataset.n_features].
      rewrite decide_False by done. cbn [mbind result_bind].
      rewrite py_list_mul_singleton by lia. cbn [mbind result_bind].
      rewrite rmapM_float_of_int_exact.
      2:{ constructor; [done|]. by apply Forall_replicate. }
      cbn [mbind result_bind]. rewrite float_of_int_exact by done.
      cbn [mbind result_bind]. cbn [app]. rewrite fmap_cons, fmap_replicate.
      reflexivity.
    + simpl. rewrite length_replicate. lia.
    + done.
    + simpl. rewrite length_replicate. intros [|k] Hk; [lia|]. simpl.
      apply lookup_replicate_2. lia.
Qed.

Lemma DummyDataset_spec_witness :
  let d := {| DummyDataset.samples_per_class := 2;
              DummyDataset.n_classes := 3;
              DummyDataset.n_features := 1;
              DummyDataset.df := [(0, 0); (1, 1); (2, 2); (0, 3); (1, 4); (2, 5)] |} in
  Dataset.length (Dataset.Dummy d) = Ok (2 * 3)
  ∧ ∀ (item : Z) (w : world),
      - 2 ^ 53 ≤ item ≤ 2 ^ 53 →
      ∃ v : list np_float,
        Dataset.get example_env (Dataset.Dummy d) item w
        = (Ok (Vector v, FloatLabel (Fin (inject_Z (item mod 3)))), w)
        ∧ Z.of_nat (length v) = 1 + 1
        ∧ v !! 0%nat = Some (Fin (inject_Z item))
        ∧ ∀ k, (1 ≤ k < length v)%nat → v !! k = Some (Fin (inject_Z (item mod 3))).
Proof.
  apply (DummyDataset_spec example_env 2 3 1).
  - reflexivity.
  - lia.
  - vm_compute. split; discriminate.
  - vm_compute. split; discriminate.
Defined.

(** Outside these conditions the claim fails.  With no class [%] raises;
    a negative [n_features] leaves the sample with its first entry only;
    an [item] above [2^53] is rounded to the nearest double, here
    [2^53 + 1] to [2^53]; and an [item] beyond the doubles is an
    OverflowError. *)
Lemma DummyDataset_get_outside_domain :
  (d ← DummyDataset.init 10 0 1; DummyDataset.getitem d 3) = Raise ZeroDivisionError
  ∧ (d ← DummyDataset.init 1 1 (-2); DummyDataset.getitem d 0)
    = Ok ([Fin (inject_Z 0)], Fin (inject_Z 0))
  ∧ (d ← DummyDataset.init 2 3 1; DummyDataset.getitem d (2 ^ 53 + 1))
    = Ok ([Fin (inject_Z (2 ^ 53)); Fin (inject_Z 0)], Fin (inject_Z 0))
  ∧ (d ← DummyDataset.init 2 3 1; DummyDataset.getitem d (2 ^ 1024))
    = Raise OverflowError.
Proof. repeat split; vm_compute; reflexivity. Qed.

(** The conversion rounds to even: [2^53 + 3] lies half way between two
    doubles and becomes [2^53 + 4].  The largest double is
    [2^1024 - 2^971]; an int that rounds above it is out of range. *)
Example float_of_int_ties_to_even :
  float_of_int (2 ^ 53 + 3) = Ok (Fin (inject_Z (2 ^ 53 + 4)))
  ∧ float_of_int (- (2 ^ 53 + 1)) = Ok (Fin (inject_Z (- 2 ^ 53)))
  ∧ float_of_int (2 ^ 1024 - 2 ^ 971) = Ok (Fin (inject_Z (2 ^ 1024 - 2 ^ 971)))
  ∧ float_of_int (2 ^ 1024 - 2 ^ 970 - 1) = Ok (Fin (inject_Z (2 ^ 1024 - 2 ^ 971)))
  ∧ float_of_int (2 ^ 1024 - 2 ^ 970) = Raise OverflowError.
Proof. repeat split; vm_compute; reflexivity. Qed.

(** ** The label encoder *)

Lemma py_list_get_nonneg {A} (l : list A) (i : Z) (x : A) :
  0 ≤ i → l !! Z.to_nat i = Some x → py_list_get l i = Ok x.
Proof.
  intros Hi Hx. unfold py_list_get. apply lookup_lt_Some in Hx as Hlt.
  destruct (decide (i < 0)); [lia|]. rewrite decide_True by lia. by rewrite Hx.
Qed.

Lemma py_list_get_Ok_elem_of {A} (l : list A) (i : Z) (x : A) :
  py_list_get l i = Ok x → x ∈ l.
Proof.
  unfold py_list_get. repeat case_decide; try done;
    destruct (l !! _) eqn:Hl; try done; intros [= ->];
    by eapply list_elem_of_lookup_2.
Qed.

Section unique.
Context `{EqDecision A}.

Lemma elem_of_unique_from (seen l : list A) (x : A) :
  x ∈ unique_from seen l ↔ x ∈ l ∧ x ∉ seen.
Proof.
  revert seen. induction l as [|y l IH]; intros seen; simpl.
  - rewrite elem_of_nil. tauto.
  - case_decide as Hy.
    + rewrite IH, elem_of_cons. split; [tauto|].
      intros [[->|Hx] Hseen]; tauto.
    + rewrite !elem_of_cons, IH, elem_of_cons.
      destruct (decide (x = y)) as [->|]; tauto.
Qed.

Lemma NoDup_unique_from (seen l : list A) : NoDup (unique_from seen l).
Proof.
  revert seen. induction l as [|y l IH]; intros seen; simpl.
  - constructor.
  - case_decide; [done|]. constructor; [|done].
    rewrite elem_of_unique_from, elem_of_cons. tauto.
Qed.

Lemma elem_of_unique (l : list A) (x : A) : x ∈ unique l ↔ x ∈ l.
Proof. unfold unique. rewrite elem_of_unique_from, elem_of_nil. tauto. Qed.

Lemma NoDup_unique (l : list A) : NoDup (unique l).
Proof. apply NoDup_unique_from. Qed.

(** The distinct values depend on the set of values only, up to their
    order. *)
Lemma unique_Permutation (l1 l2 : list A) :
  (∀ x, x ∈ l1 ↔ x ∈ l2) → unique l1 ≡ₚ unique l2.
Proof.
  intros H. apply NoDup_Permutation; [apply NoDup_unique..|].
  intros x. by rewrite !elem_of_unique.
Qed.

End unique.

Lemma sorted_Permutation (l : list string) : sorted l ≡ₚ l.
Proof. apply merge_sort_Permutation. Qed.

Lemma sorted_StronglySorted (l : list string) : StronglySorted String.le (sorted l).
Proof. apply StronglySorted_merge_sort; apply _. Qed.

Lemma sorted_ext (l1 l2 : list string) : l1 ≡ₚ l2 → sorted l1 = sorted l2.
Proof.
  intros H. apply (Sorted_unique String.le).
  - apply Sorted_merge_sort, _.
  - apply Sorted_merge_sort, _.
  - by rewrite !sorted_Permutation.
Qed.

Lemma StronglySorted_lookup_le (l : list string) (i j : nat) (x y : string) :
  StronglySorted String.le l → (i < j)%nat →
  l !! i = Some x → l !! j = Some y → String.le x y.
Proof.
  intros Hl. revert i j. induction Hl as [|z l Hl IH Hz]; intros i j Hij; [done|].
  destruct i as [|i], j as [|j]; simpl; try lia.
  - intros [= ->] Hy. eapply Forall_forall in Hz; [done|].
    by eapply list_elem_of_lookup_2.
  - apply IH. lia.
Qed.

Lemma filter_all {A} (P : A → Prop) `{∀ x, Decision (P x)} (l : list A) :
  Forall P l → filter P l = l.
Proof.
  induction 1 as [|x l Hx _ IH]; [done|]. by rewrite filter_cons_True, IH.
Qed.

Lemma filter_none {A} (P : A → Prop) `{∀ x, Decision (P x)} (l : list A) :
  Forall (λ x, ¬ P x) l → filter P l = [].
Proof.
  induction 1 as [|x l Hx _ IH]; [done|]. by rewrite filter_cons_False.
Qed.

(** In a sorted list without repetition, the entries strictly before the
    entry at [i] are the first [i] entries. *)
Lemma sorted_rank (l : list string) (i : nat) (c : string) :
  StronglySorted String.le l → NoDup l → l !! i = Some c →
  length (filter (λ c', string_lt c' c) l) = i.
Proof.
  intros Hs Hnd Hc.
  assert (filter (λ c', string_lt c' c) l = take i l) as ->.
  2:{ rewrite length_take. apply lookup_lt_Some in Hc. lia. }
  rewrite <-(take_drop i l) at 1. rewrite filter_app.
  rewrite (filter_none _ (drop i l)), (filter_all _ (take i l)), app_nil_r; [done| |].
  - apply Forall_lookup_2. intros j c' Hj.
    rewrite lookup_take_Some in Hj. destruct Hj as [Hj Hlt]. split.
    + eapply StronglySorted_lookup_le; eauto.
    + intros ->. pose proof (NoDup_lookup _ _ _ _ Hnd Hj Hc). lia.
  - apply Forall_lookup_2. intros j c' Hj [Hle Hne].
    rewrite lookup_drop in Hj. destruct j as [|j].
    + rewrite Nat.add_0_r in Hj. congruence.
    + assert (String.le c c') as Hle'
        by (eapply (StronglySorted_lookup_le l i (i + S j)); eauto; lia).
      apply Hne. by apply (anti_symm String.le).
Qed.

Lemma class_table_spec (unique_characters : list string) (k : nat) :
  (k ≤ length unique_characters)%nat → NoDup unique_characters →
  ∃ d, class_table unique_characters (Z.of_nat k) = Ok d
       ∧ ∀ c i, d !! c = Some i ↔
                0 ≤ i < Z.of_nat k ∧ unique_characters !! Z.to_nat i = Some c.
Proof.
  intros Hk Hnd. unfold class_table. induction k as [|k IH].
  - exists ∅. split; [done|]. intros c i. rewrite lookup_empty. split; [done|lia].
  - destruct IH as (d & Hd & Hspec); [lia|].
    destruct (lookup_lt_is_Some_2 unique_characters k) as [ck Hck]; [lia|].
    exists (<[ck := Z.of_nat k]> d). split.
    + rewrite seqZ_S, foldl_app, Hd. simpl.
      rewrite (py_list_get_nonneg _ _ ck); [done|lia|].
      by replace (Z.to_nat (0 + Z.of_nat k)) with k by lia.
    + intros c i. destruct (decide (ck = c)) as [->|Hne].
      * rewrite lookup_insert_eq. split.
        -- intros [= <-]. rewrite Nat2Z.id. split; [lia|done].
        -- intros [Hi Hc]. f_equal.
           pose proof (NoDup_lookup _ _ _ _ Hnd Hck Hc). lia.
      * rewrite lookup_insert_ne by done. rewrite Hspec. split.
        -- intros [Hi Hc]. split; [lia|done].
        -- intros [Hi Hc]. split; [|done].
           destruct (decide (i = Z.of_nat k)) as [->|]; [|lia].
           rewrite Nat2Z.id in Hc. congruence.
Qed.

(** ** Data frames *)

Lemma df_str_pd_DataFrame (records : list (gmap string string)) (name : string)
    (values : list string) :
  df_str (pd_DataFrame records) name = Ok values ↔
  (∃ r, r ∈ records ∧ is_Some (r !! name))
  ∧ values = (λ r : gmap string string, default "" (r !! name)) <$> records.
Proof.
  unfold df_str, py_dict_get, pd_DataFrame. simpl.
  set (f := λ k : string,
         (k, (λ r : gmap string string, default "" (r !! k)) <$> records)).
  assert (∀ y y' : string, (f y).1 = (f y').1 → y = y') as Hinj by done.
  destruct (set_to_map f _ !! name) as [vs|] eqn:Hcol.
  - apply lookup_set_to_map in Hcol as (k & Hk & [= -> <-]); [|by eauto].
    apply elem_of_union_list in Hk as (X & HX & Hk).
    apply list_elem_of_fmap in HX as (r & -> & Hr).
    apply elem_of_dom in Hk. split.
    + intros [= <-]. eauto.
    + intros [_ ->]. done.
  - split; [done|]. intros [(r & Hr & Hname) ->]. exfalso.
    assert ((set_to_map f (⋃ (dom <$> records) : gset string)
             : gmap string (list string)) !! name
            = Some (f name).2) as Hsome; [|congruence].
    apply lookup_set_to_map; [by eauto|]. exists name. split; [|done].
    apply elem_of_union_list. exists (dom r). split.
    + apply list_elem_of_fmap. eauto.
    + by apply elem_of_dom.
Qed.

Lemma df_assign_int_str (df : DataFrame) (name col : string) (values : list Z) :
  name ≠ col → df_str (df_assign_int df name values) col = df_str df col.
Proof.
  intros Hne. unfold df_str, df_assign_int, py_dict_get. simpl.
  by rewrite lookup_delete_ne.
Qed.

(** ** The label encoder, continued *)

Lemma length_unique_size (names : list string) :
  length (unique names) = size (list_to_set names : gset string).
Proof.
  rewrite <-(size_list_to_set (C:=gset string) (unique names)) by apply NoDup_unique.
  f_equal. apply set_eq. intros c.
  by rewrite !elem_of_list_to_set, elem_of_unique.
Qed.

Lemma rank_of_sorted (names : list string) (i : nat) (c : string) :
  sorted (unique names) !! i = Some c → rank_of names c = Z.of_nat i.
Proof.
  intros Hc. unfold rank_of. f_equal.
  rewrite <-(sorted_Permutation (unique names)).
  apply sorted_rank; [apply sorted_StronglySorted| |done].
  rewrite sorted_Permutation. apply NoDup_unique.
Qed.

Lemma label_table_spec (names : list string) :
  ∃ d, class_table (sorted (unique names)) (Z.of_nat (length (unique names))) = Ok d
       ∧ ∀ c i, d !! c = Some i ↔
                0 ≤ i ∧ sorted (unique names) !! Z.to_nat i = Some c.
Proof.
  destruct (class_table_spec (sorted (unique names)) (length (unique names)))
    as (d & Hd & Hspec).
  - by rewrite sorted_Permutation.
  - rewrite sorted_Permutation. apply NoDup_unique.
  - exists d. split; [done|]. intros c i. rewrite Hspec. split.
    + intros [? ?]. split; [lia|done].
    + intros [? Hc]. split; [|done]. apply lookup_lt_Some in Hc.
      rewrite sorted_Permutation in Hc. lia.
Qed.

Lemma encode_labels_Ok (images : list (gmap string string)) (names : list string) :
  df_str (pd_DataFrame images) "class_name" = Ok names →
  ∃ d, class_table (sorted (unique names)) (Z.of_nat (length (unique names))) = Ok d
       ∧ encode_labels images
         = Ok (df_assign_int
                 (df_assign_int (pd_DataFrame images) "id" (df_index (pd_DataFrame images)))
                 "class_id" (rank_of names <$> names),
               sorted (unique names), d).
Proof.
  intros Hnames. destruct (label_table_spec names) as (d & Hd & Hspec).
  exists d. split; [done|]. unfold encode_labels, count_class_names.
  rewrite df_assign_int_str by done. rewrite Hnames. simpl.
  rewrite Hd. simpl.
  rewrite (rmapM_Ok_fmap _ (rank_of names)); [done|].
  apply Forall_forall. intros c Hc. unfold py_dict_get.
  assert (c ∈ sorted (unique names)) as Hc'
    by by rewrite sorted_Permutation, elem_of_unique.
  apply list_elem_of_lookup in Hc' as [j Hj].
  rewrite (rank_of_sorted _ _ _ Hj).
  assert (d !! c = Some (Z.of_nat j)) as ->; [|done].
  apply Hspec. rewrite Nat2Z.id. split; [lia|done].
Qed.

Lemma sorted_unique_ascending (names : list string) (i j : nat) (a b : string) :
  (i < j)%nat →
  sorted (unique names) !! i = Some a → sorted (unique names) !! j = Some b →
  string_lt a b.
Proof.
  intros Hij Ha Hb. split.
  - eapply StronglySorted_lookup_le; eauto using sorted_StronglySorted.
  - intros ->.
    assert (NoDup (sorted (unique names))) as Hnd
      by (rewrite sorted_Permutation; apply NoDup_unique).
    pose proof (NoDup_lookup _ _ _ _ Hnd Ha Hb). lia.
Qed.

(** Let [names] be the class identifiers the index builder observed (the
    column [class_name] of the indexed records).  The label encoder
    succeeds; its list [unique_characters] holds the distinct identifiers in
    strictly ascending order; its dict sends an identifier to its position
    in that list, which is its rank; the dict is a bijection from the
    distinct identifiers onto [0, N), N being their number.  The outcome
    depends on the set of identifiers only. *)
Lemma encode_labels_bijection (images : list (gmap string string)) (names : list string) :
  df_str (pd_DataFrame images) "class_name" = Ok names →
  ∃ df unique_characters class_name_to_id,
    encode_labels images = Ok (df, unique_characters, class_name_to_id)
    ∧ (∀ c, c ∈ unique_characters ↔ c ∈ names)
    ∧ (∀ i j a b, (i < j)%nat → unique_characters !! i = Some a →
                  unique_characters !! j = Some b → string_lt a b)
    ∧ (∀ c i, class_name_to_id !! c = Some i ↔
              0 ≤ i ∧ unique_characters !! Z.to_nat i = Some c)
    ∧ (∀ c i, class_name_to_id !! c = Some i → i = rank_of names c)
    ∧ (∀ c, c ∈ names →
            ∃ i, class_name_to_id !! c = Some i
                 ∧ 0 ≤ i < Z.of_nat (size (list_to_set names : gset string)))
    ∧ (∀ c c' i, class_name_to_id !! c = Some i → class_name_to_id !! c' = Some i → c = c')
    ∧ (∀ i, 0 ≤ i < Z.of_nat (size (list_to_set names : gset string)) →
            ∃ c, c ∈ names ∧ class_name_to_id !! c = Some i)
    ∧ (∀ images' names',
         df_str (pd_DataFrame images') "class_name" = Ok names' →
         (∀ c, c ∈ names ↔ c ∈ names') →
         ∃ df', encode_labels images' = Ok (df', unique_characters, class_name_to_id)).
Proof.
  intros Hnames.
  destruct (encode_labels_Ok images names Hnames) as (d & Hd & Henc).
  destruct (label_table_spec names) as (d' & Hd' & Hspec).
  assert (d' = d) as -> by congruence.
  assert (∀ c, c ∈ sorted (unique names) ↔ c ∈ names) as Helem.
  { intros c. by rewrite sorted_Permutation, elem_of_unique. }
  assert (length (sorted (unique names))
          = size (list_to_set names : gset string)) as Hlen.
  { by rewrite sorted_Permutation, length_unique_size. }
  eexists _, (sorted (unique names)), d. split; [exact Henc|].
  split; [done|]. split; [apply sorted_unique_ascending|]. split; [done|].
  split; [|split; [|split; [|split]]].
  - intros c i [Hi Hc]%Hspec. rewrite (rank_of_sorted _ _ _ Hc). lia.
  - intros c Hc. apply Helem in Hc as Hc'.
    apply list_elem_of_lookup in Hc' as [j Hj]. exists (Z.of_nat j). split.
    + apply Hspec. rewrite Nat2Z.id. split; [lia|done].
    + apply lookup_lt_Some in Hj. lia.
  - intros c c' i [_ Hc]%Hspec [_ Hc']%Hspec. congruence.
  - intros i Hi.
    destruct (lookup_lt_is_Some_2 (sorted (unique names)) (Z.to_nat i)) as [c Hc];
      [lia|].
    exists c. split.
    + apply Helem. by eapply list_elem_of_lookup_2.
    + apply Hspec. split; [lia|done].
  - intros images' names' Hnames' Hsame.
    destruct (encode_labels_Ok images' names' Hnames') as (d' & Hd'2 & Henc').
    assert (sorted (unique names') = sorted (unique names)) as Huc.
    { apply sorted_ext. symmetry. by apply unique_Permutation. }
    assert (length (unique names') = length (unique names)) as Hn.
    { apply Permutation_length. symmetry. by apply unique_Permutation. }
    rewrite Huc, Hn in Hd'2. assert (d' = d) as -> by congruence.
    rewrite Huc in Henc'. eauto.
Qed.

Example label_encoder_example :
  (λ '(_, unique_characters, class_name_to_id),
     (unique_characters, map_to_list class_name_to_id)) <$>
  encode_labels [ {[ "class_name" := "n02" ]}; {[ "class_name" := "n01" ]};
                  {[ "class_name" := "n02" ]} ]
  = Ok (["n01"; "n02"], [("n01", 0); ("n02", 1)]).
Proof. vm_compute. reflexivity. Qed.

(** ** Paths *)

Lemma split_nonempty (sep : ascii) (s : string) : split sep s ≠ [].
Proof.
  destruct s as [|c s]; simpl; [done|].
  case_decide; [done|]. by destruct (split sep s).
Qed.

Lemma length_split_app (sep : ascii) (a b : string) :
  (length (split sep (a +:+ b)) + 1 = length (split sep a) + length (split sep b))%nat.
Proof.
  induction a as [|c a IH].
  - change ("" +:+ b) with b. simpl. lia.
  - change (String c a +:+ b) with (String c (a +:+ b)). simpl.
    case_decide; simpl; [lia|].
    pose proof (split_nonempty sep (a +:+ b)). pose proof (split_nonempty sep a).
    destruct (split sep (a +:+ b)), (split sep a); simpl in *; done || lia.
Qed.

Lemma has_parent_app_l (a b : string) : has_parent a → has_parent (a +:+ b).
Proof.
  unfold has_parent. pose proof (length_split_app "/" a b).
  pose proof (split_nonempty "/" b). destruct (split "/" b); [done|].
  simpl in *. lia.
Qed.

Lemma has_parent_app_r (a b : string) : has_parent b → has_parent (a +:+ b).
Proof.
  unfold has_parent. pose proof (length_split_app "/" a b).
  pose proof (split_nonempty "/" a). destruct (split "/" a); [done|].
  simpl in *. lia.
Qed.

Lemma has_parent_slash (s : string) : has_parent (String "/" s).
Proof.
  unfold has_parent. simpl. pose proof (split_nonempty "/" s).
  destruct (split "/" s); [done|]. simpl. lia.
Qed.

Lemma has_parent_join (a b : string) : has_parent a → has_parent (os_path_join a b).
Proof.
  intros Ha. unfold os_path_join.
  destruct (String.prefix "/" b) eqn:Hb.
  - destruct b as [|c b]; [done|]. cbn -[ascii_dec] in Hb.
    destruct (ascii_dec "/" c) as [<-|]; [|done]. apply has_parent_slash.
  - destruct (_ || _); by apply has_parent_app_l.
Qed.

Lemma has_parent_top (E : environment) (c : walker) (subset : string) :
  has_parent (walker_top E c subset).
Proof. destruct c; simpl; apply has_parent_app_r, has_parent_slash. Qed.

Lemma py_list_get_last {A} (l : list A) :
  l ≠ [] → ∃ x, py_list_get l (-1) = Ok x.
Proof.
  intros Hl. unfold py_list_get. destruct (decide (-1 < 0)); [|lia].
  assert (0 < length l)%nat by (destruct l; [done|simpl; lia]).
  rewrite decide_True by lia.
  destruct (lookup_lt_is_Some_2 l (Z.to_nat (-1 + Z.of_nat (length l)))) as [x ->];
    [lia|eauto].
Qed.

Lemma py_list_get_last_but_one {A} (l : list A) :
  (2 ≤ length l)%nat → ∃ x, py_list_get l (-2) = Ok x.
Proof.
  intros Hl. unfold py_list_get. destruct (decide (-2 < 0)); [|lia].
  rewrite decide_True by lia.
  destruct (lookup_lt_is_Some_2 l (Z.to_nat (-2 + Z.of_nat (length l)))) as [x ->];
    [lia|eauto].
Qed.

(** Every root of a walk extends the path the walk started from. *)
Lemma walk_entry_roots (P : string → Prop) :
  (∀ a b, P a → P (os_path_join a b)) →
  ∀ e path, P path → Forall (λ item : walk_item, P item.1.1) (walk_entry path e).
Proof.
  intros Hjoin. fix IH 1. intros [name|name children] path Hpath; simpl.
  - constructor.
  - constructor; [done|].
    induction children as [|c children IHc]; simpl; [constructor|].
    apply Forall_app. split; [|exact IHc]. apply IH. by apply Hjoin.
Qed.

Lemma walk_roots_have_parent (fs : filesystem) (top : string) :
  has_parent top → Forall (λ item : walk_item, has_parent item.1.1) (walk fs top).
Proof.
  intros Htop. unfold walk. destruct (fs_dir fs top); [|constructor].
  apply walk_entry_roots; [apply has_parent_join|done].
Qed.

(** ** The two passes of an index builder *)

Lemma walked_files_cons (root : string) (folders files : list string)
    (items : list walk_item) :
  walked_files ((root, folders, files) :: items)
  = ((λ f, (root, f)) <$> files) ++ walked_files items.
Proof. done. Qed.

Lemma walked_files_snoc (items : list walk_item) (root : string)
    (folders files : list string) :
  walked_files (items ++ [(root, folders, files)])
  = walked_files items ++ ((λ f, (root, f)) <$> files).
Proof.
  unfold walked_files. rewrite bind_app. simpl. by rewrite app_nil_r.
Qed.

Lemma filter_png_fmap (root : string) (files : list string) :
  length (filter is_png ((λ f, (root, f)) <$> files))
  = length (filter (λ f, endswith f ".png" = true) files).
Proof.
  induction files as [|f files IH]; [done|]. rewrite fmap_cons, !filter_cons.
  unfold is_png at 1. simpl. destruct (decide _); simpl; by rewrite IH.
Qed.

(** The first pass counts the names that end in [.png]. *)
Lemma count_png_spec (items : list walk_item) :
  count_png items = length (filter is_png (walked_files items)).
Proof.
  unfold count_png. induction items as [|[[root folders] files] items IH] using rev_ind.
  - done.
  - rewrite foldl_app, walked_files_snoc, filter_app, length_app. simpl.
    by rewrite IH, filter_png_fmap.
Qed.

(** The second pass appends one record for every name, whatever its
    extension, provided the class can describe every folder that holds a
    file. *)
Lemma index_pass_spec (describe : string → result (gmap string string))
    (items : list walk_item) (bar : tqdm) :
  Forall (λ item : walk_item, item.2 ≠ [] → ∃ common, describe item.1.1 = Ok common) items →
  ∃ images,
    index_pass describe items bar
    = Ok ({| total := total bar; n := (n bar + length (walked_files items))%nat |}, images)
    ∧ Forall2 (λ (file : string * string) (r : gmap string string),
                 ∃ common, describe file.1 = Ok common
                           ∧ r = <["filepath" := os_path_join file.1 file.2]> common)
              (walked_files items) images.
Proof.
  unfold index_pass.
  induction items as [|[[root folders] files] items IH] using rev_ind; intros Hdesc.
  - exists []. split; [|constructor]. simpl. destruct bar. simpl.
    by rewrite Nat.add_0_r.
  - rewrite Forall_app, Forall_singleton in Hdesc. destruct Hdesc as [Hitems Hlast].
    destruct (IH Hitems) as (images & Himages & Hrecs). simpl in Hlast.
    rewrite foldl_app, Himages, walked_files_snoc, length_app, length_fmap.
    simpl. case_decide as Hfiles.
    + exists images. destruct files; [|done]. simpl. split.
      * do 2 f_equal. by rewrite Nat.add_0_r.
      * by rewrite app_nil_r.
    + assert (files ≠ []) as Hne by (by destruct files).
      destruct (Hlast Hne) as [common Hcommon].
      rewrite Hcommon. simpl. eexists. split.
      * unfold tqdm_update. simpl. do 2 f_equal. by rewrite Nat.add_assoc.
      * apply Forall2_app; [done|]. apply Forall2_fmap, Forall_Forall2_diag.
        apply Forall_forall. intros f _. simpl. eauto.
Qed.

(** ** Running [io] computations *)

Lemma io_bind_Ok {A B} (m : io A) (k : A → io B) (w w' : world) (a : A) :
  m w = (Ok a, w') → (m ≫= k) w = k a w'.
Proof. intros H. unfold mbind, io_bind. by rewrite H. Qed.

Lemma io_bind_Raise {A B} (m : io A) (k : A → io B) (w w' : world) (e : exception) :
  m w = (Raise e, w') → (m ≫= k) w = (Raise e, w').
Proof. intros H. unfold mbind, io_bind. by rewrite H. Qed.

Lemma os_walk_run (top : string) (w : world) :
  os_walk top w = (Ok (walk (disk w) top), log w (EvWalk top)).
Proof. done. Qed.

Lemma walker_describe_Ok (c : walker) (subset root : string) :
  has_parent root → ∃ common, walker_describe c subset root = Ok common.
Proof.
  intros Hroot.
  destruct (py_list_get_last (split "/" root)) as [x Hx]; [apply split_nonempty|].
  destruct c; simpl.
  - destruct (py_list_get_last_but_one (split "/" root) Hroot) as [y Hy].
    unfold OmniglotDataset.describe. rewrite Hy, Hx. simpl. eauto.
  - unfold MiniImageNet.describe. rewrite Hx. simpl. eauto.
  - unfold ImageNetKamonDataset.describe. rewrite Hx. simpl. eauto.
Qed.

(** What [index_subset] does, for the three classes: two walks of the same
    folder, a bar whose total is the count of the first pass, and the
    records of the second. *)
Lemma walker_index_subset_run (E : environment) (c : walker) (subset : string) (w : world) :
  ∃ images,
    walker_index_subset E c subset w
    = (Ok ({| total := count_png (walk (disk w) (walker_top E c subset));
              n := length (walked_files (walk (disk w) (walker_top E c subset))) |},
           images),
       log (log w (EvWalk (walker_top E c subset))) (EvWalk (walker_top E c subset)))
    ∧ Forall2 (λ (file : string * string) (r : gmap string string),
                 ∃ common, walker_describe c subset file.1 = Ok common
                           ∧ r = <["filepath" := os_path_join file.1 file.2]> common)
              (walked_files (walk (disk w) (walker_top E c subset))) images.
Proof.
  destruct (index_pass_spec (walker_describe c subset)
              (walk (disk w) (walker_top E c subset))
              {| total := count_png (walk (disk w) (walker_top E c subset)); n := 0 |})
    as (images & Hpass & Hrecs).
  { eapply Forall_impl; [apply walk_roots_have_parent, has_parent_top|].
    intros item Hitem _. by apply walker_describe_Ok. }
  exists images. split; [|done].
  destruct c; simpl in *;
    unfold OmniglotDataset.index_subset, MiniImageNet.index_subset,
      ImageNetKamonDataset.index_subset;
    (erewrite io_bind_Ok by apply os_walk_run);
    (erewrite io_bind_Ok by apply os_walk_run);
    unfold lift; simpl; by rewrite Hpass.
Qed.

Lemma length_filter_lt {A} (P : A → Prop) `{∀ x, Decision (P x)} (l : list A) (x : A) :
  x ∈ l → ¬ P x → (length (filter P l) < length l)%nat.
Proof.
  induction 1 as [x l|x y l _ IH]; intros Hx.
  - rewrite filter_cons_False by done. pose proof (length_filter P l). simpl. lia.
  - specialize (IH Hx). rewrite filter_cons. destruct (decide (P y)); simpl; lia.
Qed.

(** ** Dicts keyed by data set id *)

Lemma lookup_zip_seqZ {V} (values : list V) (start i : Z) :
  (list_to_map (zip (seqZ start (Z.of_nat (length values))) values) : gmap Z V) !! i
  = if decide (start ≤ i < start + Z.of_nat (length values))
    then values !! Z.to_nat (i - start) else None.
Proof.
  revert start. induction values as [|v values IH]; intros start.
  - simpl. rewrite lookup_empty. by case_decide.
  - rewrite seqZ_cons by (simpl; lia).
    replace (Z.pred (Z.of_nat (length (v :: values))))
      with (Z.of_nat (length values)) by (simpl; lia).
    simpl. destruct (decide (start = i)) as [->|Hne].
    + rewrite lookup_insert_eq, decide_True by lia. by rewrite Z.sub_diag.
    + rewrite lookup_insert_ne, IH by done.
      destruct (decide (Z.succ start ≤ i < _)), (decide (start ≤ i < _)); try lia.
      * replace (Z.to_nat (i - start)) with (S (Z.to_nat (i - Z.succ start))) by lia.
        done.
      * done.
Qed.

(** The dict [to_dict] makes of a column whose index is [0..n-1] has the
    keys [0..n-1] and no other. *)
Lemma lookup_dict_of_column {V} (values : list V) (n : nat) (i : Z) :
  length values = n →
  (list_to_map (zip (seqZ 0 (Z.of_nat n)) values) : gmap Z V) !! i
  = if decide (0 ≤ i < Z.of_nat n) then values !! Z.to_nat i else None.
Proof.
  intros <-. rewrite lookup_zip_seqZ. rewrite Z.add_0_l, Z.sub_0_r. done.
Qed.

Lemma keyed_by_rows_columns {V W} (col1 : list V) (col2 : list W) (n : nat) :
  length col1 = n → length col2 = n →
  keyed_by_rows (Z.of_nat n)
    (list_to_map (zip (seqZ 0 (Z.of_nat n)) col1))
    (list_to_map (zip (seqZ 0 (Z.of_nat n)) col2)).
Proof.
  intros Hlen1 Hlen2. split; [lia|]. intros i.
  rewrite !lookup_dict_of_column by done.
  case_decide; [|done]. split; apply lookup_lt_is_Some; lia.
Qed.

(** ** Construction of the directory-walk classes *)

Lemma encode_labels_nil : encode_labels [] = Raise KeyError.
Proof. reflexivity. Qed.

Lemma walker_describe_class_name (c : walker) (subset root : string)
    (common : gmap string string) :
  walker_describe c subset root = Ok common → is_Some (common !! "class_name").
Proof.
  destruct c; simpl;
    unfold OmniglotDataset.describe, MiniImageNet.describe,
      ImageNetKamonDataset.describe;
    try (destruct (py_list_get (split "/" root) (-2)); simpl; [|done]);
    (destruct (py_list_get (split "/" root) (-1)); simpl; [|done]);
    intros [= <-]; by simplify_map_eq.
Qed.

(** What the directory-walk constructors compute from a non-empty list of
    records that all have a class name and a file path. *)
Lemma walk_frame_spec (images : list (gmap string string)) :
  images ≠ [] →
  Forall (λ r : gmap string string,
            is_Some (r !! "class_name") ∧ is_Some (r !! "filepath")) images →
  ∃ df d,
    encode_labels images = Ok (df, sorted (unique (class_names_of images)), d)
    ∧ class_table (sorted (unique (class_names_of images)))
        (Z.of_nat (length (unique (class_names_of images)))) = Ok d
    ∧ df_len df = Z.of_nat (length images)
    ∧ df_str df "class_name" = Ok (class_names_of images)
    ∧ df_int df "class_id"
      = Ok (rank_of (class_names_of images) <$> class_names_of images)
    ∧ to_dict_str df "filepath"
      = Ok (list_to_map (zip (seqZ 0 (Z.of_nat (length images))) (filepaths_of images)))
    ∧ to_dict_int df "class_id"
      = Ok (list_to_map (zip (seqZ 0 (Z.of_nat (length images)))
                             (rank_of (class_names_of images) <$> class_names_of images))).
Proof.
  intros Hne Hkeys. destruct images as [|r0 images']; [done|].
  set (images := r0 :: images') in *.
  apply Forall_cons_1 in Hkeys as Hr0. destruct Hr0 as [[Hcn Hfp] _].
  assert (df_str (pd_DataFrame images) "class_name" = Ok (class_names_of images)) as Hnames.
  { apply df_str_pd_DataFrame. split; [|done]. exists r0. split; [left|done]. }
  assert (df_str (pd_DataFrame images) "filepath" = Ok (filepaths_of images)) as Hpaths.
  { apply df_str_pd_DataFrame. split; [|done]. exists r0. split; [left|done]. }
  destruct (encode_labels_Ok images _ Hnames) as (d & Hd & Henc).
  eexists _, d. split; [exact Henc|]. split; [done|].
  split; [|split; [|split; [|split]]].
  - unfold df_len. simpl. by rewrite length_seqZ, Nat2Z.id.
  - by rewrite !df_assign_int_str.
  - unfold df_int, df_assign_int, py_dict_get. simpl. by rewrite lookup_insert_eq.
  - unfold to_dict_str. fold (df_str
      (df_assign_int (df_assign_int (pd_DataFrame images) "id"
         (df_index (pd_DataFrame images))) "class_id"
         (rank_of (class_names_of images) <$> class_names_of images)) "filepath").
    rewrite !df_assign_int_str by done. rewrite Hpaths. done.
  - unfold to_dict_int, df_assign_int, py_dict_get. simpl.
    by rewrite lookup_insert_eq.
Qed.

Lemma walker_records_keys (c : walker) (subset : string)
    (files : list (string * string)) (images : list (gmap string string)) :
  Forall2 (λ (file : string * string) (r : gmap string string),
             ∃ common, walker_describe c subset file.1 = Ok common
                       ∧ r = <["filepath" := os_path_join file.1 file.2]> common)
          files images →
  Forall (λ r : gmap string string,
            is_Some (r !! "class_name") ∧ is_Some (r !! "filepath")) images.
Proof.
  induction 1 as [|file r files images (common & Hcommon & ->) _ IH]; constructor; [|done].
  split.
  - rewrite lookup_insert_ne by done. by eapply walker_describe_class_name.
  - by rewrite lookup_insert_eq.
Qed.

Arguments OmniglotDataset.index_subset : simpl never.
Arguments MiniImageNet.index_subset : simpl never.
Arguments ImageNetKamonDataset.index_subset : simpl never.
Arguments encode_labels : simpl never.
Arguments to_dict_str : simpl never.
Arguments to_dict_int : simpl never.
Arguments pd_read_csv : simpl never.
Arguments h5py_File : simpl never.
Arguments imread : simpl never.
Arguments Compose : simpl never.

Lemma lift_Ok {A} (r : result A) (a : A) (w : world) :
  r = Ok a → lift r w = (Ok a, w).
Proof. by intros ->. Qed.

Lemma lift_Raise {A} (r : result A) (e : exception) (w : world) :
  r = Raise e → lift r w = (Raise e, w).
Proof. by intros ->. Qed.

Lemma io_bind_mret_Ok {A B} (m : io A) (f : A → B) (w w' : world) (a : A) :
  m w = (Ok a, w') → (x ← m; mret (f x)) w = (Ok (f a), w').
Proof. intros H. by rewrite (io_bind_Ok _ _ _ _ _ H). Qed.

(** Step through a bind whose first computation is known to return, or to
    raise. *)
Ltac io_ok H :=
  first [ rewrite (io_bind_Ok _ _ _ _ _ H)
        | erewrite io_bind_Ok by (apply lift_Ok; exact H) ];
  cbv beta iota zeta.

Ltac run_io :=
  unfold lift, io_raise, touch, read_disk, mbind, io_bind, mret, io_ret; simpl.

Ltac io_fail H :=
  first [ rewrite (io_bind_Raise _ _ _ _ _ H)
        | erewrite io_bind_Raise by (apply lift_Raise; exact H) ].

Lemma unique_from_fmap_inj `{EqDecision A, EqDecision B} (f : A → B)
    (seen l : list A) :
  (∀ x y, x ∈ seen ++ l → y ∈ seen ++ l → f x = f y → x = y) →
  unique_from (f <$> seen) (f <$> l) = f <$> unique_from seen l.
Proof.
  revert seen. induction l as [|x l IH]; intros seen Hinj; [done|].
  simpl. destruct (decide (x ∈ seen)) as [Hx|Hx].
  - rewrite decide_True by (by apply list_elem_of_fmap_2).
    apply IH. intros y z Hy Hz. apply Hinj; set_solver.
  - rewrite decide_False.
    + rewrite fmap_cons. f_equal. apply (IH (x :: seen)).
      intros y z Hy Hz. apply Hinj; set_solver.
    + intros (y & Hxy & Hy)%list_elem_of_fmap.
      apply Hinj in Hxy; [by subst|set_solver..].
Qed.

Lemma length_unique_fmap_inj `{EqDecision A, EqDecision B} (f : A → B) (l : list A) :
  (∀ x y, x ∈ l → y ∈ l → f x = f y → x = y) →
  length (unique (f <$> l)) = length (unique l).
Proof.
  intros Hinj. unfold unique.
  by rewrite (unique_from_fmap_inj f [] l), length_fmap.
Qed.

Lemma rank_of_inj (names : list string) (c c' : string) :
  c ∈ names → c' ∈ names → rank_of names c = rank_of names c' → c = c'.
Proof.
  intros Hc Hc' Heq.
  assert (c ∈ sorted (unique names)) as [i Hi]%list_elem_of_lookup
    by by rewrite sorted_Permutation, elem_of_unique.
  assert (c' ∈ sorted (unique names)) as [j Hj]%list_elem_of_lookup
    by by rewrite sorted_Permutation, elem_of_unique.
  rewrite (rank_of_sorted _ _ _ Hi), (rank_of_sorted _ _ _ Hj) in Heq.
  assert (i = j) as -> by lia. congruence.
Qed.


(** A directory-walk constructor, once the subset is accepted: the index
    builder runs; with no record the data frame has no column and the
    subscript [df['class_name']] fails; otherwise the data set has one row
    per record, the two dicts are keyed by the row numbers, and the class
    ids are the ranks of the class names. *)
Lemma construct_walker_run (E : environment) (c : Dataset.dataset_class)
    (wk : walker) (subset : string) (w : world) :
  valid_subset subset = true →
  walker_of c subset = Some wk →
  ∃ bar images w',
    walker_index_subset E wk subset w = (Ok (bar, images), w')
    ∧ disk w' = disk w
    ∧ length images = length (walked_files (walk (disk w) (walker_top E wk subset)))
    ∧ ((images = [] ∧ Dataset.construct E c subset w = (Raise KeyError, w'))
       ∨ (images ≠ []
          ∧ ∃ d, Dataset.construct E c subset w = (Ok d, w')
                 ∧ Dataset.length d = Ok (Z.of_nat (length images))
                 ∧ Dataset.num_classes d
                   = Ok (Z.of_nat (length (unique (class_names_of images))))
                 ∧ dicts_of d
                   = Some (list_to_map (zip (seqZ 0 (Z.of_nat (length images)))
                                            (filepaths_of images)),
                           list_to_map (zip (seqZ 0 (Z.of_nat (length images)))
                                            (rank_of (class_names_of images)
                                               <$> class_names_of images)))
                 ∧ ∃ df class_name_to_id,
                     encode_labels images
                     = Ok (df, sorted (unique (class_names_of images)), class_name_to_id)
                     ∧ encoder_of d
                       = Some (sorted (unique (class_names_of images)), class_name_to_id))).
Proof.
  intros Hvalid Hwk.
  destruct (walker_index_subset_run E wk subset w) as (images & Hrun & Hrecs).
  eexists _, images, _. split; [exact Hrun|]. split; [done|].
  split; [symmetry; by eapply Forall2_length|].
  destruct (decide (images = [])) as [->|Hne].
  - left. split; [done|]. pose proof encode_labels_nil as Hnil.
    destruct c; simpl in Hwk; try done; try case_decide; try done;
      injection Hwk as <-; unfold walker_index_subset in Hrun;
      unfold Dataset.construct; apply io_bind_Raise;
      unfold OmniglotDataset.init, MiniImageNet.init, ImageNetKamonDataset.init;
      rewrite Hvalid; cbv beta iota delta [negb]; try rewrite decide_True by done;
      io_ok Hrun; by io_fail Hnil.
  - right. split; [done|].
    destruct (walk_frame_spec images Hne (walker_records_keys _ _ _ _ Hrecs))
      as (df & d & Henc & _ & Hlen & Hnames & Hids & Hfp & Hci).
    destruct c; simpl in Hwk; try done; try case_decide; try done;
      injection Hwk as <-; unfold walker_index_subset in Hrun;
      unfold Dataset.construct;
      (eexists; split;
       [apply io_bind_mret_Ok;
        unfold OmniglotDataset.init, MiniImageNet.init, ImageNetKamonDataset.init;
        rewrite Hvalid; cbv beta iota delta [negb]; try rewrite decide_True by done;
        io_ok Hrun; io_ok Henc; io_ok Hfp; io_ok Hci; reflexivity|]);
      unfold Dataset.length, Dataset.num_classes, dicts_of,
        OmniglotDataset.len, OmniglotDataset.num_classes,
        MiniImageNet.len, MiniImageNet.num_classes,
        ImageNetKamonDataset.len, ImageNetKamonDataset.num_classes, count_class_names;
      cbn [OmniglotDataset.df MiniImageNet.df ImageNetKamonDataset.df
           OmniglotDataset.datasetid_to_filepath OmniglotDataset.datasetid_to_class_id
           MiniImageNet.datasetid_to_filepath MiniImageNet.datasetid_to_class_id
           ImageNetKamonDataset.datasetid_to_filepath
           ImageNetKamonDataset.datasetid_to_class_id];
      rewrite Hlen;
      (split; [done|]); (split; [|split; [done|by exists df, d]]).
    + by rewrite Hnames.
    + by rewrite Hnames.
    + rewrite Hids. simpl. do 2 f_equal.
      apply length_unique_fmap_inj. apply rank_of_inj.
Qed.

(** ** The subset check *)

Lemma valid_subset_spec (subset : string) :
  valid_subset subset = true ↔ subset = "background" ∨ subset = "evaluation".
Proof.
  unfold valid_subset. rewrite bool_decide_eq_true, !elem_of_cons, elem_of_nil. tauto.
Qed.

Lemma invalid_subset_spec (subset : string) :
  valid_subset subset = false ↔ subset ≠ "background" ∧ subset ≠ "evaluation".
Proof.
  unfold valid_subset. rewrite bool_decide_eq_false, !elem_of_cons, elem_of_nil. tauto.
Qed.

(** The statement [raise(ValueError, '...')] raises a tuple, which is not
    an exception: what the caller sees is TypeError. *)
Lemma subset_error_is_TypeError : subset_error = TypeError.
Proof. reflexivity. Qed.

(** Five of the six constructors look at [subset] before anything else:
    with a subset that is not allowed they raise at once and leave the world
    as it was. *)
Lemma construct_invalid_subset (E : environment) (c : Dataset.dataset_class)
    (subset : string) (w : world) :
  valid_subset subset = false →
  c ≠ Dataset.CLogo →
  Dataset.construct E c subset w = (Raise subset_error, w).
Proof.
  intros Hinvalid Hc. apply invalid_subset_spec in Hinvalid as Hne.
  destruct Hne as [Hbg Hev].
  destruct c; try done; unfold Dataset.construct; apply io_bind_Raise;
    unfold OmniglotDataset.init, MiniImageNet.init, ImageNetKamonDataset.init,
      KamonDataset.init, OldKamonDataset.init;
    rewrite ?Hinvalid, ?decide_False by done; reflexivity.
Qed.

(** C8.  In each of the three directory-walk index builders the total of
    the progress bar is the number of walked files whose name ends in
    [.png], while the index holds one record per walked file, of any
    extension, in the order of the walk.  So a walked file whose name does
    not end in [.png] is left out of the total and has its record in the
    index, and the index is then longer than the total.  The length of a
    data set built from the index is the length of the index. *)
Theorem index_builder_extension_policy (E : environment) (c : walker)
    (subset : string) (w : world) :
  ∃ bar images w',
    walker_index_subset E c subset w = (Ok (bar, images), w')
    ∧ total bar
      = length (filter is_png (walked_files (walk (disk w) (walker_top E c subset))))
    ∧ (λ r : gmap string string, r !! "filepath") <$> images
      = (λ file, Some (os_path_join file.1 file.2))
          <$> walked_files (walk (disk w) (walker_top E c subset))
    ∧ (∀ file, file ∈ walked_files (walk (disk w) (walker_top E c subset)) →
               ¬ is_png file →
               (∃ r, r ∈ images ∧ r !! "filepath" = Some (os_path_join file.1 file.2))
               ∧ (total bar < length images)%nat)
    ∧ (∀ c0 d w1, walker_of c0 subset = Some c →
                  Dataset.construct E c0 subset w = (Ok d, w1) →
                  Dataset.length d = Ok (Z.of_nat (length images))).
Proof.
  destruct (walker_index_subset_run E c subset w) as (images & Hrun & Hrecs).
  set (files := walked_files (walk (disk w) (walker_top E c subset))) in *.
  assert ((λ r : gmap string string, r !! "filepath") <$> images
          = (λ file, Some (os_path_join file.1 file.2)) <$> files) as Hpaths.
  { clear Hrun. induction Hrecs as [|file r fs rs (common & _ & ->) _ IH]; [done|].
    rewrite !fmap_cons, IH. by rewrite lookup_insert_eq. }
  eexists _, images, _. split; [exact Hrun|]. simpl.
  split; [apply count_png_spec|]. split; [done|]. split.
  - intros file Hfile Hpng. split.
    + apply list_elem_of_lookup in Hfile as [i Hi].
      destruct (Forall2_lookup_l _ _ _ _ _ Hrecs Hi) as (r & Hr & common & _ & ->).
      eexists. split; [by eapply list_elem_of_lookup_2|]. by rewrite lookup_insert_eq.
    + rewrite count_png_spec. fold files.
      rewrite <-(Forall2_length _ _ _ Hrecs). by eapply length_filter_lt.
  - intros c0 d w1 Hwk Hd.
    assert (valid_subset subset = true) as Hvalid.
    { destruct (valid_subset subset) eqn:Hvalid; [done|].
      rewrite construct_invalid_subset in Hd; [done..|]. by destruct c0. }
    destruct (construct_walker_run E c0 c subset w Hvalid Hwk)
      as (bar0 & images0 & w0 & Hrun0 & _ & _
          & [[_ Hraise]|(_ & d0 & Hok & Hlen & _)]); [congruence|].
    assert (d0 = d ∧ images0 = images) as [-> ->] by (split; congruence). done.
Qed.

(** ** Construction of the manifest classes *)

Lemma pd_read_csv_run (path : string) (w : world) :
  pd_read_csv path w
  = (match fs_csv (disk w) path with
     | None => Raise FileNotFoundError
     | Some rows => Ok rows
     end, log w (EvReadCsv path)).
Proof.
  unfold pd_read_csv. run_io. by destruct (fs_csv (disk w) path).
Qed.

Lemma manifest_frame_dicts (rows : list (string * Z)) :
  to_dict_str (df_assign_int (manifest_frame rows) "id" (df_index (manifest_frame rows)))
              "filepath"
  = Ok (list_to_map (zip (seqZ 0 (Z.of_nat (length rows))) rows.*1))
  ∧ to_dict_int (df_assign_int (manifest_frame rows) "id" (df_index (manifest_frame rows)))
                "class_id"
    = Ok (list_to_map (zip (seqZ 0 (Z.of_nat (length rows))) rows.*2))
  ∧ df_int (df_assign_int (manifest_frame rows) "id" (df_index (manifest_frame rows)))
           "class_id"
    = Ok rows.*2.
Proof.
  unfold to_dict_str, to_dict_int, df_int, df_assign_int, manifest_frame, py_dict_get.
  simpl. rewrite lookup_delete_ne, lookup_singleton_eq by done.
  rewrite lookup_insert_ne, lookup_singleton_eq by done. done.
Qed.

Lemma length_unique_size_Z (ids : list Z) :
  length (unique ids) = size (list_to_set ids : gset Z).
Proof.
  rewrite <-(size_list_to_set (C:=gset Z) (unique ids)) by apply NoDup_unique.
  f_equal. apply set_eq. intros c.
  by rewrite !elem_of_list_to_set, elem_of_unique.
Qed.

Lemma manifest_init_run (subset path : string) (w : world) :
  match fs_csv (disk w) path with
  | None => manifest_init subset path w = (Raise FileNotFoundError, log w (EvReadCsv path))
  | Some rows =>
      ∃ d, manifest_init subset path w = (Ok d, log w (EvReadCsv path))
           ∧ df_len (m_df d) = Z.of_nat (length rows)
           ∧ m_datasetid_to_filepath d
             = list_to_map (zip (seqZ 0 (Z.of_nat (length rows))) rows.*1)
           ∧ m_datasetid_to_class_id d
             = list_to_map (zip (seqZ 0 (Z.of_nat (length rows))) rows.*2)
           ∧ m_transform d = Fixed <$> resize_transform
  end.
Proof.
  pose proof (pd_read_csv_run path w) as Hcsv. unfold manifest_init.
  destruct (fs_csv (disk w) path) as [rows|].
  - destruct (manifest_frame_dicts rows) as (Hfp & Hci & _).
    eexists. split; [io_ok Hcsv; io_ok Hfp; io_ok Hci; reflexivity|].
    split; [|done]. unfold df_len. cbn [m_df df_assign_int df_index manifest_frame].
    by rewrite length_seqZ, Nat2Z.id.
  - by io_fail Hcsv.
Qed.

(** What a constructor that reads a manifest does: it reads the file, and
    with the file there it builds the data set of its rows, also when there
    is no row. *)
Lemma construct_manifest_run (E : environment) (c : Dataset.dataset_class)
    (subset path : string) (w : world) :
  manifest_path c subset = Some path →
  match fs_csv (disk w) path with
  | None => Dataset.construct E c subset w
            = (Raise FileNotFoundError, log w (EvReadCsv path))
  | Some rows =>
      ∃ d, Dataset.construct E c subset w = (Ok d, log w (EvReadCsv path))
           ∧ Dataset.length d = Ok (Z.of_nat (length rows))
           ∧ dicts_of d
             = Some (list_to_map (zip (seqZ 0 (Z.of_nat (length rows))) rows.*1),
                     list_to_map (zip (seqZ 0 (Z.of_nat (length rows))) rows.*2))
           ∧ transform_of d = Some (Fixed <$> resize_transform)
           ∧ Dataset.num_classes d
             = if decide (c = Dataset.CImageNetKamon)
               then Ok (Z.of_nat (size (list_to_set rows.*2 : gset Z)))
               else Raise AttributeError
  end.
Proof.
  intros Hpath. destruct c; simpl in Hpath; try done.
  - (* ImageNetKamonDataset, evaluation *)
    case_decide as Hev; [|done]. injection Hpath as <-. subst subset.
    pose proof (pd_read_csv_run ImageNetKamonDataset.csv_filepath w) as Hcsv.
    unfold Dataset.construct, ImageNetKamonDataset.init.
    change (valid_subset "evaluation") with true. cbv beta iota delta [negb].
    rewrite decide_False, decide_True by done.
    destruct (fs_csv (disk w) ImageNetKamonDataset.csv_filepath) as [rows|].
    + destruct (manifest_frame_dicts rows) as (Hfp & Hci & Hids).
      eexists. split;
        [apply io_bind_mret_Ok; io_ok Hcsv; io_ok Hfp; io_ok Hci; reflexivity|].
      split; [|split; [done|split; [done|]]].
      * unfold Dataset.length, ImageNetKamonDataset.len, df_len.
        cbn [ImageNetKamonDataset.df df_assign_int df_index manifest_frame].
        by rewrite length_seqZ, Nat2Z.id.
      * rewrite decide_True by done.
        unfold Dataset.num_classes, ImageNetKamonDataset.num_classes.
        cbn [ImageNetKamonDataset.df]. rewrite Hids.
        rewrite <-length_unique_size_Z. reflexivity.
    + apply io_bind_Raise. by io_fail Hcsv.
  - (* KamonDataset *)
    unfold Dataset.construct, KamonDataset.init.
    repeat case_decide; try done; injection Hpath as <-;
      pose proof (manifest_init_run subset
        (if decide (subset = "background")
         then "/data/input/configs/input_files/training_input_charge_classification_v1.csv"
         else "/data/input/configs/input_files/eval_input_charge_classification_v1.csv")
        w) as Hinit;
      rewrite ?decide_True, ?decide_False in Hinit by done;
      destruct (fs_csv (disk w) _) as [rows|];
      try (by apply io_bind_Raise);
      destruct Hinit as (d & Hinit & Hlen & Hfp & Hci & Htr);
      (exists (Dataset.Kamon d)); (split; [by apply io_bind_mret_Ok|]);
      unfold Dataset.length, KamonDataset.len, dicts_of, transform_of;
      rewrite Hlen, Hfp, Hci, Htr; done.
  - (* OldKamonDataset *)
    unfold Dataset.construct, OldKamonDataset.init.
    repeat case_decide; try done; injection Hpath as <-;
      pose proof (manifest_init_run subset
        (if decide (subset = "background")
         then "/data/input/configs/input_files/training_input_classification_extended_v6.csv"
         else "/data/input/configs/input_files/eval_input_classification_extended_v6.csv")
        w) as Hinit;
      rewrite ?decide_True, ?decide_False in Hinit by done;
      destruct (fs_csv (disk w) _) as [rows|];
      try (by apply io_bind_Raise);
      destruct Hinit as (d & Hinit & Hlen & Hfp & Hci & Htr);
      (exists (Dataset.OldKamon d)); (split; [by apply io_bind_mret_Ok|]);
      unfold Dataset.length, OldKamonDataset.len, dicts_of, transform_of;
      rewrite Hlen, Hfp, Hci, Htr; done.
Qed.

(** ** Construction of LogoDataset *)

Lemma h5py_File_run (path : string) (w : world) :
  h5py_File path w
  = (match fs_hdf5 (disk w) path with
     | None => Raise FileNotFoundError
     | Some b => Ok b
     end, log w (EvOpenHdf5 path)).
Proof.
  unfold h5py_File. run_io. by destruct (fs_hdf5 (disk w) path).
Qed.

Lemma rmapM_Raise {A B} (f : A → result B) (xs : list A) (x : A) (e : exception) :
  x ∈ xs → f x = Raise e → ∃ e', rmapM f xs = Raise e'.
Proof.
  intros [i Hi]%list_elem_of_lookup Hx.
  destruct (rmapM f xs) as [ys|e'] eqn:Hys; [|by eexists].
  destruct (rmapM_Ok_lookup f xs ys i x Hys Hi) as (y & _ & Hy). congruence.
Qed.

(** The rest of [LogoDataset.__init__] once the bounds of the slice are
    chosen: every label of the slice is read, so the slice has to lie
    inside the labels of the container. *)
Lemma logo_slice_full (E : environment) (subset : string) (hdf5_file : blob)
    (starting_index ending_index : Z) (w : world)
    (k : Z * Z → io LogoDataset.t) :
  k = (λ '(starting_index, ending_index),
         let index := seqZ 0 (ending_index - starting_index) in
         rows ← lift (rmapM (λ i,
                         let image_id := i + starting_index in
                         class_id ← py_list_get (labels_resnet_rc_32 hdf5_file) image_id;
                         Ok (image_id, class_id)) index);
         let df := {| df_index := index;
                      str_columns := ∅;
                      int_columns := {[ "image_id" := rows.*1; "class_id" := rows.*2 ]} |} in
         let df := df_assign_int df "id" (df_index df) in
         datasetid_to_image_id ← lift (to_dict_int df "image_id");
         datasetid_to_class_id ← lift (to_dict_int df "class_id");
         mret {| LogoDataset.hdf5_filepath := logo_path;
                 LogoDataset.subset := subset;
                 LogoDataset.df := df;
                 LogoDataset.datasetid_to_image_id := datasetid_to_image_id;
                 LogoDataset.datasetid_to_class_id := datasetid_to_class_id;
                 LogoDataset.transform := Fixed <$> resize_transform |}) →
  0 ≤ starting_index < ending_index →
  if decide (ending_index ≤ Z.of_nat (length (labels_resnet_rc_32 hdf5_file))) then
    ∃ d, k (starting_index, ending_index) w = (Ok d, w)
         ∧ LogoDataset.hdf5_filepath d = logo_path
         ∧ LogoDataset.len d = ending_index - starting_index
         ∧ LogoDataset.transform d = Fixed <$> resize_transform
         ∧ ∀ i, LogoDataset.datasetid_to_image_id d !! i
                = (if decide (0 ≤ i < ending_index - starting_index)
                   then Some (i + starting_index) else None)
                ∧ LogoDataset.datasetid_to_class_id d !! i
                  = (if decide (0 ≤ i < ending_index - starting_index)
                     then labels_resnet_rc_32 hdf5_file !! Z.to_nat (i + starting_index)
                     else None)
  else ∃ e, k (starting_index, ending_index) w = (Raise e, w).
Proof.
  intros -> Hn. cbv beta iota zeta.
  set (labels := labels_resnet_rc_32 hdf5_file).
  set (n := ending_index - starting_index).
  set (f := λ i : Z, class_id ← py_list_get labels (i + starting_index);
                     Ok (i + starting_index, class_id)).
  case_decide as Hlen.
  - set (g := λ i : Z, (i + starting_index,
                        default 0 (labels !! Z.to_nat (i + starting_index)))).
    assert (rmapM f (seqZ 0 n) = Ok (g <$> seqZ 0 n)) as Hrows.
    { apply rmapM_Ok_fmap, Forall_seqZ. intros i Hi. unfold f, g, py_list_get.
      destruct (decide (i + starting_index < 0)); [lia|].
      rewrite decide_True by (unfold n in Hi; lia).
      destruct (lookup_lt_is_Some_2 labels (Z.to_nat (i + starting_index))) as [z ->];
        [unfold n in Hi; lia|]. done. }
    assert (seqZ 0 n = seqZ 0 (Z.of_nat (Z.to_nat n))) as Hseq
      by (f_equal; unfold n; lia).
    set (df := df_assign_int
                 {| df_index := seqZ 0 n;
                    str_columns := ∅;
                    int_columns := {[ "image_id" := (g <$> seqZ 0 n).*1;
                                      "class_id" := (g <$> seqZ 0 n).*2 ]} |}
                 "id" (seqZ 0 n)).
    assert (to_dict_int df "image_id"
            = Ok (list_to_map (zip (seqZ 0 n) (g <$> seqZ 0 n).*1))) as Himage.
    { unfold to_dict_int, df, df_assign_int, py_dict_get. simpl.
      by rewrite lookup_insert_ne, lookup_insert_eq by done. }
    assert (to_dict_int df "class_id"
            = Ok (list_to_map (zip (seqZ 0 n) (g <$> seqZ 0 n).*2))) as Hclass.
    { unfold to_dict_int, df, df_assign_int, py_dict_get. simpl.
      by rewrite !lookup_insert_ne, lookup_singleton_eq by done. }
    eexists. split; [|split; [|split; [|split]]].
    + io_ok Hrows. fold df. io_ok Himage. io_ok Hclass. reflexivity.
    + done.
    + unfold LogoDataset.len, df_len. simpl. rewrite length_seqZ. unfold n. lia.
    + done.
    + intros i. cbn [LogoDataset.datasetid_to_image_id LogoDataset.datasetid_to_class_id].
      rewrite Hseq at 1 3.
      rewrite !(lookup_dict_of_column _ (Z.to_nat n))
        by (by rewrite !length_fmap, length_seqZ).
      replace (Z.of_nat (Z.to_nat n)) with n by (unfold n; lia).
      case_decide as Hi; [|done].
      rewrite !list_lookup_fmap, (lookup_seqZ_lt 0 n (Z.to_nat i)) by lia.
      simpl. replace (0 + Z.of_nat (Z.to_nat i)) with i by lia.
      split; [done|].
      destruct (lookup_lt_is_Some_2 labels (Z.to_nat (i + starting_index))) as [z ->];
        [unfold n in Hi; lia|]. done.
  - set (i := Z.max 0 (Z.of_nat (length labels) - starting_index)).
    destruct (rmapM_Raise f (seqZ 0 n) i IndexError) as [e He].
    { apply elem_of_seqZ. unfold i, n. lia. }
    { unfold f, py_list_get. destruct (decide (i + starting_index < 0)); [unfold i in *; lia|].
      rewrite decide_False by (unfold i; lia). done. }
    exists e. by io_fail He.
Qed.

(** [LogoDataset(subset)] on a disk that holds the container, for an
    allowed subset. *)
Lemma logo_init_full (E : environment) (subset : string) (w : world) (b : blob)
    (starting_index ending_index : Z) :
  fs_hdf5 (disk w) logo_path = Some b →
  logo_bounds subset = Some (starting_index, ending_index) →
  0 ≤ starting_index < ending_index
  ∧ if decide (ending_index ≤ Z.of_nat (length (labels_resnet_rc_32 b))) then
      ∃ d, LogoDataset.init E subset w = (Ok d, log w (EvOpenHdf5 logo_path))
           ∧ LogoDataset.hdf5_filepath d = logo_path
           ∧ LogoDataset.len d = ending_index - starting_index
           ∧ LogoDataset.transform d = Fixed <$> resize_transform
           ∧ ∀ i, LogoDataset.datasetid_to_image_id d !! i
                  = (if decide (0 ≤ i < ending_index - starting_index)
                     then Some (i + starting_index) else None)
                  ∧ LogoDataset.datasetid_to_class_id d !! i
                    = (if decide (0 ≤ i < ending_index - starting_index)
                       then labels_resnet_rc_32 b !! Z.to_nat (i + starting_index)
                       else None)
    else ∃ e, LogoDataset.init E subset w = (Raise e, log w (EvOpenHdf5 logo_path)).
Proof.
  intros Hb Hbounds. pose proof (h5py_File_run logo_path w) as Hopen.
  rewrite Hb in Hopen. unfold logo_bounds in Hbounds.
  unfold LogoDataset.init. cbv zeta. fold logo_path. io_ok Hopen.
  destruct (decide (subset = "background")) as [->|Hbg].
  - injection Hbounds as <- <-. split; [lia|].
    match goal with
    | |- context [ (mret (0, 20000) ≫= ?k) _ ] =>
        pose proof (logo_slice_full E "background" b 0 20000
                      (log w (EvOpenHdf5 logo_path)) k eq_refl) as Hslice
    end.
    apply Hslice. lia.
  - destruct (decide (subset = "evaluation")) as [->|Hev]; [|done].
    injection Hbounds as <- <-. split; [lia|].
    match goal with
    | |- context [ (mret (20000, 30000) ≫= ?k) _ ] =>
        pose proof (logo_slice_full E "evaluation" b 20000 30000
                      (log w (EvOpenHdf5 logo_path)) k eq_refl) as Hslice
    end.
    apply Hslice. lia.
Qed.

Lemma logo_init_run (E : environment) (subset : string) (w : world) :
  match fs_hdf5 (disk w) logo_path with
  | None => LogoDataset.init E subset w
            = (Raise FileNotFoundError, log w (EvOpenHdf5 logo_path))
  | Some b =>
      if valid_subset subset then
        (∃ e, LogoDataset.init E subset w = (Raise e, log w (EvOpenHdf5 logo_path)))
        ∨ (∃ d n, LogoDataset.init E subset w = (Ok d, log w (EvOpenHdf5 logo_path))
                  ∧ LogoDataset.hdf5_filepath d = logo_path
                  ∧ LogoDataset.len d = n
                  ∧ keyed_by_rows n (LogoDataset.datasetid_to_image_id d)
                      (LogoDataset.datasetid_to_class_id d))
      else LogoDataset.init E subset w = (Raise subset_error, log w (EvOpenHdf5 logo_path))
  end.
Proof.
  destruct (fs_hdf5 (disk w) logo_path) as [b|] eqn:Hb.
  - destruct (valid_subset subset) eqn:Hvalid.
    + assert (∃ bounds, logo_bounds subset = Some bounds) as [[start stop] Hbounds].
      { apply valid_subset_spec in Hvalid as [-> | ->]; by eexists. }
      destruct (logo_init_full E subset w b start stop Hb Hbounds) as [Hrange Hinit].
      case_decide as Hlen.
      * right. destruct Hinit as (d & Hinit & Hpath & Hn & _ & Hids).
        exists d, (stop - start). split; [done|]. split; [done|]. split; [done|].
        split; [lia|]. intros i. destruct (Hids i) as [-> ->].
        case_decide; [|done]. split; [done|]. apply lookup_lt_is_Some. lia.
      * left. exact Hinit.
    + pose proof (h5py_File_run logo_path w) as Hopen. rewrite Hb in Hopen.
      unfold LogoDataset.init. cbv zeta. fold logo_path. io_ok Hopen.
      apply invalid_subset_spec in Hvalid as [Hbg Hev].
      rewrite !decide_False by done. reflexivity.
  - pose proof (h5py_File_run logo_path w) as Hopen. rewrite Hb in Hopen.
    unfold LogoDataset.init. cbv zeta. fold logo_path. by io_fail Hopen.
Qed.

(** C1.  [LogoDataset('train')]: the constructor opens the HDF5 container
    before it looks at [subset].  The failure therefore comes after an
    access to the file system; when the container is missing the outcome is
    the not-found error of the open, and otherwise it is the TypeError of
    [raise(ValueError, '...')], not ValueError. *)
Theorem LogoDataset_opens_blob_before_subset_check (E : environment) (w : world) :
  Dataset.construct E Dataset.CLogo "train" w
  = (match fs_hdf5 (disk w) logo_path with
     | None => Raise FileNotFoundError
     | Some _ => Raise TypeError
     end,
     log w (EvOpenHdf5 logo_path)).
Proof.
  pose proof (logo_init_run E "train" w) as Hinit.
  change (valid_subset "train") with false in Hinit.
  unfold Dataset.construct. destruct (fs_hdf5 (disk w) logo_path); by io_fail Hinit.
Qed.

(** ** [get] reads and never writes *)

Lemma reads_only_pure {A} (m : io A) (r : result A) :
  (∀ w, m w = (r, w)) → reads_only m.
Proof.
  intros Hm w. rewrite Hm. split; [done|]. split; [done|].
  split; [by exists []; rewrite app_nil_r|]. intros w' _. by rewrite Hm.
Qed.

Lemma reads_only_mret {A} (a : A) : reads_only (mret a : io A).
Proof. by apply (reads_only_pure _ (Ok a)). Qed.

Lemma reads_only_raise {A} (e : exception) : reads_only (io_raise e : io A).
Proof. by apply (reads_only_pure _ (Raise e)). Qed.

Lemma reads_only_lift {A} (r : result A) : reads_only (lift r).
Proof. by apply (reads_only_pure _ r). Qed.

Lemma reads_only_touch (ev : fs_event) : reads_only (touch ev).
Proof. intros w. split; [done|]. split; [done|]. split; [by exists [ev]|done]. Qed.

Lemma reads_only_read_disk : reads_only read_disk.
Proof.
  intros w. split; [done|]. split; [done|]. split; [by exists []; rewrite app_nil_r|].
  intros w' Hw'. simpl. by rewrite Hw'.
Qed.

Lemma reads_only_bind {A B} (m : io A) (k : A → io B) :
  reads_only m → (∀ a, reads_only (k a)) → reads_only (m ≫= k).
Proof.
  intros Hm Hk w. destruct (Hm w) as (Hdisk & Hrng & [evs Htrace] & Hres).
  unfold mbind, io_bind. destruct (m w) as [[a|e] w1] eqn:Hmw; simpl in *.
  - destruct (Hk a w1) as (Hdisk1 & Hrng1 & [evs1 Htrace1] & Hres1).
    split; [congruence|]. split; [congruence|]. split.
    + exists (evs ++ evs1). by rewrite Htrace1, Htrace, app_assoc.
    + intros w' Hw'. specialize (Hres w' Hw').
      destruct (Hm w') as (Hdisk' & _ & _).
      destruct (m w') as [[a'|e'] w1']; simpl in *; [|done].
      injection Hres as ->. apply Hres1. congruence.
  - split; [done|]. split; [done|]. split; [by exists evs|].
    intros w' Hw'. specialize (Hres w' Hw').
    destruct (m w') as [[a'|e'] w1']; simpl in *; [done|]. by injection Hres as ->.
Qed.

Lemma reads_only_imread (path : string) : reads_only (imread path).
Proof.
  unfold imread. apply reads_only_bind; [apply reads_only_touch|intros _].
  apply reads_only_bind; [apply reads_only_read_disk|].
  intros fs. destruct (fs_image fs path);
    first [apply reads_only_raise | apply reads_only_mret].
Qed.

Lemma reads_only_Image_open (path : string) : reads_only (Image_open path).
Proof.
  unfold Image_open. apply reads_only_bind; [apply reads_only_touch|intros _].
  apply reads_only_bind; [apply reads_only_read_disk|].
  intros fs. destruct (fs_image fs path);
    first [apply reads_only_raise | apply reads_only_mret].
Qed.

Lemma reads_only_h5py_File (path : string) : reads_only (h5py_File path).
Proof.
  unfold h5py_File. apply reads_only_bind; [apply reads_only_touch|intros _].
  apply reads_only_bind; [apply reads_only_read_disk|].
  intros fs. destruct (fs_hdf5 fs path);
    first [apply reads_only_raise | apply reads_only_mret].
Qed.

(** A list of transforms that are functions is called without a look at
    the world: the call is the composition of the functions. *)
Lemma Compose_call_Fixed (E : environment) (ops : list transform_op) (x : picture)
    (w : world) :
  Compose_call E (Fixed <$> ops) x w = (Compose E ops x, w).
Proof.
  unfold Compose_call, Compose.
  assert (∀ (acc : io picture) (r : result picture),
            acc w = (r, w) →
            foldl (λ acc t, p ← acc;
                            match t with
                            | Fixed op => lift (torchvision E op p)
                            | Random op => draw E op p
                            end) acc (Fixed <$> ops) w
            = (foldl (λ acc op, p ← acc; torchvision E op p) r ops, w)) as Hfold.
  { induction ops as [|op ops IH]; intros acc r Hacc; [done|].
    rewrite fmap_cons. cbn [foldl]. apply IH.
    unfold mbind at 1, io_bind. rewrite Hacc. by destruct r. }
  by apply Hfold.
Qed.

Lemma reads_only_Compose_call_Fixed (E : environment) (ops : list transform_op)
    (x : picture) :
  reads_only (Compose_call E (Fixed <$> ops) x).
Proof.
  apply (reads_only_pure _ (Compose E ops x)). intros w. apply Compose_call_Fixed.
Qed.

Lemma reads_only_pil_getitem (E : environment) (fp : gmap Z string) (ci : gmap Z Z)
    (ops : list transform_op) (item : Z) :
  reads_only (pil_getitem E fp ci (Fixed <$> ops) item).
Proof.
  unfold pil_getitem.
  repeat first [ apply reads_only_Image_open | apply reads_only_lift
               | apply reads_only_mret | apply reads_only_Compose_call_Fixed
               | apply reads_only_bind; [|intros ?] ].
Qed.

(** [get] on a data set whose list of transforms, when it has one, holds
    no random transform. *)
Lemma reads_only_get (E : environment) (d : Dataset.dataset) (index : Z) :
  match transform_of d with
  | Some ts => ∃ ops, ts = Fixed <$> ops
  | None => True
  end →
  reads_only (Dataset.get E d index).
Proof.
  intros Hfixed.
  destruct d; simpl in Hfixed; unfold Dataset.get, Dataset.with_int_label;
    (apply reads_only_bind; [|intros [? ?]; apply reads_only_mret]).
  - unfold OmniglotDataset.getitem.
    repeat first [ apply reads_only_imread | apply reads_only_lift | apply reads_only_mret
                 | apply reads_only_bind; [|intros ?] ].
  - destruct Hfixed as [ops Hops].
    unfold MiniImageNet.getitem. rewrite Hops. apply reads_only_pil_getitem.
  - destruct Hfixed as [ops Hops].
    unfold ImageNetKamonDataset.getitem. rewrite Hops. apply reads_only_pil_getitem.
  - destruct Hfixed as [ops Hops].
    unfold KamonDataset.getitem. rewrite Hops. apply reads_only_pil_getitem.
  - destruct Hfixed as [ops Hops].
    unfold OldKamonDataset.getitem. rewrite Hops. apply reads_only_pil_getitem.
  - destruct Hfixed as [ops Hops]. unfold LogoDataset.getitem. rewrite Hops.
    repeat first [ apply reads_only_h5py_File | apply reads_only_lift | apply reads_only_mret
                 | apply reads_only_Compose_call_Fixed
                 | apply reads_only_bind; [|intros ?] ].
  - apply reads_only_lift.
Qed.

Lemma io_bind_Ok_inv {A B} (m : io A) (k : A → io B) (w w' : world) (b : B) :
  (m ≫= k) w = (Ok b, w') → ∃ a w1, m w = (Ok a, w1) ∧ k a w1 = (Ok b, w').
Proof. unfold mbind, io_bind. destruct (m w) as [[a|e] w1]; [eauto|done]. Qed.

(** The list of transforms of a data set is the one its constructor wrote
    down for the class and the subset: OmniglotDataset has none, a data set
    that walks a miniImageNet folder crops, resizes and normalises, and a
    data set read from a manifest or from the container resizes and turns
    grey.  None of these is a random transform. *)
Lemma construct_transform (E : environment) (c : Dataset.dataset_class)
    (subset : string) (w w' : world) (d : Dataset.dataset) :
  Dataset.construct E c subset w = (Ok d, w') →
  transform_of d
  = match c with
    | Dataset.COmniglot => None
    | Dataset.CMiniImageNet => Some (Fixed <$> MiniImageNet.crop_transform)
    | Dataset.CImageNetKamon =>
        if decide (subset = "background")
        then Some (Fixed <$> MiniImageNet.crop_transform)
        else Some (Fixed <$> resize_transform)
    | Dataset.CKamon | Dataset.COldKamon | Dataset.CLogo =>
        Some (Fixed <$> resize_transform)
    end.
Proof.
  intros Hd. unfold Dataset.construct in Hd. destruct c;
    apply io_bind_Ok_inv in Hd as (d0 & w1 & Hinit & Hd); injection Hd as <- _.
  - done.
  - unfold MiniImageNet.init in Hinit.
    destruct (negb (valid_subset subset)); [done|].
    apply io_bind_Ok_inv in Hinit as ([bar images] & w2 & _ & Hinit).
    apply io_bind_Ok_inv in Hinit as ([[df uc] cn] & w3 & _ & Hinit).
    apply io_bind_Ok_inv in Hinit as (fp & w4 & _ & Hinit).
    apply io_bind_Ok_inv in Hinit as (ci & w5 & _ & Hinit).
    by injection Hinit as <- _.
  - unfold ImageNetKamonDataset.init in Hinit.
    destruct (negb (valid_subset subset)); [done|].
    destruct (decide (subset = "background")) as [Hbg|Hbg].
    + apply io_bind_Ok_inv in Hinit as ([bar images] & w2 & _ & Hinit).
      apply io_bind_Ok_inv in Hinit as ([[df uc] cn] & w3 & _ & Hinit).
      apply io_bind_Ok_inv in Hinit as (fp & w4 & _ & Hinit).
      apply io_bind_Ok_inv in Hinit as (ci & w5 & _ & Hinit).
      by injection Hinit as <- _.
    + destruct (decide (subset = "evaluation")); [|done].
      apply io_bind_Ok_inv in Hinit as (rows & w2 & _ & Hinit).
      apply io_bind_Ok_inv in Hinit as (fp & w4 & _ & Hinit).
      apply io_bind_Ok_inv in Hinit as (ci & w5 & _ & Hinit).
      by injection Hinit as <- _.
  - unfold KamonDataset.init, manifest_init in Hinit.
    repeat case_decide; try done;
      apply io_bind_Ok_inv in Hinit as (rows & w2 & _ & Hinit);
      apply io_bind_Ok_inv in Hinit as (fp & w4 & _ & Hinit);
      apply io_bind_Ok_inv in Hinit as (ci & w5 & _ & Hinit);
      by injection Hinit as <- _.
  - unfold OldKamonDataset.init, manifest_init in Hinit.
    repeat case_decide; try done;
      apply io_bind_Ok_inv in Hinit as (rows & w2 & _ & Hinit);
      apply io_bind_Ok_inv in Hinit as (fp & w4 & _ & Hinit);
      apply io_bind_Ok_inv in Hinit as (ci & w5 & _ & Hinit);
      by injection Hinit as <- _.
  - unfold LogoDataset.init in Hinit. cbv zeta in Hinit.
    apply io_bind_Ok_inv in Hinit as (b & w2 & _ & Hinit).
    apply io_bind_Ok_inv in Hinit as ([start stop] & w3 & _ & Hinit).
    apply io_bind_Ok_inv in Hinit as (rows & w4 & _ & Hinit).
    apply io_bind_Ok_inv in Hinit as (ids & w5 & _ & Hinit).
    apply io_bind_Ok_inv in Hinit as (ci & w6 & _ & Hinit).
    by injection Hinit as <- _.
Qed.

(** C7.  The list of transforms of a constructed data set is the one the
    constructor wrote down for its class and subset, and it holds no random
    transform.  So two calls of [get] with the same index on an unchanged
    disk have the same outcome, the same sample and the same label when the
    call returns and the same error when it raises: this holds for the call
    made right after the first one, in the world the first one left, and
    for a call in any world with the same disk, whatever was accessed and
    whatever random numbers were drawn in between.  A call of [get] leaves
    nothing behind that a later call could see: after it, [get] with any
    index answers as it would have answered before.  [get] changes neither
    the disk nor the state of the random number generator; it only adds to
    the trace of accesses. *)
Theorem get_is_repeatable (E : environment) (c : Dataset.dataset_class) (subset : string)
    (w0 w0' : world) (d : Dataset.dataset) :
  Dataset.construct E c subset w0 = (Ok d, w0') →
  transform_of d
  = match c with
    | Dataset.COmniglot => None
    | Dataset.CMiniImageNet =>
        Some (Fixed <$> [CenterCrop 224; Resize 84; ToTensor;
                         Normalize [485 # 1000; 456 # 1000; 406 # 1000]%Q
                                   [229 # 1000; 224 # 1000; 225 # 1000]%Q])
    | Dataset.CImageNetKamon =>
        if decide (subset = "background")
        then Some (Fixed <$> [CenterCrop 224; Resize 84; ToTensor;
                              Normalize [485 # 1000; 456 # 1000; 406 # 1000]%Q
                                        [229 # 1000; 224 # 1000; 225 # 1000]%Q])
        else Some (Fixed <$> [ResizeTo 86 86; Grayscale 3; ToTensor])
    | Dataset.CKamon | Dataset.COldKamon | Dataset.CLogo =>
        Some (Fixed <$> [ResizeTo 86 86; Grayscale 3; ToTensor])
    end
  ∧ ∀ (index : Z) (w : world),
      (Dataset.get E d index (Dataset.get E d index w).2).1 = (Dataset.get E d index w).1
      ∧ (∀ w2, disk w2 = disk w →
               (Dataset.get E d index w2).1 = (Dataset.get E d index w).1)
      ∧ (∀ index',
           (Dataset.get E d index' (Dataset.get E d index w).2).1
           = (Dataset.get E d index' w).1)
      ∧ disk (Dataset.get E d index w).2 = disk w
      ∧ rng (Dataset.get E d index w).2 = rng w
      ∧ ∃ events, trace (Dataset.get E d index w).2 = trace w ++ events.
Proof.
  intros Hd. pose proof (construct_transform E c subset w0 w0' d Hd) as Htr.
  split; [exact Htr|]. intros index w.
  assert (∀ i, reads_only (Dataset.get E d i)) as Hreads.
  { intros i. apply reads_only_get. rewrite Htr. destruct c; try case_decide; by eauto. }
  destruct (Hreads index w) as (Hdisk & Hrng & Htrace & Hres).
  split; [by apply Hres|]. split; [exact Hres|]. split.
  - intros index'. destruct (Hreads index' w) as (_ & _ & _ & Hres'). by apply Hres'.
  - split; [done|]. split; done.
Qed.

Lemma get_is_repeatable_witness :
  transform_of example_kamon = Some (Fixed <$> [ResizeTo 86 86; Grayscale 3; ToTensor])
  ∧ ∀ (index : Z) (w : world),
      (Dataset.get example_env example_kamon index
         (Dataset.get example_env example_kamon index w).2).1
      = (Dataset.get example_env example_kamon index w).1
      ∧ (∀ w2, disk w2 = disk w →
               (Dataset.get example_env example_kamon index w2).1
               = (Dataset.get example_env example_kamon index w).1)
      ∧ (∀ index',
           (Dataset.get example_env example_kamon index'
              (Dataset.get example_env example_kamon index w).2).1
           = (Dataset.get example_env example_kamon index' w).1)
      ∧ disk (Dataset.get example_env example_kamon index w).2 = disk w
      ∧ rng (Dataset.get example_env example_kamon index w).2 = rng w
      ∧ ∃ events, trace (Dataset.get example_env example_kamon index w).2
                  = trace w ++ events.
Proof.
  apply (get_is_repeatable example_env Dataset.CKamon "evaluation" example_world
           (Dataset.construct example_env Dataset.CKamon "evaluation" example_world).2).
  vm_compute. reflexivity.
Defined.

(** The statement is about the lists the constructors write down.  A data
    set with a random transform in its list, which no constructor builds,
    is not repeatable: the second call sees the generator where the first
    one left it. *)
Lemma random_transform_is_not_repeatable :
  let E := {| DATA_PATH := "/data";
              torchvision := λ _ p, Ok p;
              torchvision_random := λ _ g p,
                (Ok (Tensor {| shape := [1%nat]; data := [Fin (inject_Z g)] |}), g + 1) |} in
  let d := Dataset.Kamon
             {| m_subset := "evaluation";
                m_df := manifest_frame [("/img/x.png", 5)];
                m_datasetid_to_filepath := {[ 0 := "/img/x.png" ]};
                m_datasetid_to_class_id := {[ 0 := 5 ]};
                m_transform := [Fixed (ResizeTo 86 86); Random RandomHorizontalFlip] |} in
  (Dataset.get E d 0 (Dataset.get E d 0 example_world).2).1
  ≠ (Dataset.get E d 0 example_world).1
  ∧ rng (Dataset.get E d 0 example_world).2 ≠ rng example_world.
Proof. split; vm_compute; discriminate. Qed.

(** A DummyDataset reads nothing and draws nothing: [get] computes its
    answer from the index and leaves the world as it is. *)
Lemma DummyDataset_get_leaves_world (E : environment) (d : DummyDataset.t)
    (index : Z) (w w2 : world) :
  (Dataset.get E (Dataset.Dummy d) index w).2 = w
  ∧ (Dataset.get E (Dataset.Dummy d) index w2).1
    = (Dataset.get E (Dataset.Dummy d) index w).1.
Proof.
  unfold Dataset.get, mbind, io_bind, lift.
  by destruct (DummyDataset.getitem d index) as [[v l]|e].
Qed.

(** ** What every constructed data set satisfies *)

Lemma class_cases (c : Dataset.dataset_class) (subset : string) :
  valid_subset subset = true →
  (∃ wk, walker_of c subset = Some wk)
  ∨ (∃ path, manifest_path c subset = Some path)
  ∨ c = Dataset.CLogo.
Proof.
  intros [-> | ->]%valid_subset_spec; destruct c; simpl; eauto.
Qed.

Lemma construct_constructed (E : environment) (c : Dataset.dataset_class)
    (subset : string) (w w' : world) (d : Dataset.dataset) :
  Dataset.construct E c subset w = (Ok d, w') →
  disk w' = disk w ∧ ∃ n, constructed (disk w) d n.
Proof.
  intros Hd. destruct (valid_subset subset) eqn:Hvalid.
  - destruct (class_cases c subset Hvalid) as [[wk Hwk]|[[path Hpath]| ->]].
    + destruct (construct_walker_run E c wk subset w Hvalid Hwk)
        as (bar & images & w0 & _ & Hdisk & _ & [[_ Hraise]|(_ & d0 & Hok & Hlen & _ & Hdicts & _)]);
        [congruence|].
      assert (d0 = d ∧ w0 = w') as [-> ->] by (split; congruence).
      split; [done|]. exists (Z.of_nat (length images)). split; [done|].
      destruct d; try done; eexists _, _; (split; [exact Hdicts|]);
        apply keyed_by_rows_columns; unfold filepaths_of, class_names_of;
        by rewrite ?length_fmap.
    + pose proof (construct_manifest_run E c subset path w Hpath) as Hrun.
      destruct (fs_csv (disk w) path) as [rows|]; [|congruence].
      destruct Hrun as (d0 & Hok & Hlen & Hdicts & _).
      assert (d0 = d ∧ log w (EvReadCsv path) = w') as [-> <-] by (split; congruence).
      split; [done|]. exists (Z.of_nat (length rows)). split; [done|].
      destruct d; try done; eexists _, _; (split; [exact Hdicts|]);
        apply keyed_by_rows_columns; by rewrite ?length_fmap.
    + pose proof (logo_init_run E subset w) as Hrun. rewrite Hvalid in Hrun.
      unfold Dataset.construct in Hd.
      destruct (fs_hdf5 (disk w) logo_path) as [b|] eqn:Hblob.
      2:{ rewrite (io_bind_Raise _ _ _ _ _ Hrun) in Hd. done. }
      destruct Hrun as [[e He]|(ld & n & Hok & Hpath & Hlen & Hkeyed)].
      { rewrite (io_bind_Raise _ _ _ _ _ He) in Hd. done. }
      rewrite (io_bind_mret_Ok _ _ _ _ _ Hok) in Hd. injection Hd as <- <-.
      split; [done|]. exists n. destruct Hkeyed as [Hn Hkeys]. split.
      * unfold Dataset.length. by rewrite Hlen.
      * rewrite Hpath, Hblob. done.
  - exfalso. destruct (decide (c = Dataset.CLogo)) as [->|Hc].
    + pose proof (logo_init_run E subset w) as Hrun. rewrite Hvalid in Hrun.
      unfold Dataset.construct in Hd.
      destruct (fs_hdf5 (disk w) logo_path);
        rewrite (io_bind_Raise _ _ _ _ _ Hrun) in Hd; done.
    + rewrite construct_invalid_subset in Hd by done. done.
Qed.

(** ** Access out of range *)

Lemma py_dict_get_None `{Countable K} {V} (d : gmap K V) (k : K) :
  d !! k = None → py_dict_get d k = Raise KeyError.
Proof. unfold py_dict_get. by intros ->. Qed.

Lemma pil_getitem_missing_key (E : environment) (fp : gmap Z string) (ci : gmap Z Z)
    (tr : list transform) (item : Z) (w : world) :
  fp !! item = None → pil_getitem E fp ci tr item w = (Raise KeyError, w).
Proof.
  intros Hkey%py_dict_get_None. unfold pil_getitem. by io_fail Hkey.
Qed.

(** An index that is not a key of the dict [get] reads first: the
    subscript fails with KeyError, before any file is opened. *)
Lemma get_missing_key (E : environment) (d : Dataset.dataset) (fp : gmap Z string)
    (ci : gmap Z Z) (index : Z) (w : world) :
  dicts_of d = Some (fp, ci) → fp !! index = None →
  Dataset.get E d index w = (Raise KeyError, w).
Proof.
  intros Hdicts Hkey.
  destruct d; try done; injection Hdicts as <- <-;
    unfold Dataset.get, Dataset.with_int_label; apply io_bind_Raise;
    try by apply pil_getitem_missing_key.
  apply py_dict_get_None in Hkey. unfold OmniglotDataset.getitem. by io_fail Hkey.
Qed.

(** A logo data set opens its container before it looks the index up. *)
Lemma logo_get_missing_key (E : environment) (d : LogoDataset.t) (index : Z) (w : world) :
  LogoDataset.datasetid_to_image_id d !! index = None →
  Dataset.get E (Dataset.Logo d) index w
  = (match fs_hdf5 (disk w) (LogoDataset.hdf5_filepath d) with
     | None => Raise FileNotFoundError
     | Some _ => Raise KeyError
     end, log w (EvOpenHdf5 (LogoDataset.hdf5_filepath d))).
Proof.
  intros Hkey%py_dict_get_None.
  pose proof (h5py_File_run (LogoDataset.hdf5_filepath d) w) as Hopen.
  unfold Dataset.get, Dataset.with_int_label.
  destruct (fs_hdf5 (disk w) (LogoDataset.hdf5_filepath d)); apply io_bind_Raise;
    unfold LogoDataset.getitem; [|by io_fail Hopen].
  io_ok Hopen. by io_fail Hkey.
Qed.

(** What [construct] returns is a data set of the class it was asked for. *)
Lemma construct_class (E : environment) (c : Dataset.dataset_class) (subset : string)
    (w w' : world) (d : Dataset.dataset) :
  Dataset.construct E c subset w = (Ok d, w') →
  match d with
  | Dataset.Logo ld => c = Dataset.CLogo ∧ LogoDataset.hdf5_filepath ld = logo_path
  | Dataset.Dummy _ => False
  | _ => c ≠ Dataset.CLogo
  end.
Proof.
  intros Hd. unfold Dataset.construct in Hd. destruct c;
    apply io_bind_Ok_inv in Hd as (d0 & w1 & Hinit & Hd); injection Hd as <- _;
    try done.
  split; [done|]. unfold LogoDataset.init in Hinit. cbv zeta in Hinit.
  apply io_bind_Ok_inv in Hinit as (b & w2 & _ & Hinit).
  apply io_bind_Ok_inv in Hinit as ([start stop] & w3 & _ & Hinit).
  apply io_bind_Ok_inv in Hinit as (rows & w4 & _ & Hinit).
  apply io_bind_Ok_inv in Hinit as (ids & w5 & _ & Hinit).
  apply io_bind_Ok_inv in Hinit as (ci & w6 & _ & Hinit).
  by injection Hinit as <- _.
Qed.

(** C2, as the code has it.  For a data set built by one of the six
    constructors that index files, [get] with an index outside
    [0 <= index < length()] fails.  OmniglotDataset, MiniImageNet,
    ImageNetKamonDataset, KamonDataset and OldKamonDataset subscript a dict
    first: the failure is KeyError, an error of the out-of-range
    (LookupError) kind, and no file is opened.  LogoDataset opens its
    container first: the failure is KeyError with the container in its
    place and FileNotFoundError without it.  In particular [get(length())]
    and [get(-1)], called where the constructor returned, fail with
    KeyError.  (DummyDataset is not built by these constructors and checks
    no range.) *)
Theorem get_out_of_range (E : environment) (c : Dataset.dataset_class) (subset : string)
    (w w' : world) (d : Dataset.dataset) :
  Dataset.construct E c subset w = (Ok d, w') →
  ∃ n, Dataset.length d = Ok n
       ∧ 0 ≤ n
       ∧ (∀ index w1, ¬ (0 ≤ index < n) →
            Dataset.get E d index w1
            = if decide (c = Dataset.CLogo)
              then (match fs_hdf5 (disk w1) logo_path with
                    | None => Raise FileNotFoundError
                    | Some _ => Raise KeyError
                    end, log w1 (EvOpenHdf5 logo_path))
              else (Raise KeyError, w1))
       ∧ is_LookupError KeyError = true
       ∧ (Dataset.get E d n w').1 = Raise KeyError
       ∧ (Dataset.get E d (-1) w').1 = Raise KeyError.
Proof.
  intros Hd. destruct (construct_constructed E c subset w w' d Hd) as (Hdisk & n & Hn).
  pose proof (construct_class E c subset w w' d Hd) as Hclass.
  destruct Hn as [Hlen Hkeys].
  assert (0 ≤ n) as Hpos.
  { destruct d; try done; try (by destruct Hkeys as (? & ? & _ & ? & _)).
    by destruct Hkeys as (_ & ? & _). }
  assert (∀ index w1, ¬ (0 ≤ index < n) →
            Dataset.get E d index w1
            = if decide (c = Dataset.CLogo)
              then (match fs_hdf5 (disk w1) logo_path with
                    | None => Raise FileNotFoundError
                    | Some _ => Raise KeyError
                    end, log w1 (EvOpenHdf5 logo_path))
              else (Raise KeyError, w1)) as Hget.
  { intros index w1 Hindex. destruct d; try done;
      try (destruct Hkeys as (fp & ci & Hdicts & _ & Hkeys);
           specialize (Hkeys index); rewrite decide_False in Hkeys by done;
           destruct Hkeys as [Hkey _]; rewrite decide_False by done;
           by eapply get_missing_key).
    destruct Hclass as [-> Hpath]. destruct Hkeys as (_ & _ & Hkeys).
    specialize (Hkeys index). rewrite decide_False in Hkeys by done.
    destruct Hkeys as [Hkey _]. rewrite decide_True by done. rewrite <-Hpath.
    by apply logo_get_missing_key. }
  assert (∀ index, ¬ (0 ≤ index < n) → (Dataset.get E d index w').1 = Raise KeyError)
    as Hafter.
  { intros index Hindex. rewrite Hget by done. case_decide as Hc; [|done].
    rewrite Hdisk. destruct d; try done; try (by destruct Hclass).
    destruct Hclass as [_ Hpath]. destruct Hkeys as ([b Hb] & _).
    rewrite Hpath in Hb. by rewrite Hb. }
  exists n. split; [done|]. split; [done|]. split; [exact Hget|]. split; [done|].
  split; apply Hafter; lia.
Qed.

Lemma get_out_of_range_witness :
  ∃ n, Dataset.length example_kamon = Ok n
       ∧ 0 ≤ n
       ∧ (∀ index w1, ¬ (0 ≤ index < n) →
            Dataset.get example_env example_kamon index w1
            = if decide (Dataset.CKamon = Dataset.CLogo)
              then (match fs_hdf5 (disk w1) logo_path with
                    | None => Raise FileNotFoundError
                    | Some _ => Raise KeyError
                    end, log w1 (EvOpenHdf5 logo_path))
              else (Raise KeyError, w1))
       ∧ is_LookupError KeyError = true
       ∧ (Dataset.get example_env example_kamon n
            (Dataset.construct example_env Dataset.CKamon "evaluation" example_world).2).1
         = Raise KeyError
       ∧ (Dataset.get example_env example_kamon (-1)
            (Dataset.construct example_env Dataset.CKamon "evaluation" example_world).2).1
         = Raise KeyError.
Proof.
  apply (get_out_of_range example_env Dataset.CKamon "evaluation" example_world).
  reflexivity.
Defined.

(** DummyDataset checks no range: [get(length())] and [get(-1)] return. *)
Lemma DummyDataset_get_out_of_range_returns :
  ∃ d, DummyDataset.init 2 3 1 = Ok d
       ∧ Dataset.length (Dataset.Dummy d) = Ok 6
       ∧ (Dataset.get example_env (Dataset.Dummy d) 6 example_world).1
         = Ok (Vector [Fin (inject_Z 6); Fin (inject_Z 0)], FloatLabel (Fin (inject_Z 0)))
       ∧ (Dataset.get example_env (Dataset.Dummy d) (-1) example_world).1
         = Ok (Vector [Fin (inject_Z (-1)); Fin (inject_Z 2)], FloatLabel (Fin (inject_Z 2))).
Proof. eexists. repeat split; reflexivity. Qed.

(** ** A source that does not exist *)

(** C5, as the code has it.  For an allowed subset whose source does not
    exist, construction raises and yields no data set.  The manifest
    classes and the logo class raise the not-found error of the library
    that opens the file.  A directory-walk class does not: the walk of a
    missing folder yields nothing, [index_subset] returns an empty index
    without an error, and construction then stops at the subscript
    [df['class_name']] with KeyError. *)
Theorem construct_source_missing (E : environment) (c : Dataset.dataset_class)
    (subset : string) (w : world) :
  valid_subset subset = true →
  source_missing E c subset (disk w) →
  ∃ e w',
    Dataset.construct E c subset w = (Raise e, w')
    ∧ disk w' = disk w
    ∧ match Dataset.variant_of c subset with
      | Dataset.DirectoryWalk =>
          e = KeyError
          ∧ ∃ wk bar, walker_of c subset = Some wk
                      ∧ (walker_index_subset E wk subset w).1 = Ok (bar, [])
      | Dataset.Manifest | Dataset.EmbeddedBlob =>
          e = FileNotFoundError ∧ is_NotFound e = true
      end.
Proof.
  intros Hvalid Hmissing. unfold source_missing in Hmissing.
  destruct (class_cases c subset Hvalid) as [[wk Hwk]|[[path Hpath]| ->]].
  - rewrite Hwk in Hmissing.
    destruct (construct_walker_run E c wk subset w Hvalid Hwk)
      as (bar & images & w0 & Hrun & Hdisk & Hlen & Hcases).
    unfold walk in Hlen. rewrite Hmissing in Hlen. simpl in Hlen.
    destruct images; [|done].
    destruct Hcases as [[_ Hraise]|[Hne _]]; [|done].
    exists KeyError, w0. split; [done|]. split; [done|].
    assert (Dataset.variant_of c subset = Dataset.DirectoryWalk) as ->.
    { destruct c; simpl in *; try done; by case_decide. }
    split; [done|]. exists wk, bar. by rewrite Hrun.
  - assert (walker_of c subset = None) as Hwk.
    { destruct c; simpl in *; try done. repeat case_decide; by subst. }
    rewrite Hwk, Hpath in Hmissing.
    pose proof (construct_manifest_run E c subset path w Hpath) as Hrun.
    rewrite Hmissing in Hrun.
    exists FileNotFoundError, (log w (EvReadCsv path)). split; [done|]. split; [done|].
    assert (Dataset.variant_of c subset = Dataset.Manifest) as ->; [|done].
    destruct c; simpl in *; try done. repeat case_decide; by subst.
  - simpl in Hmissing. pose proof (logo_init_run E subset w) as Hrun.
    rewrite Hmissing in Hrun.
    exists FileNotFoundError, (log w (EvOpenHdf5 logo_path)).
    split; [by apply io_bind_Raise|done].
Qed.

Lemma construct_source_missing_witness :
  ∃ e w',
    Dataset.construct example_env Dataset.CKamon "background" example_world = (Raise e, w')
    ∧ disk w' = disk example_world
    ∧ e = FileNotFoundError ∧ is_NotFound e = true.
Proof.
  apply (construct_source_missing example_env Dataset.CKamon "background" example_world);
    reflexivity.
Defined.

(** The folder of the evaluation subset is not on the example disk: the
    Omniglot constructor fails, and not with a not-found error. *)
Lemma Omniglot_missing_root_raises_KeyError :
  fs_dir example_disk "/data/Omniglot/images_evaluation/" = None
  ∧ (Dataset.construct example_env Dataset.COmniglot "evaluation" example_world).1
    = Raise KeyError
  ∧ is_NotFound KeyError = false.
Proof. repeat split; reflexivity. Qed.

(** ** The min-max rescale of OmniglotDataset *)

Lemma foldl_min_spec (x : Z) (xs : list Z) :
  (∀ y, y ∈ x :: xs → foldl Z.min x xs ≤ y) ∧ foldl Z.min x xs ∈ x :: xs.
Proof.
  revert x. induction xs as [|z xs IH]; intros x; simpl.
  - split; [|left]. intros y ->%list_elem_of_singleton. lia.
  - destruct (IH (x `min` z)) as [Hle Hin]. split.
    + intros y Hy. apply elem_of_cons in Hy as [->|Hy].
      * specialize (Hle (x `min` z)). etrans; [apply Hle; left|lia].
      * apply elem_of_cons in Hy as [->|Hy].
        -- etrans; [apply (Hle (x `min` z)); left|lia].
        -- apply Hle. by right.
    + apply elem_of_cons in Hin as [Hin|Hin]; [|set_solver].
      rewrite Hin. destruct (Z.min_spec x z) as [[_ ->]|[_ ->]]; set_solver.
Qed.

Lemma foldl_max_spec (x : Z) (xs : list Z) :
  (∀ y, y ∈ x :: xs → y ≤ foldl Z.max x xs) ∧ foldl Z.max x xs ∈ x :: xs.
Proof.
  revert x. induction xs as [|z xs IH]; intros x; simpl.
  - split; [|left]. intros y ->%list_elem_of_singleton. lia.
  - destruct (IH (x `max` z)) as [Hle Hin]. split.
    + intros y Hy. apply elem_of_cons in Hy as [->|Hy].
      * specialize (Hle (x `max` z)). etrans; [|apply Hle; left]. lia.
      * apply elem_of_cons in Hy as [->|Hy].
        -- etrans; [|apply (Hle (x `max` z)); left]. lia.
        -- apply Hle. by right.
    + apply elem_of_cons in Hin as [Hin|Hin]; [|set_solver].
      rewrite Hin. destruct (Z.max_spec x z) as [[_ ->]|[_ ->]]; set_solver.
Qed.

(** Where the divisor is not zero: an array of uint8 values with two
    different entries is rescaled into the unit interval. *)
Lemma min_max_rescale_unit_interval (a : ndarray Z) (lo hi : Z) :
  Forall (λ x, 0 ≤ x < 256) (data a) →
  np_min a = Ok lo → np_max a = Ok hi → lo ≠ hi →
  ∃ out, min_max_rescale a = Ok {| shape := shape a; data := out |}
         ∧ length out = length (data a)
         ∧ Forall (λ y, ∃ q, y = Fin q ∧ (0 <= q)%Q ∧ (q <= 1)%Q) out.
Proof.
  intros Hu8 Hlo Hhi Hne. unfold min_max_rescale. rewrite Hlo, Hhi. simpl.
  eexists. split; [done|]. split; [by rewrite length_fmap|].
  unfold np_min, np_max in *. destruct (data a) as [|x xs] eqn:Hdata; [done|].
  injection Hlo as <-. injection Hhi as <-.
  destruct (foldl_min_spec x xs) as [Hmin Hmin_in].
  destruct (foldl_max_spec x xs) as [Hmax Hmax_in].
  set (lo := foldl Z.min x xs) in *. set (hi := foldl Z.max x xs) in *.
  assert (lo ≤ hi) by (apply Hmin, Hmax_in).
  rewrite Forall_forall in Hu8.
  pose proof (Hu8 _ Hmin_in). pose proof (Hu8 _ Hmax_in).
  apply Forall_fmap, Forall_forall. intros y Hy. simpl.
  pose proof (Hu8 _ Hy). pose proof (Hmin _ Hy). pose proof (Hmax _ Hy).
  unfold u8. rewrite !Z.mod_small by lia. unfold np_truediv.
  rewrite decide_False by lia. eexists. split; [done|].
  apply truediv_unit_interval; lia.
Qed.

(** C6.  An image whose pixels all have the same value [v]: the minimum
    and the maximum are both [v], the divisor [max - min] is zero, and
    every entry of the rescaled array is NaN, which is no value of
    [0, 1]. *)
Theorem min_max_rescale_constant (dims : list nat) (v : Z) (n : nat) :
  np_max {| shape := dims; data := replicate (S n) v |} = Ok v
  ∧ np_min {| shape := dims; data := replicate (S n) v |} = Ok v
  ∧ u8 (v - v) = 0
  ∧ min_max_rescale {| shape := dims; data := replicate (S n) v |}
    = Ok {| shape := dims; data := replicate (S n) NaN |}.
Proof.
  assert (∀ m, foldl Z.min v (replicate m v) = v) as Hmin.
  { induction m as [|m IH]; [done|]. cbn [replicate foldl]. by rewrite Z.min_id. }
  assert (∀ m, foldl Z.max v (replicate m v) = v) as Hmax.
  { induction m as [|m IH]; [done|]. cbn [replicate foldl]. by rewrite Z.max_id. }
  assert (u8 (v - v) = 0) as Hzero by (unfold u8; by rewrite Z.sub_diag).
  split; [|split; [|split]].
  - unfold np_max. simpl. by rewrite Hmax.
  - unfold np_min. simpl. by rewrite Hmin.
  - done.
  - unfold min_max_rescale, np_min, np_max.
    cbn [data shape replicate]. rewrite Hmin, Hmax. simpl. f_equal. f_equal.
    rewrite Hzero. unfold np_truediv. simpl. f_equal.
    rewrite fmap_replicate. by rewrite Hzero.
Qed.

(** On the example disk the first Omniglot sample is a constant image:
    [get(0)] returns four NaN. *)
Example Omniglot_constant_image_gives_NaN :
  (d ← (Dataset.construct example_env Dataset.COmniglot "background" example_world).1;
   (Dataset.get example_env d 0 example_world).1)
  = Ok (Array {| shape := [1; 2; 2]%nat; data := [NaN; NaN; NaN; NaN] |}, IntLabel 1).
Proof. vm_compute. reflexivity. Qed.

(** The third sample has two grey levels and is rescaled into [0, 1]. *)
Example Omniglot_rescaled_image :
  (d ← (Dataset.construct example_env Dataset.COmniglot "background" example_world).1;
   (Dataset.get example_env d 2 example_world).1)
  = Ok (Array {| shape := [1; 2; 2]%nat;
                 data := [Fin (0 # 255); Fin (255 # 255); Fin (10 # 255); Fin (20 # 255)] |},
        IntLabel 2).
Proof. vm_compute. reflexivity. Qed.

(** ** Labels *)

Lemma imread_run (path : string) (w : world) :
  imread path w
  = (match fs_image (disk w) path with
     | Missing => Raise FileNotFoundError
     | Corrupt => Raise ValueError
     | Pixels a => Ok a
     end, log w (EvOpenImage path)).
Proof. unfold imread. run_io. by destruct (fs_image (disk w) path). Qed.

Lemma Image_open_run (path : string) (w : world) :
  Image_open path w
  = (match fs_image (disk w) path with
     | Missing => Raise FileNotFoundError
     | Corrupt => Raise OSError
     | Pixels a => Ok a
     end, log w (EvOpenImage path)).
Proof. unfold Image_open. run_io. by destruct (fs_image (disk w) path). Qed.

Lemma lift_Ok_inv {A} (r : result A) (w w' : world) (a : A) :
  lift r w = (Ok a, w') → r = Ok a.
Proof. unfold lift. by intros [= ->]. Qed.

(** The whole of [pil_getitem] for an index that is a key, with a list of
    transforms that are functions. *)
Lemma pil_getitem_full (E : environment) (fp : gmap Z string) (ci : gmap Z Z)
    (ops : list transform_op) (item : Z) (w : world) (path : string) (z : Z) :
  fp !! item = Some path → ci !! item = Some z →
  pil_getitem E fp ci (Fixed <$> ops) item w
  = (match fs_image (disk w) path with
     | Missing => Raise FileNotFoundError
     | Corrupt => Raise OSError
     | Pixels a => (λ p, (p, z)) <$> Compose E ops (PIL a)
     end, log w (EvOpenImage path)).
Proof.
  intros Hpath Hz. pose proof (Image_open_run path w) as Hread.
  assert (py_dict_get fp item = Ok path) as Hpath' by (unfold py_dict_get; by rewrite Hpath).
  assert (py_dict_get ci item = Ok z) as Hz' by (unfold py_dict_get; by rewrite Hz).
  unfold pil_getitem. io_ok Hpath'.
  destruct (fs_image (disk w) path) as [| |a].
  - by io_fail Hread.
  - by io_fail Hread.
  - io_ok Hread.
    pose proof (Compose_call_Fixed E ops (PIL a) (log w (EvOpenImage path))) as Hcall.
    destruct (Compose E ops (PIL a)) as [p|e].
    + io_ok Hcall. io_ok Hz'. reflexivity.
    + by io_fail Hcall.
Qed.

Lemma pil_getitem_run (E : environment) (fp : gmap Z string) (ci : gmap Z Z)
    (ops : list transform_op) (item : Z) (w : world)
    (path : string) (a : image) (p : picture) (z : Z) :
  fp !! item = Some path → fs_image (disk w) path = Pixels a →
  Compose E ops (PIL a) = Ok p → ci !! item = Some z →
  pil_getitem E fp ci (Fixed <$> ops) item w = (Ok (p, z), log w (EvOpenImage path)).
Proof.
  intros Hpath Himage Hp Hz. rewrite (pil_getitem_full E fp ci ops item w path z) by done.
  by rewrite Himage, Hp.
Qed.

Lemma pil_getitem_Ok (E : environment) (fp : gmap Z string) (ci : gmap Z Z)
    (tr : list transform) (item : Z) (w w' : world) (p : picture) (z : Z) :
  pil_getitem E fp ci tr item w = (Ok (p, z), w') → ci !! item = Some z.
Proof.
  unfold pil_getitem. intros Hget.
  apply io_bind_Ok_inv in Hget as (path & w1 & _ & Hget).
  apply io_bind_Ok_inv in Hget as (a & w2 & _ & Hget).
  apply io_bind_Ok_inv in Hget as (p' & w3 & _ & Hget).
  apply io_bind_Ok_inv in Hget as (z' & w4 & Hz%lift_Ok_inv & Hget).
  injection Hget as _ <- _. unfold py_dict_get in Hz.
  by destruct (ci !! item); simplify_eq.
Qed.

Lemma min_max_rescale_total (a : ndarray Z) :
  data a ≠ [] → ∃ out, min_max_rescale a = Ok out.
Proof.
  intros Hdata. unfold min_max_rescale, np_min, np_max.
  destruct (data a); [done|]. simpl. eauto.
Qed.

(** An image of eight or sixteen bits to the pixel, of two dimensions at
    least and with a pixel in it, gets its new axis and is rescaled. *)
Lemma rescale_total (a : image) :
  dtype_of a ≠ bool_ → (2 ≤ length (shape (pixels a)))%nat → data (pixels a) ≠ [] →
  ∃ out, image_newaxis a ≫= rescale = Ok out.
Proof.
  intros Hdtype Hdim Hdata. unfold image_newaxis, np_newaxis.
  rewrite decide_False by lia. cbn [mbind result_bind]. unfold rescale.
  cbn [dtype_of pixels]. destruct (dtype_of a); [done| |].
  - by apply min_max_rescale_total.
  - unfold min_max_rescale16, np_min, np_max. cbn [data].
    destruct (data (pixels a)); [done|]. simpl. eauto.
Qed.

(** The whole of [OmniglotDataset.__getitem__] for an index that is a
    key. *)
Lemma Omniglot_getitem_full (d : OmniglotDataset.t) (item : Z) (w : world)
    (path : string) (z : Z) :
  OmniglotDataset.datasetid_to_filepath d !! item = Some path →
  OmniglotDataset.datasetid_to_class_id d !! item = Some z →
  OmniglotDataset.getitem d item w
  = (match fs_image (disk w) path with
     | Missing => Raise FileNotFoundError
     | Corrupt => Raise ValueError
     | Pixels a => (λ out, (out, z)) <$> (image_newaxis a ≫= rescale)
     end, log w (EvOpenImage path)).
Proof.
  intros Hpath Hz. pose proof (imread_run path w) as Hread.
  assert (py_dict_get (OmniglotDataset.datasetid_to_filepath d) item = Ok path) as Hpath'
    by (unfold py_dict_get; by rewrite Hpath).
  assert (py_dict_get (OmniglotDataset.datasetid_to_class_id d) item = Ok z) as Hz'
    by (unfold py_dict_get; by rewrite Hz).
  unfold OmniglotDataset.getitem. io_ok Hpath'.
  destruct (fs_image (disk w) path) as [| |a].
  - by io_fail Hread.
  - by io_fail Hread.
  - io_ok Hread. destruct (image_newaxis a) as [a'|e].
    + erewrite io_bind_Ok by (apply lift_Ok; reflexivity). cbv beta iota zeta.
      change (Ok a' ≫= rescale) with (rescale a').
      destruct (rescale a') as [out|e].
      * erewrite io_bind_Ok by (apply lift_Ok; reflexivity). cbv beta iota zeta.
        io_ok Hz'. reflexivity.
      * erewrite io_bind_Raise by (apply lift_Raise; reflexivity). reflexivity.
    + erewrite io_bind_Raise by (apply lift_Raise; reflexivity). reflexivity.
Qed.

Lemma Omniglot_getitem_run (d : OmniglotDataset.t) (item : Z) (w : world)
    (path : string) (a : image) (z : Z) :
  OmniglotDataset.datasetid_to_filepath d !! item = Some path →
  fs_image (disk w) path = Pixels a →
  dtype_of a ≠ bool_ → (2 ≤ length (shape (pixels a)))%nat → data (pixels a) ≠ [] →
  OmniglotDataset.datasetid_to_class_id d !! item = Some z →
  ∃ out, OmniglotDataset.getitem d item w = (Ok (out, z), log w (EvOpenImage path)).
Proof.
  intros Hpath Himage Hdtype Hdim Hdata Hz.
  destruct (rescale_total a Hdtype Hdim Hdata) as [out Hout].
  exists out. rewrite (Omniglot_getitem_full d item w path z) by done.
  by rewrite Himage, Hout.
Qed.

Lemma Omniglot_getitem_Ok (d : OmniglotDataset.t) (item : Z) (w w' : world)
    (out : ndarray np_float) (z : Z) :
  OmniglotDataset.getitem d item w = (Ok (out, z), w') →
  OmniglotDataset.datasetid_to_class_id d !! item = Some z.
Proof.
  unfold OmniglotDataset.getitem. intros Hget.
  apply io_bind_Ok_inv in Hget as (path & w1 & _ & Hget).
  apply io_bind_Ok_inv in Hget as (a & w2 & _ & Hget).
  apply io_bind_Ok_inv in Hget as (a' & w3 & _ & Hget).
  apply io_bind_Ok_inv in Hget as (out' & w4 & _ & Hget).
  apply io_bind_Ok_inv in Hget as (z' & w5 & Hz%lift_Ok_inv & Hget).
  injection Hget as _ <- _. unfold py_dict_get in Hz.
  by destruct (_ !! item); simplify_eq.
Qed.

Lemma rank_of_bounds (names : list string) (c : string) :
  c ∈ names → 0 ≤ rank_of names c < Z.of_nat (length (unique names)).
Proof.
  intros Hc.
  assert (c ∈ sorted (unique names)) as [i Hi]%list_elem_of_lookup
    by by rewrite sorted_Permutation, elem_of_unique.
  rewrite (rank_of_sorted _ _ _ Hi). apply lookup_lt_Some in Hi.
  rewrite sorted_Permutation in Hi. lia.
Qed.

(** [get] on a data set that reads image files: a label it returns is the
    entry of the class-id dict, and it returns when the index is a key and
    the image decodes. *)
Lemma get_label (E : environment) (d : Dataset.dataset) (fp : gmap Z string)
    (ci : gmap Z Z) (index : Z) :
  dicts_of d = Some (fp, ci) →
  (∀ w w' s l, Dataset.get E d index w = (Ok (s, l), w') →
               ∃ z, l = IntLabel z ∧ ci !! index = Some z)
  ∧ (∀ w path z, fp !! index = Some path → ci !! index = Some z →
                 decodes E d path (disk w) →
                 ∃ s, (Dataset.get E d index w).1 = Ok (s, IntLabel z)).
Proof.
  intros Hdicts. split.
  - intros w w' s l.
    destruct d; try done; injection Hdicts as <- <-;
      unfold Dataset.get, Dataset.with_int_label, mbind, io_bind;
      [destruct (OmniglotDataset.getitem _ _ _) as [[[x z]|e] w1] eqn:Hget
      |destruct (MiniImageNet.getitem _ _ _ _) as [[[x z]|e] w1] eqn:Hget
      |destruct (ImageNetKamonDataset.getitem _ _ _ _) as [[[x z]|e] w1] eqn:Hget
      |destruct (KamonDataset.getitem _ _ _ _) as [[[x z]|e] w1] eqn:Hget
      |destruct (OldKamonDataset.getitem _ _ _ _) as [[[x z]|e] w1] eqn:Hget];
      simpl; try done; intros [= _ <- _]; exists z; (split; [done|]);
      first [ by eapply Omniglot_getitem_Ok | by eapply pil_getitem_Ok ].
  - intros w path z Hpath Hz (a & Himage & Hdec).
    destruct d; try done; injection Hdicts as <- <-;
      unfold Dataset.get, Dataset.with_int_label.
    + destruct Hdec as (Hdtype & Hdim & Hdata).
      destruct (Omniglot_getitem_run _ _ w _ _ _ Hpath Himage Hdtype Hdim Hdata Hz)
        as [out Hrun].
      exists (Array out). by rewrite (io_bind_Ok _ _ _ _ _ Hrun).
    + destruct Hdec as (ops & p & [= Hops] & Hp). exists (Picture p).
      unfold MiniImageNet.getitem. rewrite Hops.
      by rewrite (io_bind_Ok _ _ _ _ _ (pil_getitem_run E _ _ _ _ w _ _ _ _
                                          Hpath Himage Hp Hz)).
    + destruct Hdec as (ops & p & [= Hops] & Hp). exists (Picture p).
      unfold ImageNetKamonDataset.getitem. rewrite Hops.
      by rewrite (io_bind_Ok _ _ _ _ _ (pil_getitem_run E _ _ _ _ w _ _ _ _
                                          Hpath Himage Hp Hz)).
    + destruct Hdec as (ops & p & [= Hops] & Hp). exists (Picture p).
      unfold KamonDataset.getitem. rewrite Hops.
      by rewrite (io_bind_Ok _ _ _ _ _ (pil_getitem_run E _ _ _ _ w _ _ _ _
                                          Hpath Himage Hp Hz)).
    + destruct Hdec as (ops & p & [= Hops] & Hp). exists (Picture p).
      unfold OldKamonDataset.getitem. rewrite Hops.
      by rewrite (io_bind_Ok _ _ _ _ _ (pil_getitem_run E _ _ _ _ w _ _ _ _
                                          Hpath Himage Hp Hz)).
Qed.

(** C4, as the code has it.  For a data set of a class that walks a
    directory (OmniglotDataset, MiniImageNet, and ImageNetKamonDataset on
    [background]): [num_classes()] is the number of distinct class names
    among the records its index builder produced; every label [get]
    returns lies in [0, num_classes()); and for every valid index the
    label is there and [get] returns it whenever the image decodes.  (A
    data set read from a manifest takes its labels from the table as they
    are.) *)
Theorem walker_labels_in_range (E : environment) (c : Dataset.dataset_class)
    (wk : walker) (subset : string) (w w' : world) (d : Dataset.dataset) :
  walker_of c subset = Some wk →
  Dataset.construct E c subset w = (Ok d, w') →
  ∃ bar images n,
    (walker_index_subset E wk subset w).1 = Ok (bar, images)
    ∧ Dataset.length d = Ok n
    ∧ Dataset.num_classes d
      = Ok (Z.of_nat (size (list_to_set (class_names_of images) : gset string)))
    ∧ (∀ index w1 w1' s l,
         Dataset.get E d index w1 = (Ok (s, l), w1') →
         ∃ z, l = IntLabel z
              ∧ 0 ≤ z < Z.of_nat (size (list_to_set (class_names_of images) : gset string)))
    ∧ (∀ index, 0 ≤ index < n →
         ∃ fp ci path z,
           dicts_of d = Some (fp, ci)
           ∧ fp !! index = Some path
           ∧ ci !! index = Some z
           ∧ 0 ≤ z < Z.of_nat (size (list_to_set (class_names_of images) : gset string))
           ∧ ∀ w1, decodes E d path (disk w1) →
                   ∃ s, (Dataset.get E d index w1).1 = Ok (s, IntLabel z)).
Proof.
  intros Hwk Hd.
  assert (valid_subset subset = true) as Hvalid.
  { destruct (valid_subset subset) eqn:Hvalid; [done|].
    rewrite construct_invalid_subset in Hd; [done..|]. by destruct c. }
  destruct (construct_walker_run E c wk subset w Hvalid Hwk)
    as (bar & images & w0 & Hrun & _ & _ & [[_ Hraise]|(_ & d0 & Hok & Hlen & Hnum & Hdicts & _)]);
    [congruence|].
  assert (d0 = d) as -> by congruence.
  set (names := class_names_of images) in *.
  set (ids := rank_of names <$> names) in *.
  assert (∀ index z,
            (list_to_map (zip (seqZ 0 (Z.of_nat (length images))) ids) : gmap Z Z)
              !! index = Some z →
            0 ≤ z < Z.of_nat (size (list_to_set names : gset string))) as Hrange.
  { intros index z. rewrite lookup_dict_of_column
      by (unfold ids, names, class_names_of; by rewrite !length_fmap).
    case_decide; [|done]. unfold ids. rewrite list_lookup_fmap.
    destruct (names !! Z.to_nat index) as [c0|] eqn:Hc0; [|done].
    intros [= <-]. rewrite <-length_unique_size. apply rank_of_bounds.
    by eapply list_elem_of_lookup_2. }
  destruct (get_label E d _ _ 0 Hdicts) as [_ _].
  exists bar, images, (Z.of_nat (length images)).
  split; [by rewrite Hrun|]. split; [done|].
  split; [by rewrite Hnum, length_unique_size|]. split.
  - intros index w1 w1' s l Hget.
    destruct (get_label E d _ _ index Hdicts) as [Hlabel _].
    destruct (Hlabel _ _ _ _ Hget) as (z & -> & Hz). eauto.
  - intros index Hindex.
    destruct (lookup_lt_is_Some_2 (filepaths_of images) (Z.to_nat index)) as [path Hpath].
    { unfold filepaths_of. rewrite length_fmap. lia. }
    destruct (lookup_lt_is_Some_2 ids (Z.to_nat index)) as [z Hz].
    { unfold ids, names, class_names_of. rewrite !length_fmap. lia. }
    eexists _, _, path, z. split; [exact Hdicts|].
    assert ((list_to_map (zip (seqZ 0 (Z.of_nat (length images))) ids) : gmap Z Z)
              !! index = Some z) as Hz'.
    { rewrite lookup_dict_of_column
        by (unfold ids, names, class_names_of; by rewrite !length_fmap).
      by rewrite decide_True by lia. }
    split; [|split; [done|split; [by eapply Hrange|]]].
    + rewrite lookup_dict_of_column by (unfold filepaths_of; by rewrite length_fmap).
      by rewrite decide_True by lia.
    + intros w1 Hdec.
      destruct (get_label E d _ _ index Hdicts) as [_ Hreturns].
      eapply Hreturns; [|done..].
      rewrite lookup_dict_of_column by (unfold filepaths_of; by rewrite length_fmap).
      by rewrite decide_True by lia.
Qed.

Lemma walker_labels_in_range_witness :
  ∃ bar images n,
    (walker_index_subset example_env WOmniglot "background" example_world).1
    = Ok (bar, images)
    ∧ Dataset.length example_omniglot = Ok n
    ∧ Dataset.num_classes example_omniglot
      = Ok (Z.of_nat (size (list_to_set (class_names_of images) : gset string)))
    ∧ (∀ index w1 w1' s l,
         Dataset.get example_env example_omniglot index w1 = (Ok (s, l), w1') →
         ∃ z, l = IntLabel z
              ∧ 0 ≤ z < Z.of_nat (size (list_to_set (class_names_of images) : gset string)))
    ∧ (∀ index, 0 ≤ index < n →
         ∃ fp ci path z,
           dicts_of example_omniglot = Some (fp, ci)
           ∧ fp !! index = Some path
           ∧ ci !! index = Some z
           ∧ 0 ≤ z < Z.of_nat (size (list_to_set (class_names_of images) : gset string))
           ∧ ∀ w1, decodes example_env example_omniglot path (disk w1) →
                   ∃ s, (Dataset.get example_env example_omniglot index w1).1
                        = Ok (s, IntLabel z)).
Proof.
  apply (walker_labels_in_range example_env Dataset.COmniglot WOmniglot "background"
           example_world
           (Dataset.construct example_env Dataset.COmniglot "background" example_world).2).
  - reflexivity.
  - vm_compute. reflexivity.
Defined.

(** The evaluation manifest of the example disk names the classes 5 and 7:
    [num_classes()] is 2 and the label of the first sample is 5. *)
Lemma ImageNetKamon_manifest_label_out_of_range :
  ∃ d s z N,
    (Dataset.construct example_env Dataset.CImageNetKamon "evaluation" example_world).1
    = Ok d
    ∧ Dataset.length d = Ok 2
    ∧ (Dataset.get example_env d 0 example_world).1 = Ok (s, IntLabel z)
    ∧ Dataset.num_classes d = Ok N
    ∧ ¬ (0 ≤ z < N).
Proof.
  eexists _, _, 5, 2. split; [vm_compute; reflexivity|].
  split; [vm_compute; reflexivity|]. split; [vm_compute; reflexivity|].
  split; [vm_compute; reflexivity|]. lia.
Qed.

(** The five samples of the example Omniglot folder: the progress bar
    counted four [.png] names, the index and the data set hold five
    records, [notes.txt] among them. *)
Example Omniglot_length_exceeds_progress_total :
  (λ '(bar, images), (total bar, length images,
                       (λ r : gmap string string, r !! "filepath") <$> images !! 1%nat))
    <$> (walker_index_subset example_env WOmniglot "background" example_world).1
  = Ok (4%nat, 5%nat,
        Some (Some "/data/Omniglot/images_background/Latin/character01/notes.txt"))
  ∧ Dataset.length example_omniglot = Ok 5.
Proof. split; vm_compute; reflexivity. Qed.

(** ** Construction reads and never writes *)

Lemma reads_only_os_walk (top : string) : reads_only (os_walk top).
Proof.
  unfold os_walk. apply reads_only_bind; [apply reads_only_touch|intros _].
  apply reads_only_bind; [apply reads_only_read_disk|intros fs].
  apply reads_only_mret.
Qed.

Lemma reads_only_pd_read_csv (path : string) : reads_only (pd_read_csv path).
Proof.
  unfold pd_read_csv. apply reads_only_bind; [apply reads_only_touch|intros _].
  apply reads_only_bind; [apply reads_only_read_disk|intros fs].
  destruct (fs_csv fs path) as [[|row rows]|];
    first [apply reads_only_raise | apply reads_only_mret].
Qed.

Ltac reads_only_steps :=
  repeat first
    [ apply reads_only_mret | apply reads_only_raise | apply reads_only_lift
    | apply reads_only_os_walk | apply reads_only_pd_read_csv
    | apply reads_only_h5py_File
    | apply reads_only_bind; [|intros ?]
    | match goal with
      | |- reads_only (if ?b then _ else _) => destruct b
      | |- reads_only (match ?x with _ => _ end) => destruct x
      end ].

Lemma reads_only_construct (E : environment) (c : Dataset.dataset_class) (subset : string) :
  reads_only (Dataset.construct E c subset).
Proof.
  destruct c; unfold Dataset.construct;
    (apply reads_only_bind; [|intros ?; apply reads_only_mret]);
    unfold OmniglotDataset.init, MiniImageNet.init, ImageNetKamonDataset.init,
      KamonDataset.init, OldKamonDataset.init, LogoDataset.init, manifest_init,
      OmniglotDataset.index_subset, MiniImageNet.index_subset,
      ImageNetKamonDataset.index_subset;
    cbv zeta; reads_only_steps.
Qed.

(** Building a data set a second time, on the disk the first construction
    left, gives the same data set or the same error. *)
Lemma construct_is_repeatable (E : environment) (c : Dataset.dataset_class)
    (subset : string) (w : world) :
  (Dataset.construct E c subset (Dataset.construct E c subset w).2).1
  = (Dataset.construct E c subset w).1.
Proof.
  destruct (reads_only_construct E c subset w) as (Hdisk & _ & Hres). by apply Hres.
Qed.

Lemma class_name_column (images : list (gmap string string)) :
  images ≠ [] →
  Forall (λ r : gmap string string,
            is_Some (r !! "class_name") ∧ is_Some (r !! "filepath")) images →
  df_str (pd_DataFrame images) "class_name" = Ok (class_names_of images).
Proof.
  intros Hne Hkeys. destruct images as [|r0 images]; [done|].
  apply Forall_cons_1 in Hkeys as [[Hcn _] _].
  apply df_str_pd_DataFrame. split; [|done]. exists r0. split; [left|done].
Qed.

(** C3.  For a data set of a class that encodes labels (the directory-walk
    classes), let [names] be the class names of the records its index
    builder produced.  The list [unique_characters] of the data set holds
    the distinct names in strictly ascending order; its dict
    [class_name_to_id] sends a name to its position in that list, which is
    its rank among the distinct names; the dict is a bijection from the
    distinct names onto [0, N), N being their number.  The encoding depends
    on the set of names only, and constructing the data set again from the
    unchanged disk gives the same data set, so the same dict. *)
Theorem label_encoder_bijection (E : environment) (c : Dataset.dataset_class)
    (wk : walker) (subset : string) (w w' : world) (d : Dataset.dataset) :
  walker_of c subset = Some wk →
  Dataset.construct E c subset w = (Ok d, w') →
  ∃ bar images unique_characters class_name_to_id,
    (walker_index_subset E wk subset w).1 = Ok (bar, images)
    ∧ encoder_of d = Some (unique_characters, class_name_to_id)
    ∧ (∀ c, c ∈ unique_characters ↔ c ∈ class_names_of images)
    ∧ (∀ i j a b, (i < j)%nat → unique_characters !! i = Some a →
                  unique_characters !! j = Some b → string_lt a b)
    ∧ (∀ c i, class_name_to_id !! c = Some i ↔
              0 ≤ i ∧ unique_characters !! Z.to_nat i = Some c)
    ∧ (∀ c i, class_name_to_id !! c = Some i → i = rank_of (class_names_of images) c)
    ∧ (∀ c, c ∈ class_names_of images →
            ∃ i, class_name_to_id !! c = Some i
                 ∧ 0 ≤ i < Z.of_nat (size (list_to_set (class_names_of images)
                                            : gset string)))
    ∧ (∀ c c' i, class_name_to_id !! c = Some i → class_name_to_id !! c' = Some i → c = c')
    ∧ (∀ i, 0 ≤ i < Z.of_nat (size (list_to_set (class_names_of images) : gset string)) →
            ∃ c, c ∈ class_names_of images ∧ class_name_to_id !! c = Some i)
    ∧ (∀ images' names',
         df_str (pd_DataFrame images') "class_name" = Ok names' →
         (∀ c, c ∈ class_names_of images ↔ c ∈ names') →
         ∃ df', encode_labels images' = Ok (df', unique_characters, class_name_to_id))
    ∧ (Dataset.construct E c subset w').1 = Ok d.
Proof.
  intros Hwk Hd.
  assert (valid_subset subset = true) as Hvalid.
  { destruct (valid_subset subset) eqn:Hvalid; [done|].
    rewrite construct_invalid_subset in Hd; [done..|]. by destruct c. }
  destruct (construct_walker_run E c wk subset w Hvalid Hwk)
    as (bar & images & w0 & Hrun & _ & _
        & [[_ Hraise]|(Hne & d0 & Hok & _ & _ & _ & df & table & Henc & Hencoder)]);
    [congruence|].
  assert (d0 = d) as -> by congruence.
  destruct (walker_index_subset_run E wk subset w) as (images0 & Hrun0 & Hrecs).
  assert (images0 = images) as -> by congruence.
  pose proof (class_name_column images Hne (walker_records_keys _ _ _ _ Hrecs)) as Hnames.
  destruct (encode_labels_bijection images _ Hnames)
    as (df1 & uc & table1 & Henc1 & Helem & Hasc & Hpos & Hrank & Hinto & Hinj & Hsurj & Hset).
  assert (uc = sorted (unique (class_names_of images)) ∧ table1 = table) as [-> ->]
    by (split; congruence).
  exists bar, images, (sorted (unique (class_names_of images))), table.
  split; [by rewrite Hrun|]. do 9 (split; [done|]).
  pose proof (construct_is_repeatable E c subset w) as Hagain.
  by rewrite Hd in Hagain.
Qed.

Lemma label_encoder_bijection_witness :
  ∃ bar images unique_characters class_name_to_id,
    (walker_index_subset example_env WOmniglot "background" example_world).1
    = Ok (bar, images)
    ∧ encoder_of example_omniglot = Some (unique_characters, class_name_to_id)
    ∧ (∀ c, c ∈ unique_characters ↔ c ∈ class_names_of images)
    ∧ (∀ i j a b, (i < j)%nat → unique_characters !! i = Some a →
                  unique_characters !! j = Some b → string_lt a b)
    ∧ (∀ c i, class_name_to_id !! c = Some i ↔
              0 ≤ i ∧ unique_characters !! Z.to_nat i = Some c)
    ∧ (∀ c i, class_name_to_id !! c = Some i → i = rank_of (class_names_of images) c)
    ∧ (∀ c, c ∈ class_names_of images →
            ∃ i, class_name_to_id !! c = Some i
                 ∧ 0 ≤ i < Z.of_nat (size (list_to_set (class_names_of images)
                                            : gset string)))
    ∧ (∀ c c' i, class_name_to_id !! c = Some i → class_name_to_id !! c' = Some i → c = c')
    ∧ (∀ i, 0 ≤ i < Z.of_nat (size (list_to_set (class_names_of images) : gset string)) →
            ∃ c, c ∈ class_names_of images ∧ class_name_to_id !! c = Some i)
    ∧ (∀ images' names',
         df_str (pd_DataFrame images') "class_name" = Ok names' →
         (∀ c, c ∈ class_names_of images ↔ c ∈ names') →
         ∃ df', encode_labels images' = Ok (df', unique_characters, class_name_to_id))
    ∧ (Dataset.construct example_env Dataset.COmniglot "background"
         (Dataset.construct example_env Dataset.COmniglot "background" example_world).2).1
      = Ok example_omniglot.
Proof.
  apply (label_encoder_bijection example_env Dataset.COmniglot WOmniglot "background"
           example_world).
  - reflexivity.
  - vm_compute. reflexivity.
Defined.

(** The encoder of the example Omniglot data set. *)
Example Omniglot_example_encoder :
  (λ '(unique_characters, class_name_to_id),
     (unique_characters, map_to_list class_name_to_id)) <$> encoder_of example_omniglot
  = Some (["Greek.character01"; "Latin.character01"; "Latin.character02"],
          [("Greek.character01", 0); ("Latin.character01", 1); ("Latin.character02", 2)]).
Proof. vm_compute. reflexivity. Qed.

(** * Further properties *)

(** ** Directory-walk data sets: what gets indexed *)

Lemma walker_filepaths (c : walker) (subset : string)
    (files : list (string * string)) (images : list (gmap string string)) :
  Forall2 (λ (file : string * string) (r : gmap string string),
             ∃ common, walker_describe c subset file.1 = Ok common
                       ∧ r = <["filepath" := os_path_join file.1 file.2]> common)
          files images →
  filepaths_of images = (λ file, os_path_join file.1 file.2) <$> files.
Proof.
  induction 1 as [|file r files images (common & _ & ->) _ IH]; [done|].
  unfold filepaths_of in *. rewrite !fmap_cons, IH. by rewrite lookup_insert_eq.
Qed.

(** Everything [construct] does for a directory-walk class and an allowed
    subset, in one statement: the world it leaves, and the data set or the
    error. *)
Lemma construct_walker_full (E : environment) (c : Dataset.dataset_class)
    (wk : walker) (subset : string) (w : world) :
  valid_subset subset = true →
  walker_of c subset = Some wk →
  ∃ images,
    Forall2 (λ (file : string * string) (r : gmap string string),
               ∃ common, walker_describe wk subset file.1 = Ok common
                         ∧ r = <["filepath" := os_path_join file.1 file.2]> common)
            (walked_files (walk (disk w) (walker_top E wk subset))) images
    ∧ (Dataset.construct E c subset w).2
      = log (log w (EvWalk (walker_top E wk subset))) (EvWalk (walker_top E wk subset))
    ∧ ((images = [] ∧ (Dataset.construct E c subset w).1 = Raise KeyError)
       ∨ (images ≠ []
          ∧ ∃ d, (Dataset.construct E c subset w).1 = Ok d
                 ∧ Dataset.length d = Ok (Z.of_nat (length images))
                 ∧ dicts_of d
                   = Some (list_to_map (zip (seqZ 0 (Z.of_nat (length images)))
                                            (filepaths_of images)),
                           list_to_map (zip (seqZ 0 (Z.of_nat (length images)))
                                            (rank_of (class_names_of images)
                                               <$> class_names_of images))))).
Proof.
  intros Hvalid Hwk.
  destruct (walker_index_subset_run E wk subset w) as (images & Hrun & Hrecs).
  destruct (construct_walker_run E c wk subset w Hvalid Hwk)
    as (bar & images0 & w0 & Hrun0 & _ & _ & Hcases).
  assert (images0 = images
          ∧ w0 = log (log w (EvWalk (walker_top E wk subset)))
                     (EvWalk (walker_top E wk subset))) as [-> ->]
    by (split; congruence).
  exists images. split; [done|].
  destruct Hcases as [[-> Hraise]|(Hne & d & Hok & Hlen & _ & Hdicts & _)].
  - rewrite Hraise. split; [done|]. by left.
  - rewrite Hok. split; [done|]. right. split; [done|]. by exists d.
Qed.

(** X1.  A directory-walk class with an allowed subset: construction walks
    the folder of the subset twice and touches nothing else; it succeeds
    exactly when the walk meets at least one file, and the length of the
    data set is then the number of files met; with no file at all (an empty
    tree as well as a missing one) it fails with KeyError. *)
Theorem walker_construct_iff_files (E : environment) (c : Dataset.dataset_class)
    (wk : walker) (subset : string) (w : world) :
  valid_subset subset = true →
  walker_of c subset = Some wk →
  (Dataset.construct E c subset w).2
  = log (log w (EvWalk (walker_top E wk subset))) (EvWalk (walker_top E wk subset))
  ∧ (walked_files (walk (disk w) (walker_top E wk subset)) = [] →
     (Dataset.construct E c subset w).1 = Raise KeyError)
  ∧ (walked_files (walk (disk w) (walker_top E wk subset)) ≠ [] →
     ∃ d, (Dataset.construct E c subset w).1 = Ok d
          ∧ Dataset.length d
            = Ok (Z.of_nat (length (walked_files (walk (disk w) (walker_top E wk subset)))))).
Proof.
  intros Hvalid Hwk.
  destruct (construct_walker_full E c wk subset w Hvalid Hwk)
    as (images & Hrecs & Hworld & Hcases).
  pose proof (Forall2_length _ _ _ Hrecs) as Hlen.
  split; [done|]. split.
  - intros Hfiles. rewrite Hfiles in Hlen.
    destruct Hcases as [[_ Hraise]|[Hne _]]; [done|]. by destruct images.
  - intros Hfiles.
    destruct Hcases as [[-> _]|(_ & d & Hok & Hd & _)].
    + by destruct (walked_files _).
    + exists d. split; [done|]. by rewrite Hlen.
Qed.

Lemma walker_construct_iff_files_witness :
  (Dataset.construct example_env Dataset.COmniglot "background" example_world).2
  = log (log example_world (EvWalk (walker_top example_env WOmniglot "background")))
        (EvWalk (walker_top example_env WOmniglot "background"))
  ∧ (walked_files (walk (disk example_world) (walker_top example_env WOmniglot "background"))
     = [] →
     (Dataset.construct example_env Dataset.COmniglot "background" example_world).1
     = Raise KeyError)
  ∧ (walked_files (walk (disk example_world) (walker_top example_env WOmniglot "background"))
     ≠ [] →
     ∃ d, (Dataset.construct example_env Dataset.COmniglot "background" example_world).1
          = Ok d
          ∧ Dataset.length d
            = Ok (Z.of_nat (length (walked_files
                                      (walk (disk example_world)
                                         (walker_top example_env WOmniglot "background")))))).
Proof.
  apply (walker_construct_iff_files example_env Dataset.COmniglot WOmniglot "background"
           example_world); reflexivity.
Defined.

(** X2.  The ids of a directory-walk data set follow the walk: the sample
    with id [i] is the [i]-th file the walk meets, whatever its extension,
    and its path is [os.path.join(root, name)]; no other id is a key. *)
Theorem walker_ids_follow_walk (E : environment) (c : Dataset.dataset_class)
    (wk : walker) (subset : string) (w w' : world) (d : Dataset.dataset) :
  walker_of c subset = Some wk →
  Dataset.construct E c subset w = (Ok d, w') →
  ∃ fp ci,
    dicts_of d = Some (fp, ci)
    ∧ (∀ (i : nat) root name,
         walked_files (walk (disk w) (walker_top E wk subset)) !! i = Some (root, name) →
         fp !! Z.of_nat i = Some (os_path_join root name))
    ∧ (∀ index path,
         fp !! index = Some path →
         ∃ (i : nat) root name,
           index = Z.of_nat i
           ∧ walked_files (walk (disk w) (walker_top E wk subset)) !! i = Some (root, name)
           ∧ path = os_path_join root name).
Proof.
  intros Hwk Hd.
  assert (valid_subset subset = true) as Hvalid.
  { destruct (valid_subset subset) eqn:Hvalid; [done|].
    rewrite construct_invalid_subset in Hd; [done..|]. by destruct c. }
  destruct (construct_walker_full E c wk subset w Hvalid Hwk)
    as (images & Hrecs & _ & Hcases).
  rewrite Hd in Hcases. simpl in Hcases.
  destruct Hcases as [[_ ?]|(Hne & d0 & [= <-] & _ & Hdicts)]; [done|].
  pose proof (Forall2_length _ _ _ Hrecs) as Hlen.
  rewrite (walker_filepaths _ _ _ _ Hrecs) in Hdicts.
  set (files := walked_files (walk (disk w) (walker_top E wk subset))) in *.
  eexists _, _. split; [exact Hdicts|]. split.
  - intros i root name Hi. apply lookup_lt_Some in Hi as Hlt.
    rewrite lookup_dict_of_column by (by rewrite length_fmap).
    rewrite decide_True by lia. rewrite Nat2Z.id, list_lookup_fmap, Hi. done.
  - intros index path. rewrite lookup_dict_of_column by (by rewrite length_fmap).
    case_decide as Hindex; [|done]. rewrite list_lookup_fmap.
    destruct (files !! Z.to_nat index) as [[root name]|] eqn:Hfile; [|done].
    intros [= <-]. exists (Z.to_nat index), root, name.
    split; [lia|]. split; done.
Qed.

Lemma walker_ids_follow_walk_witness :
  ∃ fp ci,
    dicts_of example_omniglot = Some (fp, ci)
    ∧ (∀ (i : nat) root name,
         walked_files (walk (disk example_world)
                         (walker_top example_env WOmniglot "background")) !! i
         = Some (root, name) →
         fp !! Z.of_nat i = Some (os_path_join root name))
    ∧ (∀ index path,
         fp !! index = Some path →
         ∃ (i : nat) root name,
           index = Z.of_nat i
           ∧ walked_files (walk (disk example_world)
                             (walker_top example_env WOmniglot "background")) !! i
             = Some (root, name)
           ∧ path = os_path_join root name).
Proof.
  apply (walker_ids_follow_walk example_env Dataset.COmniglot WOmniglot "background"
           example_world
           (Dataset.construct example_env Dataset.COmniglot "background" example_world).2).
  - reflexivity.
  - vm_compute. reflexivity.
Defined.

(** ** Directory-walk data sets: labels and class names *)

Lemma rank_of_lt (names : list string) (a b : string) :
  a ∈ names → b ∈ names →
  rank_of names a < rank_of names b ↔ string_lt a b.
Proof.
  intros Ha Hb.
  assert (a ∈ sorted (unique names)) as [i Hi]%list_elem_of_lookup
    by by rewrite sorted_Permutation, elem_of_unique.
  assert (b ∈ sorted (unique names)) as [j Hj]%list_elem_of_lookup
    by by rewrite sorted_Permutation, elem_of_unique.
  rewrite (rank_of_sorted _ _ _ Hi), (rank_of_sorted _ _ _ Hj). split.
  - intros Hlt. eapply sorted_unique_ascending; [|done..]. lia.
  - intros [Hle Hne]. destruct (Nat.lt_total i j) as [Hlt|[->|Hlt]]; [lia| |].
    + congruence.
    + destruct (sorted_unique_ascending names j i b a Hlt Hj Hi) as [Hle' _].
      exfalso. apply Hne. by apply (anti_symm String.le).
Qed.

Lemma walker_class_names (c : walker) (subset : string)
    (files : list (string * string)) (images : list (gmap string string))
    (i : nat) (root name a : string) :
  Forall2 (λ (file : string * string) (r : gmap string string),
             ∃ common, walker_describe c subset file.1 = Ok common
                       ∧ r = <["filepath" := os_path_join file.1 file.2]> common)
          files images →
  files !! i = Some (root, name) →
  folder_class c subset root = Ok a →
  class_names_of images !! i = Some a.
Proof.
  intros Hrecs Hfile Hclass.
  destruct (Forall2_lookup_l _ _ _ _ _ Hrecs Hfile) as (r & Hr & common & Hcommon & ->).
  unfold class_names_of. rewrite list_lookup_fmap, Hr. simpl.
  rewrite lookup_insert_ne by done.
  unfold folder_class in Hclass. simpl in Hcommon. rewrite Hcommon in Hclass.
  simpl in Hclass. unfold py_dict_get in Hclass.
  destruct (common !! "class_name"); [|done]. by injection Hclass as ->.
Qed.

(** X3.  In a directory-walk data set two samples have the same label
    exactly when their folders have the same class name, and the labels are
    in the order of the class names: a smaller label means a class name
    that sorts strictly before. *)
Theorem walker_labels_respect_class_names (E : environment) (c : Dataset.dataset_class)
    (wk : walker) (subset : string) (w w' : world) (d : Dataset.dataset) :
  walker_of c subset = Some wk →
  Dataset.construct E c subset w = (Ok d, w') →
  ∃ fp ci,
    dicts_of d = Some (fp, ci)
    ∧ ∀ (i j : nat) root_i name_i root_j name_j a b,
        walked_files (walk (disk w) (walker_top E wk subset)) !! i = Some (root_i, name_i) →
        walked_files (walk (disk w) (walker_top E wk subset)) !! j = Some (root_j, name_j) →
        folder_class wk subset root_i = Ok a →
        folder_class wk subset root_j = Ok b →
        ∃ label_i label_j,
          ci !! Z.of_nat i = Some label_i
          ∧ ci !! Z.of_nat j = Some label_j
          ∧ (label_i = label_j ↔ a = b)
          ∧ (label_i < label_j ↔ string_lt a b).
Proof.
  intros Hwk Hd.
  assert (valid_subset subset = true) as Hvalid.
  { destruct (valid_subset subset) eqn:Hvalid; [done|].
    rewrite construct_invalid_subset in Hd; [done..|]. by destruct c. }
  destruct (construct_walker_full E c wk subset w Hvalid Hwk)
    as (images & Hrecs & _ & Hcases).
  rewrite Hd in Hcases. simpl in Hcases.
  destruct Hcases as [[_ ?]|(Hne & d0 & [= <-] & _ & Hdicts)]; [done|].
  set (names := class_names_of images) in *.
  eexists _, _. split; [exact Hdicts|].
  intros i j root_i name_i root_j name_j a b Hi Hj Ha Hb.
  pose proof (walker_class_names _ _ _ _ _ _ _ _ Hrecs Hi Ha) as Hai.
  pose proof (walker_class_names _ _ _ _ _ _ _ _ Hrecs Hj Hb) as Hbj.
  fold names in Hai, Hbj.
  assert (length (rank_of names <$> names) = length images) as Hlen
    by (unfold names, class_names_of; by rewrite !length_fmap).
  apply lookup_lt_Some in Hai as Hilt. apply lookup_lt_Some in Hbj as Hjlt.
  rewrite length_fmap in Hlen. rewrite Hlen in Hilt, Hjlt.
  exists (rank_of names a), (rank_of names b).
  assert (a ∈ names) by by eapply list_elem_of_lookup_2.
  assert (b ∈ names) by by eapply list_elem_of_lookup_2.
  split; [|split; [|split]].
  - rewrite lookup_dict_of_column by (by rewrite length_fmap).
    rewrite decide_True by lia. by rewrite Nat2Z.id, list_lookup_fmap, Hai.
  - rewrite lookup_dict_of_column by (by rewrite length_fmap).
    rewrite decide_True by lia. by rewrite Nat2Z.id, list_lookup_fmap, Hbj.
  - split; [by apply rank_of_inj|by intros ->].
  - by apply rank_of_lt.
Qed.

Lemma walker_labels_respect_class_names_witness :
  ∃ fp ci,
    dicts_of example_omniglot = Some (fp, ci)
    ∧ ∀ (i j : nat) root_i name_i root_j name_j a b,
        walked_files (walk (disk example_world)
                        (walker_top example_env WOmniglot "background")) !! i
        = Some (root_i, name_i) →
        walked_files (walk (disk example_world)
                        (walker_top example_env WOmniglot "background")) !! j
        = Some (root_j, name_j) →
        folder_class WOmniglot "background" root_i = Ok a →
        folder_class WOmniglot "background" root_j = Ok b →
        ∃ label_i label_j,
          ci !! Z.of_nat i = Some label_i
          ∧ ci !! Z.of_nat j = Some label_j
          ∧ (label_i = label_j ↔ a = b)
          ∧ (label_i < label_j ↔ string_lt a b).
Proof.
  apply (walker_labels_respect_class_names example_env Dataset.COmniglot WOmniglot
           "background" example_world
           (Dataset.construct example_env Dataset.COmniglot "background" example_world).2).
  - reflexivity.
  - vm_compute. reflexivity.
Defined.

(** ** Class names and folder names *)

Lemma split_app_sep (sep : ascii) (a b : string) :
  split sep (a +:+ String sep b) = split sep a ++ split sep b.
Proof.
  induction a as [|c a IH].
  - change ("" +:+ String sep b) with (String sep b). simpl.
    by rewrite decide_True by done.
  - change (String c a +:+ String sep b) with (String c (a +:+ String sep b)).
    simpl. rewrite IH. case_decide; [done|].
    pose proof (split_nonempty sep a). by destruct (split sep a).
Qed.

Lemma is_segment_cons (c : ascii) (s : string) :
  c ≠ "/"%char → is_segment s → is_segment (String c s).
Proof.
  unfold is_segment. intros Hc Hs. simpl. rewrite decide_False by done. by rewrite Hs.
Qed.

Lemma py_list_get_snoc_last {A} (l : list A) (x : A) :
  py_list_get (l ++ [x]) (-1) = Ok x.
Proof.
  unfold py_list_get. destruct (decide (-1 < 0)); [|lia].
  rewrite length_app. simpl. rewrite decide_True by lia.
  replace (Z.to_nat (-1 + Z.of_nat (length l + 1))) with (length l + 0)%nat by lia.
  by rewrite lookup_app_r, Nat.add_0_r, Nat.sub_diag by lia.
Qed.

Lemma py_list_get_snoc_last_but_one {A} (l : list A) (x y : A) :
  py_list_get (l ++ [x; y]) (-2) = Ok x.
Proof.
  unfold py_list_get. destruct (decide (-2 < 0)); [|lia].
  rewrite length_app. simpl. rewrite decide_True by lia.
  replace (Z.to_nat (-2 + Z.of_nat (length l + 2))) with (length l + 0)%nat by lia.
  by rewrite lookup_app_r, Nat.add_0_r, Nat.sub_diag by lia.
Qed.

(** X4.  The class name is read off the folder path.  For Omniglot it is
    the last two components joined by a dot, [alphabet.character]; for
    MiniImageNet and ImageNetKamon it is the last component alone, so two
    folders of the same name under different parents are one class. *)
Theorem folder_class_of_path (subset parent alphabet character : string) :
  is_segment alphabet →
  is_segment character →
  folder_class WOmniglot subset (parent +:+ "/" +:+ alphabet +:+ "/" +:+ character)
  = Ok (alphabet +:+ "." +:+ character)
  ∧ folder_class WMiniImageNet subset (parent +:+ "/" +:+ alphabet +:+ "/" +:+ character)
    = Ok character
  ∧ folder_class WImageNetKamon subset (parent +:+ "/" +:+ alphabet +:+ "/" +:+ character)
    = Ok character.
Proof.
  unfold is_segment. intros Halphabet Hcharacter.
  assert (split "/" (parent +:+ "/" +:+ alphabet +:+ "/" +:+ character)
          = split "/" parent ++ [alphabet; character]) as Hsplit.
  { change (parent +:+ "/" +:+ alphabet +:+ "/" +:+ character)
      with (parent +:+ String "/" (alphabet +:+ String "/" character)).
    by rewrite !split_app_sep, Halphabet, Hcharacter. }
  assert (py_list_get (split "/" parent ++ [alphabet; character]) (-1) = Ok character)
    as Hlast.
  { rewrite (assoc_L (++) _ [alphabet] [character]). apply py_list_get_snoc_last. }
  unfold folder_class, walker_describe, OmniglotDataset.describe, MiniImageNet.describe,
    ImageNetKamonDataset.describe.
  rewrite Hsplit, Hlast, py_list_get_snoc_last_but_one. simpl.
  unfold py_dict_get. by simplify_map_eq.
Qed.

Lemma folder_class_of_path_witness :
  folder_class WOmniglot "background"
    ("/data/Omniglot/images_background" +:+ "/" +:+ "Latin" +:+ "/" +:+ "character01")
  = Ok ("Latin" +:+ "." +:+ "character01")
  ∧ folder_class WMiniImageNet "background"
      ("/data/Omniglot/images_background" +:+ "/" +:+ "Latin" +:+ "/" +:+ "character01")
    = Ok "character01"
  ∧ folder_class WImageNetKamon "background"
      ("/data/Omniglot/images_background" +:+ "/" +:+ "Latin" +:+ "/" +:+ "character01")
    = Ok "character01".
Proof.
  apply (folder_class_of_path "background" "/data/Omniglot/images_background"
           "Latin" "character01"); reflexivity.
Defined.

(** X5.  A file that lies directly in the folder of the subset, not in a
    class folder, is indexed too.  The root of the walk ends in a
    separator, so the last component of its path is empty: the class name
    of such a file is ["images_<subset>."] for Omniglot and the empty
    string for MiniImageNet and ImageNetKamon. *)
Theorem folder_class_of_top (E : environment) (subset : string) :
  is_segment subset →
  folder_class WOmniglot subset (walker_top E WOmniglot subset)
  = Ok ("images_" +:+ subset +:+ ".")
  ∧ folder_class WMiniImageNet subset (walker_top E WMiniImageNet subset) = Ok ""
  ∧ folder_class WImageNetKamon subset (walker_top E WImageNetKamon subset) = Ok "".
Proof.
  intros Hsubset.
  assert (is_segment ("images_" +:+ subset)) as Himages.
  { change ("images_" +:+ subset)
      with (String "i" (String "m" (String "a" (String "g" (String "e" (String "s"
             (String "_" subset))))))).
    repeat (apply is_segment_cons; [done|]). done. }
  unfold is_segment in Himages.
  assert (∀ folder : string,
            split "/" (DATA_PATH E +:+ String "/" (folder +:+
                         String "/" (("images_" +:+ subset) +:+ String "/" "")))
            = (split "/" (DATA_PATH E) ++ split "/" folder)
                ++ ["images_" +:+ subset; ""]) as Hsplit.
  { intros folder. rewrite !split_app_sep, Himages. simpl.
    by rewrite <-!(assoc_L (++)). }
  split; [|split].
  - unfold folder_class, walker_describe, OmniglotDataset.describe, walker_top.
    change (DATA_PATH E +:+ "/Omniglot/images_" +:+ subset +:+ "/")
      with (DATA_PATH E +:+ String "/" ("Omniglot" +:+
              String "/" (("images_" +:+ subset) +:+ String "/" ""))).
    rewrite Hsplit, py_list_get_snoc_last_but_one.
    rewrite (assoc_L (++) _ ["images_" +:+ subset] [""]), py_list_get_snoc_last.
    simpl. unfold py_dict_get. by simplify_map_eq.
  - unfold folder_class, walker_describe, MiniImageNet.describe, walker_top.
    change (DATA_PATH E +:+ "/miniImageNet/images_" +:+ subset +:+ "/")
      with (DATA_PATH E +:+ String "/" ("miniImageNet" +:+
              String "/" (("images_" +:+ subset) +:+ String "/" ""))).
    rewrite Hsplit.
    rewrite (assoc_L (++) _ ["images_" +:+ subset] [""]), py_list_get_snoc_last.
    simpl. unfold py_dict_get. by simplify_map_eq.
  - unfold folder_class, walker_describe, ImageNetKamonDataset.describe, walker_top.
    change (DATA_PATH E +:+ "/miniImageNet/images_" +:+ subset +:+ "/")
      with (DATA_PATH E +:+ String "/" ("miniImageNet" +:+
              String "/" (("images_" +:+ subset) +:+ String "/" ""))).
    rewrite Hsplit.
    rewrite (assoc_L (++) _ ["images_" +:+ subset] [""]), py_list_get_snoc_last.
    simpl. unfold py_dict_get. by simplify_map_eq.
Qed.

Lemma folder_class_of_top_witness :
  folder_class WOmniglot "background" (walker_top example_env WOmniglot "background")
  = Ok ("images_" +:+ "background" +:+ ".")
  ∧ folder_class WMiniImageNet "background"
      (walker_top example_env WMiniImageNet "background") = Ok ""
  ∧ folder_class WImageNetKamon "background"
      (walker_top example_env WImageNetKamon "background") = Ok "".
Proof. apply (folder_class_of_top example_env "background"). reflexivity. Defined.

(** ** Manifest data sets: from the table to the samples *)

(** [get] on a data set that opens an image file and runs transforms that
    are functions on it. *)
Lemma get_pil_full (E : environment) (d : Dataset.dataset) (fp : gmap Z string)
    (ci : gmap Z Z) (ops : list transform_op) (item : Z) (w : world)
    (path : string) (z : Z) :
  dicts_of d = Some (fp, ci) → transform_of d = Some (Fixed <$> ops) →
  fp !! item = Some path → ci !! item = Some z →
  Dataset.get E d item w
  = (match fs_image (disk w) path with
     | Missing => Raise FileNotFoundError
     | Corrupt => Raise OSError
     | Pixels a => (λ p, (Picture p, IntLabel z)) <$> Compose E ops (PIL a)
     end, log w (EvOpenImage path)).
Proof.
  intros Hdicts Htr Hpath Hz.
  destruct d; try done; injection Hdicts as <- <-;
    pose proof (pil_getitem_full E _ _ ops item w path z Hpath Hz) as Hget;
    injection Htr as Htr;
    unfold Dataset.get, Dataset.with_int_label, MiniImageNet.getitem,
      ImageNetKamonDataset.getitem, KamonDataset.getitem, OldKamonDataset.getitem,
      mbind, io_bind;
    rewrite Htr, Hget;
    destruct (fs_image (disk w) path) as [| |a]; try done;
    by destruct (Compose E _ (PIL a)).
Qed.

(** X6.  A data set read from a manifest (KamonDataset, OldKamonDataset,
    and ImageNetKamonDataset on [evaluation]) gives the table back.  When
    the table has rows, the constructor reads the file once and nothing
    else, the length is the number of rows, and [get(i)] opens the file
    named in row [i], as it is written there, and returns its class id as
    it is written there: the outcome is FileNotFoundError when the file is
    missing, OSError when it cannot be decoded, and otherwise the composed
    transform [Resize((86, 86)), Grayscale(3), ToTensor()] of the image
    with the class id of the row. *)
Theorem manifest_round_trip (E : environment) (c : Dataset.dataset_class)
    (subset path : string) (w : world) (rows : list (string * Z)) :
  manifest_path c subset = Some path →
  fs_csv (disk w) path = Some rows → rows ≠ [] →
  ∃ d, Dataset.construct E c subset w = (Ok d, log w (EvReadCsv path))
       ∧ Dataset.length d = Ok (Z.of_nat (length rows))
       ∧ ∀ (i : nat) (location : string) (class_id : Z) (w1 : world),
           rows !! i = Some (location, class_id) →
           Dataset.get E d (Z.of_nat i) w1
           = (match fs_image (disk w1) location with
              | Missing => Raise FileNotFoundError
              | Corrupt => Raise OSError
              | Pixels a =>
                  (λ p, (Picture p, IntLabel class_id))
                    <$> Compose E [ResizeTo 86 86; Grayscale 3; ToTensor] (PIL a)
              end, log w1 (EvOpenImage location)).
Proof.
  intros Hpath Hrows _.
  pose proof (construct_manifest_run E c subset path w Hpath) as Hrun.
  rewrite Hrows in Hrun. destruct Hrun as (d & Hd & Hlen & Hdicts & Htr & _).
  exists d. split; [done|]. split; [done|].
  intros i location class_id w1 Hi.
  apply lookup_lt_Some in Hi as Hlt.
  apply (get_pil_full E d _ _ _ _ w1 location class_id Hdicts Htr).
  - rewrite lookup_dict_of_column by by rewrite length_fmap.
    rewrite decide_True, Nat2Z.id by lia. by rewrite list_lookup_fmap, Hi.
  - rewrite lookup_dict_of_column by by rewrite length_fmap.
    rewrite decide_True, Nat2Z.id by lia. by rewrite list_lookup_fmap, Hi.
Qed.

Lemma manifest_round_trip_witness :
  ∃ d, Dataset.construct example_env Dataset.CKamon "evaluation" example_world
       = (Ok d, log example_world (EvReadCsv ImageNetKamonDataset.csv_filepath))
       ∧ Dataset.length d
         = Ok (Z.of_nat (length [("/img/x.png", 5); ("/img/y.png", 7)]))
       ∧ ∀ (i : nat) (location : string) (class_id : Z) (w1 : world),
           [("/img/x.png", 5); ("/img/y.png", 7)] !! i = Some (location, class_id) →
           Dataset.get example_env d (Z.of_nat i) w1
           = (match fs_image (disk w1) location with
              | Missing => Raise FileNotFoundError
              | Corrupt => Raise OSError
              | Pixels a =>
                  (λ p, (Picture p, IntLabel class_id))
                    <$> Compose example_env [ResizeTo 86 86; Grayscale 3; ToTensor] (PIL a)
              end, log w1 (EvOpenImage location)).
Proof.
  apply (manifest_round_trip example_env Dataset.CKamon "evaluation"
           ImageNetKamonDataset.csv_filepath example_world
           [("/img/x.png", 5); ("/img/y.png", 7)]).
  - reflexivity.
  - reflexivity.
  - discriminate.
Defined.

(** X7.  A constructor that reads a manifest returns for every table it
    finds, also for one with no row, and the length of the data set is the
    number of rows.  Of these classes only ImageNetKamonDataset has
    [num_classes()]: it answers with the number of distinct class ids in
    the table, whatever these ids are (0 for a table with no row).
    KamonDataset and OldKamonDataset do not define the method, so the call
    is an AttributeError. *)
Theorem manifest_num_classes (E : environment) (c : Dataset.dataset_class)
    (subset path : string) (w : world) (rows : list (string * Z)) :
  manifest_path c subset = Some path →
  fs_csv (disk w) path = Some rows →
  ∃ d, Dataset.construct E c subset w = (Ok d, log w (EvReadCsv path))
       ∧ Dataset.length d = Ok (Z.of_nat (length rows))
       ∧ Dataset.num_classes d
         = if decide (c = Dataset.CImageNetKamon)
           then Ok (Z.of_nat (size (list_to_set rows.*2 : gset Z)))
           else Raise AttributeError.
Proof.
  intros Hpath Hrows.
  pose proof (construct_manifest_run E c subset path w Hpath) as Hrun.
  rewrite Hrows in Hrun. destruct Hrun as (d & Hd & Hlen & _ & _ & Hnum).
  by exists d.
Qed.

Lemma manifest_num_classes_witness :
  ∃ d, Dataset.construct example_env Dataset.CImageNetKamon "evaluation" example_world
       = (Ok d, log example_world (EvReadCsv ImageNetKamonDataset.csv_filepath))
       ∧ Dataset.length d
         = Ok (Z.of_nat (length [("/img/x.png", 5); ("/img/y.png", 7)]))
       ∧ Dataset.num_classes d
         = if decide (Dataset.CImageNetKamon = Dataset.CImageNetKamon)
           then Ok (Z.of_nat (size (list_to_set [("/img/x.png", 5); ("/img/y.png", 7)].*2
                                      : gset Z)))
           else Raise AttributeError.
Proof.
  apply (manifest_num_classes example_env Dataset.CImageNetKamon "evaluation"
           ImageNetKamonDataset.csv_filepath example_world
           [("/img/x.png", 5); ("/img/y.png", 7)]).
  - reflexivity.
  - reflexivity.
Defined.

(** A manifest with no row: the three classes build a data set of length
    0, and ImageNetKamonDataset counts no class. *)
Example empty_manifest_builds_empty_dataset :
  (d ← (Dataset.construct example_env Dataset.CKamon "background" example_empty_world).1;
   Dataset.length d) = Ok 0
  ∧ (d ← (Dataset.construct example_env Dataset.COldKamon "evaluation"
            example_empty_world).1;
     Dataset.length d) = Ok 0
  ∧ (d ← (Dataset.construct example_env Dataset.CImageNetKamon "evaluation"
            example_empty_world).1;
     n ← Dataset.length d; k ← Dataset.num_classes d; Ok (n, k)) = Ok (0, 0)
  ∧ (d ← (Dataset.construct example_env Dataset.CKamon "background" example_empty_world).1;
     (Dataset.get example_env d 0 example_empty_world).1) = Raise KeyError.
Proof. repeat split; vm_compute; reflexivity. Qed.

(** ** LogoDataset: the slice of the container *)

(** X8.  [LogoDataset(subset)] on a disk that holds the container covers
    the slice [0, 20000) of it for [background] and [20000, 30000) for
    [evaluation].  It reads the label of every image of the slice while it
    is constructed: when the container has that many labels the data set
    has the length of the slice, sample [i] is image [i + start] of the
    container and its class id is the label stored for that image; when
    the container has fewer labels the constructor raises.  Either way the
    one access to the disk is the opening of the container. *)
Theorem LogoDataset_slice (E : environment) (subset : string) (w : world) (b : blob)
    (start stop : Z) :
  fs_hdf5 (disk w) logo_path = Some b →
  logo_bounds subset = Some (start, stop) →
  if decide (stop ≤ Z.of_nat (length (labels_resnet_rc_32 b))) then
    ∃ d image_ids class_ids,
      Dataset.construct E Dataset.CLogo subset w = (Ok d, log w (EvOpenHdf5 logo_path))
      ∧ Dataset.length d = Ok (stop - start)
      ∧ logo_ids_of d = Some (image_ids, class_ids)
      ∧ ∀ i, 0 ≤ i < stop - start →
             image_ids !! i = Some (i + start)
             ∧ class_ids !! i = labels_resnet_rc_32 b !! Z.to_nat (i + start)
             ∧ is_Some (class_ids !! i)
  else ∃ e, Dataset.construct E Dataset.CLogo subset w
            = (Raise e, log w (EvOpenHdf5 logo_path)).
Proof.
  intros Hb Hbounds.
  destruct (logo_init_full E subset w b start stop Hb Hbounds) as [Hrange Hinit].
  case_decide as Hlen.
  - destruct Hinit as (d & Hinit & _ & Hn & _ & Hids).
    exists (Dataset.Logo d), (LogoDataset.datasetid_to_image_id d),
      (LogoDataset.datasetid_to_class_id d).
    split; [by apply io_bind_mret_Ok|]. split; [|split; [done|]].
    + unfold Dataset.length. by rewrite Hn.
    + intros i Hi. destruct (Hids i) as [Himage Hclass].
      rewrite decide_True in Himage, Hclass by done.
      split; [done|]. split; [done|]. rewrite Hclass. apply lookup_lt_is_Some. lia.
  - destruct Hinit as [e Hinit]. exists e. by apply io_bind_Raise.
Qed.

Lemma LogoDataset_slice_witness :
  if decide (30000 ≤ Z.of_nat (length (labels_resnet_rc_32 example_container))) then
    ∃ d image_ids class_ids,
      Dataset.construct example_env Dataset.CLogo "evaluation" example_logo_world
      = (Ok d, log example_logo_world (EvOpenHdf5 logo_path))
      ∧ Dataset.length d = Ok (30000 - 20000)
      ∧ logo_ids_of d = Some (image_ids, class_ids)
      ∧ ∀ i, 0 ≤ i < 30000 - 20000 →
             image_ids !! i = Some (i + 20000)
             ∧ class_ids !! i
               = labels_resnet_rc_32 example_container !! Z.to_nat (i + 20000)
             ∧ is_Some (class_ids !! i)
  else ∃ e, Dataset.construct example_env Dataset.CLogo "evaluation" example_logo_world
            = (Raise e, log example_logo_world (EvOpenHdf5 logo_path)).
Proof.
  apply (LogoDataset_slice example_env "evaluation" example_logo_world example_container
           20000 30000).
  - reflexivity.
  - reflexivity.
Defined.

(** X9.  The two subsets of the logo data partition the first thirty
    thousand images of the container: on a container with that many
    labels both constructors return, no image belongs to both data sets,
    and the images of the two together are the images [0..29999]. *)
Theorem LogoDataset_subsets_partition (E : environment) (w1 w2 : world) (b1 b2 : blob) :
  fs_hdf5 (disk w1) logo_path = Some b1 →
  fs_hdf5 (disk w2) logo_path = Some b2 →
  30000 ≤ Z.of_nat (length (labels_resnet_rc_32 b1)) →
  30000 ≤ Z.of_nat (length (labels_resnet_rc_32 b2)) →
  ∃ d1 d2 ids1 ids2 classes1 classes2,
    (Dataset.construct E Dataset.CLogo "background" w1).1 = Ok d1
    ∧ (Dataset.construct E Dataset.CLogo "evaluation" w2).1 = Ok d2
    ∧ logo_ids_of d1 = Some (ids1, classes1)
    ∧ logo_ids_of d2 = Some (ids2, classes2)
    ∧ (∀ i j x, ids1 !! i = Some x → ids2 !! j = Some x → False)
    ∧ (∀ x, 0 ≤ x < 30000 ↔ (∃ i, ids1 !! i = Some x) ∨ (∃ j, ids2 !! j = Some x)).
Proof.
  intros Hb1 Hb2 Hlen1 Hlen2.
  destruct (logo_init_full E "background" w1 b1 0 20000 Hb1 eq_refl) as [_ Hinit1].
  destruct (logo_init_full E "evaluation" w2 b2 20000 30000 Hb2 eq_refl) as [_ Hinit2].
  rewrite decide_True in Hinit1 by lia. rewrite decide_True in Hinit2 by lia.
  destruct Hinit1 as (d1 & Hinit1 & _ & _ & _ & Hids1).
  destruct Hinit2 as (d2 & Hinit2 & _ & _ & _ & Hids2).
  exists (Dataset.Logo d1), (Dataset.Logo d2),
    (LogoDataset.datasetid_to_image_id d1), (LogoDataset.datasetid_to_image_id d2),
    (LogoDataset.datasetid_to_class_id d1), (LogoDataset.datasetid_to_class_id d2).
  split; [unfold Dataset.construct; by rewrite (io_bind_mret_Ok _ _ _ _ _ Hinit1)|].
  split; [unfold Dataset.construct; by rewrite (io_bind_mret_Ok _ _ _ _ _ Hinit2)|].
  split; [done|]. split; [done|]. split.
  - intros i j x Hi Hj.
    destruct (Hids1 i) as [Hi' _]. destruct (Hids2 j) as [Hj' _].
    rewrite Hi in Hi'. rewrite Hj in Hj'.
    case_decide; [|done]. case_decide; [|done].
    injection Hi' as ->. injection Hj' as Hj'. lia.
  - intros x. split.
    + intros Hx. destruct (decide (x < 20000)).
      * left. exists x. destruct (Hids1 x) as [-> _].
        rewrite decide_True by lia. f_equal. lia.
      * right. exists (x - 20000). destruct (Hids2 (x - 20000)) as [-> _].
        rewrite decide_True by lia. f_equal. lia.
    + intros [[i Hi]|[j Hj]].
      * destruct (Hids1 i) as [Hi' _]. rewrite Hi in Hi'.
        case_decide; [|done]. injection Hi' as ->. lia.
      * destruct (Hids2 j) as [Hj' _]. rewrite Hj in Hj'.
        case_decide; [|done]. injection Hj' as ->. lia.
Qed.

Lemma LogoDataset_subsets_partition_witness :
  ∃ d1 d2 ids1 ids2 classes1 classes2,
    (Dataset.construct example_env Dataset.CLogo "background" example_logo_world).1 = Ok d1
    ∧ (Dataset.construct example_env Dataset.CLogo "evaluation" example_logo_world).1
      = Ok d2
    ∧ logo_ids_of d1 = Some (ids1, classes1)
    ∧ logo_ids_of d2 = Some (ids2, classes2)
    ∧ (∀ i j x, ids1 !! i = Some x → ids2 !! j = Some x → False)
    ∧ (∀ x, 0 ≤ x < 30000 ↔ (∃ i, ids1 !! i = Some x) ∨ (∃ j, ids2 !! j = Some x)).
Proof.
  apply (LogoDataset_subsets_partition example_env example_logo_world example_logo_world
           example_container example_container).
  - reflexivity.
  - reflexivity.
  - vm_compute. discriminate.
  - vm_compute. discriminate.
Defined.

(** ** LogoDataset: reading a sample *)








(** ** Directory-walk data sets: reading a sample *)

(** The new axis and the rescale, by the type of the pixels: the
    subtractions are those of the type, and numpy refuses to subtract
    arrays of booleans. *)
Lemma image_rescale_cases (img : image) :
  image_newaxis img ≫= rescale
  = match dtype_of img with
    | uint8 => np_newaxis (pixels img) ≫= min_max_rescale
    | uint16 => np_newaxis (pixels img) ≫= min_max_rescale16
    | bool_ => a ← np_newaxis (pixels img); _ ← np_min a; Raise TypeError
    end.
Proof.
  unfold image_newaxis. destruct (np_newaxis (pixels img)) as [a|e].
  - cbn [mbind result_bind]. unfold rescale. cbn [dtype_of pixels].
    by destruct (dtype_of img).
  - cbn [mbind result_bind]. by destruct (dtype_of img).
Qed.

Lemma get_Omniglot_full (E : environment) (d : Dataset.dataset) (fp : gmap Z string)
    (ci : gmap Z Z) (item : Z) (w : world) (path : string) (z : Z) :
  dicts_of d = Some (fp, ci) → transform_of d = None →
  fp !! item = Some path → ci !! item = Some z →
  Dataset.get E d item w
  = (match fs_image (disk w) path with
     | Missing => Raise FileNotFoundError
     | Corrupt => Raise ValueError
     | Pixels a =>
         (λ out, (Array out, IntLabel z)) <$> (image_newaxis a ≫= rescale)
     end, log w (EvOpenImage path)).
Proof.
  intros Hdicts Htr Hpath Hz. destruct d as [d| | | | | |]; try done.
  injection Hdicts as <- <-.
  pose proof (Omniglot_getitem_full d item w path z Hpath Hz) as Hget.
  unfold Dataset.get, Dataset.with_int_label.
  destruct (fs_image (disk w) path) as [| |a];
    [by rewrite (io_bind_Raise _ _ _ _ _ Hget)..|].
  destruct (image_newaxis a ≫= rescale) as [out|e].
  - by rewrite (io_bind_Ok _ _ _ _ _ Hget).
  - by rewrite (io_bind_Raise _ _ _ _ _ Hget).
Qed.

(** X11.  Reading sample [i] of a directory-walk data set.  The call opens
    the [i]-th file of the walk, and nothing else, and raises
    FileNotFoundError when the file is gone.  OmniglotDataset reads with
    [skimage.io.imread], which raises ValueError on a file it cannot
    decode; it then adds a leading axis and rescales in the type of the
    pixels: with the subtractions of uint8 for an image of eight bits, with
    those of uint16 for one of sixteen, and with TypeError for an image of
    booleans, once the axis is there and the least value is taken.
    MiniImageNet and ImageNetKamonDataset read with [Image.open], which
    raises OSError on such a file, and run the composed transform
    [CenterCrop(224), Resize(84), ToTensor(), Normalize(...)].  An error of
    these steps is the error of the call, a result is returned with the
    label of the sample, which is not negative. *)
Theorem walker_get (E : environment) (c : Dataset.dataset_class) (wk : walker)
    (subset : string) (w w' : world) (d : Dataset.dataset) :
  walker_of c subset = Some wk →
  Dataset.construct E c subset w = (Ok d, w') →
  ∀ (i : nat) (root name : string) (w1 : world),
    walked_files (walk (disk w) (walker_top E wk subset)) !! i = Some (root, name) →
    ∃ z, 0 ≤ z
         ∧ Dataset.get E d (Z.of_nat i) w1
           = (match fs_image (disk w1) (os_path_join root name), wk with
              | Missing, _ => Raise FileNotFoundError
              | Corrupt, WOmniglot => Raise ValueError
              | Corrupt, (WMiniImageNet | WImageNetKamon) => Raise OSError
              | Pixels img, WOmniglot =>
                  (λ out, (Array out, IntLabel z))
                    <$> match dtype_of img with
                        | uint8 => np_newaxis (pixels img) ≫= min_max_rescale
                        | uint16 => np_newaxis (pixels img) ≫= min_max_rescale16
                        | bool_ =>
                            a ← np_newaxis (pixels img); _ ← np_min a; Raise TypeError
                        end
              | Pixels img, (WMiniImageNet | WImageNetKamon) =>
                  (λ p, (Picture p, IntLabel z))
                    <$> Compose E [CenterCrop 224; Resize 84; ToTensor;
                                   Normalize [485 # 1000; 456 # 1000; 406 # 1000]%Q
                                             [229 # 1000; 224 # 1000; 225 # 1000]%Q]
                                (PIL img)
              end, log w1 (EvOpenImage (os_path_join root name))).
Proof.
  intros Hwk Hd i root name w1 Hfile.
  assert (valid_subset subset = true) as Hvalid.
  { destruct (valid_subset subset) eqn:Hvalid; [done|].
    rewrite construct_invalid_subset in Hd; [done..|]. by destruct c. }
  pose proof (construct_transform E c subset w w' d Hd) as Htr.
  destruct (construct_walker_full E c wk subset w Hvalid Hwk)
    as (images & Hrecs & _ & Hcases).
  rewrite Hd in Hcases. simpl in Hcases.
  destruct Hcases as [[_ ?]|(_ & d0 & [= <-] & _ & Hdicts)]; [done|].
  pose proof (Forall2_length _ _ _ Hrecs) as Hlen.
  apply lookup_lt_Some in Hfile as Hlt.
  set (names := class_names_of images) in *.
  destruct (lookup_lt_is_Some_2 names i) as [a Ha].
  { unfold names, class_names_of. rewrite length_fmap. lia. }
  assert ((list_to_map (zip (seqZ 0 (Z.of_nat (length images))) (filepaths_of images))
             : gmap Z string) !! Z.of_nat i = Some (os_path_join root name)) as Hpath.
  { rewrite lookup_dict_of_column by (unfold filepaths_of; by rewrite length_fmap).
    rewrite decide_True, Nat2Z.id by lia.
    rewrite (walker_filepaths _ _ _ _ Hrecs), list_lookup_fmap, Hfile. done. }
  assert ((list_to_map (zip (seqZ 0 (Z.of_nat (length images))) (rank_of names <$> names))
             : gmap Z Z) !! Z.of_nat i = Some (rank_of names a)) as Hlabel.
  { rewrite lookup_dict_of_column
      by (unfold names, class_names_of; by rewrite !length_fmap).
    rewrite decide_True, Nat2Z.id by lia. by rewrite list_lookup_fmap, Ha. }
  exists (rank_of names a). split; [unfold rank_of; lia|].
  destruct c; simpl in Hwk; try done.
  - injection Hwk as <-.
    rewrite (get_Omniglot_full E d _ _ _ w1 _ _ Hdicts Htr Hpath Hlabel).
    destruct (fs_image (disk w1) (os_path_join root name)) as [| |img]; [done..|].
    by rewrite image_rescale_cases.
  - injection Hwk as <-.
    rewrite (get_pil_full E d _ _ _ _ w1 _ _ Hdicts Htr Hpath Hlabel).
    by destruct (fs_image (disk w1) (os_path_join root name)).
  - case_decide as Hbg; [|done]. injection Hwk as <-.
    rewrite (get_pil_full E d _ _ _ _ w1 _ _ Hdicts Htr Hpath Hlabel).
    by destruct (fs_image (disk w1) (os_path_join root name)).
Qed.

Lemma walker_get_witness :
  ∃ z, 0 ≤ z
       ∧ Dataset.get example_env example_omniglot (Z.of_nat 2) example_world
         = (match fs_image (disk example_world)
                    (os_path_join "/data/Omniglot/images_background/Latin/character02"
                                  "b.png"), WOmniglot with
            | Missing, _ => Raise FileNotFoundError
            | Corrupt, WOmniglot => Raise ValueError
            | Corrupt, (WMiniImageNet | WImageNetKamon) => Raise OSError
            | Pixels img, WOmniglot =>
                (λ out, (Array out, IntLabel z))
                  <$> match dtype_of img with
                      | uint8 => np_newaxis (pixels img) ≫= min_max_rescale
                      | uint16 => np_newaxis (pixels img) ≫= min_max_rescale16
                      | bool_ =>
                          a ← np_newaxis (pixels img); _ ← np_min a; Raise TypeError
                      end
            | Pixels img, (WMiniImageNet | WImageNetKamon) =>
                (λ p, (Picture p, IntLabel z))
                  <$> Compose example_env
                        [CenterCrop 224; Resize 84; ToTensor;
                         Normalize [485 # 1000; 456 # 1000; 406 # 1000]%Q
                                   [229 # 1000; 224 # 1000; 225 # 1000]%Q]
                        (PIL img)
            end,
            log example_world
                (EvOpenImage
                   (os_path_join "/data/Omniglot/images_background/Latin/character02"
                                 "b.png"))).
Proof.
  apply (walker_get example_env Dataset.COmniglot WOmniglot "background" example_world
           (Dataset.construct example_env Dataset.COmniglot "background" example_world).2
           example_omniglot).
  - reflexivity.
  - vm_compute. reflexivity.
  - vm_compute. reflexivity.
Defined.

(** ** The min-max rescale on images that are not constant *)

Lemma np_min_least (a : ndarray Z) (lo : Z) :
  lo ∈ data a → Forall (λ x, lo ≤ x) (data a) → np_min a = Ok lo.
Proof.
  intros Hin Hle. unfold np_min. destruct (data a) as [|x xs]; [by apply elem_of_nil in Hin|].
  destruct (foldl_min_spec x xs) as [Hmin Hmin_in]. rewrite Forall_forall in Hle.
  f_equal. apply Z.le_antisymm; [by apply Hmin|by apply Hle].
Qed.

Lemma np_max_greatest (a : ndarray Z) (hi : Z) :
  hi ∈ data a → Forall (λ x, x ≤ hi) (data a) → np_max a = Ok hi.
Proof.
  intros Hin Hle. unfold np_max. destruct (data a) as [|x xs]; [by apply elem_of_nil in Hin|].
  destruct (foldl_max_spec x xs) as [Hmax Hmax_in]. rewrite Forall_forall in Hle.
  f_equal. apply Z.le_antisymm; [by apply Hle|by apply Hmax].
Qed.

(** X12.  What OmniglotDataset makes of an image that has two different
    grey levels.  For a uint8 image of at least two dimensions whose least
    value is [lo] and whose greatest value is [hi], the new axis and the
    rescale return the array of shape [1 :: shape] with
    [(x - lo) / (hi - lo)] in the place of every pixel [x]: no uint8
    subtraction wraps around.  These values lie in [0, 1], the darkest
    pixels are mapped to 0 and the brightest to 1. *)
Theorem Omniglot_rescale_normalises (a : ndarray Z) (lo hi : Z) :
  (2 ≤ length (shape a))%nat →
  Forall (λ x, 0 ≤ x < 256) (data a) →
  lo ∈ data a → hi ∈ data a →
  Forall (λ x, lo ≤ x ≤ hi) (data a) →
  lo < hi →
  (np_newaxis a ≫= min_max_rescale)
  = Ok {| shape := 1%nat :: shape a;
          data := (λ x, Fin (inject_Z (x - lo) / inject_Z (hi - lo))) <$> data a |}
  ∧ Forall (λ x, (0 <= inject_Z (x - lo) / inject_Z (hi - lo))%Q
                 ∧ (inject_Z (x - lo) / inject_Z (hi - lo) <= 1)%Q) (data a)
  ∧ (inject_Z (lo - lo) / inject_Z (hi - lo) == 0)%Q
  ∧ (inject_Z (hi - lo) / inject_Z (hi - lo) == 1)%Q.
Proof.
  intros Hdim Hu8 Hlo Hhi Hbounds Hlt.
  assert (np_min {| shape := 1%nat :: shape a; data := data a |} = Ok lo) as Hmin.
  { apply np_min_least; [done|]. simpl. eapply Forall_impl; [exact Hbounds|].
    simpl. intros; lia. }
  assert (np_max {| shape := 1%nat :: shape a; data := data a |} = Ok hi) as Hmax.
  { apply np_max_greatest; [done|]. simpl. eapply Forall_impl; [exact Hbounds|].
    simpl. intros; lia. }
  rewrite Forall_forall in Hu8. rewrite Forall_forall in Hbounds.
  pose proof (Hu8 _ Hlo). pose proof (Hu8 _ Hhi).
  split; [|split; [|split]].
  - unfold np_newaxis. rewrite decide_False by lia.
    change (Ok ?x ≫= min_max_rescale) with (min_max_rescale x).
    unfold min_max_rescale. rewrite Hmin, Hmax. simpl. do 2 f_equal.
    apply list_fmap_ext. intros k x Hx. apply list_elem_of_lookup_2 in Hx.
    pose proof (Hu8 _ Hx). pose proof (Hbounds _ Hx).
    unfold u8. rewrite !Z.mod_small by lia. unfold np_truediv.
    by rewrite decide_False by lia.
  - apply Forall_forall. intros x Hx. pose proof (Hbounds _ Hx).
    apply truediv_unit_interval; lia.
  - rewrite Z.sub_diag. unfold Qdiv. by rewrite Qmult_0_l.
  - apply Qmult_inv_r. intros Heq. change 0%Q with (inject_Z 0) in Heq.
    apply (proj1 (inject_Z_injective (hi - lo) 0)) in Heq. lia.
Qed.

Lemma Omniglot_rescale_normalises_witness :
  (np_newaxis {| shape := [2; 2]%nat; data := [0; 255; 10; 20] |} ≫= min_max_rescale)
  = Ok {| shape := [1; 2; 2]%nat;
          data := (λ x, Fin (inject_Z (x - 0) / inject_Z (255 - 0)))
                    <$> [0; 255; 10; 20] |}
  ∧ Forall (λ x, (0 <= inject_Z (x - 0) / inject_Z (255 - 0))%Q
                 ∧ (inject_Z (x - 0) / inject_Z (255 - 0) <= 1)%Q) [0; 255; 10; 20]
  ∧ (inject_Z (0 - 0) / inject_Z (255 - 0) == 0)%Q
  ∧ (inject_Z (255 - 0) / inject_Z (255 - 0) == 1)%Q.
Proof.
  apply (Omniglot_rescale_normalises {| shape := [2; 2]%nat; data := [0; 255; 10; 20] |}
           0 255).
  - simpl. lia.
  - simpl. repeat constructor; lia.
  - simpl. set_solver.
  - simpl. set_solver.
  - simpl. repeat constructor; lia.
  - lia.
Defined.

(** X13.  The rescale does not see the brightness of an image: adding the
    same number to every pixel changes neither the outcome nor any value of
    the result (for an image of one grey level, NaN in both cases). *)
Theorem min_max_rescale_shift_invariant (dims : list nat) (pixels : list Z) (c : Z) :
  min_max_rescale {| shape := dims; data := (λ x, x + c) <$> pixels |}
  = min_max_rescale {| shape := dims; data := pixels |}.
Proof.
  unfold min_max_rescale, np_min, np_max. cbn [data shape].
  destruct pixels as [|x xs]; [done|]. cbn [fmap list_fmap].
  assert (∀ l m, foldl Z.min (m + c) ((λ x, x + c) <$> l) = foldl Z.min m l + c) as Hmin.
  { induction l as [|y l IH]; intros m; [done|]. cbn [fmap list_fmap foldl].
    rewrite <-IH. f_equal. lia. }
  assert (∀ l m, foldl Z.max (m + c) ((λ x, x + c) <$> l) = foldl Z.max m l + c) as Hmax.
  { induction l as [|y l IH]; intros m; [done|]. cbn [fmap list_fmap foldl].
    rewrite <-IH. f_equal. lia. }
  change (list_fmap Z Z (λ x, x + c) xs) with ((λ x, x + c) <$> xs).
  rewrite Hmin, Hmax. simpl. do 2 f_equal.
  set (lo := foldl Z.min x xs). set (hi := foldl Z.max x xs).
  replace (hi + c - (lo + c)) with (hi - lo) by lia.
  replace (x + c - (lo + c)) with (x - lo) by lia. f_equal.
  rewrite <-list_fmap_compose. apply list_fmap_ext. intros k y _. simpl.
  by replace (y + c - (lo + c)) with (y - lo) by lia.
Qed.

(** ** The constructors and the subset *)

(** X14.  OmniglotDataset, MiniImageNet, ImageNetKamonDataset, KamonDataset
    and OldKamonDataset given a subset that is neither [background] nor
    [evaluation]: the constructor raises at once, before any access to the
    file system, and what it raises is TypeError, since its statement
    [raise(ValueError, '...')] raises a tuple.  (LogoDataset is the
    exception: it opens its container first.) *)
Theorem invalid_subset_rejected_before_access (E : environment)
    (c : Dataset.dataset_class) (subset : string) (w : world) :
  subset ≠ "background" → subset ≠ "evaluation" →
  c ≠ Dataset.CLogo →
  Dataset.construct E c subset w = (Raise TypeError, w).
Proof.
  intros Hbg Hev Hc. rewrite <-subset_error_is_TypeError.
  apply construct_invalid_subset; [|done]. by apply invalid_subset_spec.
Qed.

Lemma invalid_subset_rejected_before_access_witness :
  Dataset.construct example_env Dataset.CKamon "train" example_world
  = (Raise TypeError, example_world).
Proof.
  apply (invalid_subset_rejected_before_access example_env Dataset.CKamon "train"
           example_world); discriminate.
Defined.

(** Two data sets with the same dicts and the same transform answer [get]
    alike. *)
Lemma get_pil_ext (E : environment) (d1 d2 : Dataset.dataset) (fp : gmap Z string)
    (ci : gmap Z Z) (tr : list transform) (item : Z) (w : world) :
  dicts_of d1 = Some (fp, ci) → dicts_of d2 = Some (fp, ci) →
  transform_of d1 = Some tr → transform_of d2 = Some tr →
  Dataset.get E d1 item w = Dataset.get E d2 item w.
Proof.
  intros Hd1 Hd2 Ht1 Ht2.
  destruct d1; try done; destruct d2; try done; simpl in *;
    unfold MiniImageNet.getitem, ImageNetKamonDataset.getitem, KamonDataset.getitem,
      OldKamonDataset.getitem; congruence.
Qed.

(** X15.  [ImageNetKamonDataset('evaluation')] and
    [KamonDataset('evaluation')] read the same manifest with the same
    code: on every disk the two constructors make the same access.  With
    the manifest missing both raise FileNotFoundError; with the manifest
    there, also one that has no row, both return, and the two data sets
    have the number of rows as their length and answer every [get]
    alike. *)
Theorem ImageNetKamon_evaluation_is_Kamon_evaluation (E : environment) (w : world) :
  (Dataset.construct E Dataset.CImageNetKamon "evaluation" w).2
  = (Dataset.construct E Dataset.CKamon "evaluation" w).2
  ∧ match fs_csv (disk w) ImageNetKamonDataset.csv_filepath with
    | None =>
        (Dataset.construct E Dataset.CImageNetKamon "evaluation" w).1
        = Raise FileNotFoundError
        ∧ (Dataset.construct E Dataset.CKamon "evaluation" w).1 = Raise FileNotFoundError
    | Some rows =>
        ∃ d1 d2,
          (Dataset.construct E Dataset.CImageNetKamon "evaluation" w).1 = Ok d1
          ∧ (Dataset.construct E Dataset.CKamon "evaluation" w).1 = Ok d2
          ∧ Dataset.length d1 = Ok (Z.of_nat (length rows))
          ∧ Dataset.length d2 = Ok (Z.of_nat (length rows))
          ∧ ∀ item w1, Dataset.get E d1 item w1 = Dataset.get E d2 item w1
    end.
Proof.
  pose proof (construct_manifest_run E Dataset.CImageNetKamon "evaluation"
                ImageNetKamonDataset.csv_filepath w eq_refl) as H1.
  pose proof (construct_manifest_run E Dataset.CKamon "evaluation"
                ImageNetKamonDataset.csv_filepath w eq_refl) as H2.
  destruct (fs_csv (disk w) ImageNetKamonDataset.csv_filepath) as [rows|] eqn:Hrows.
  - destruct H1 as (d1 & -> & Hlen1 & Hdicts1 & Htr1 & _).
    destruct H2 as (d2 & -> & Hlen2 & Hdicts2 & Htr2 & _).
    split; [done|]. exists d1, d2. do 4 (split; [done|]).
    intros item w1. by eapply get_pil_ext.
  - by rewrite H1, H2.
Qed.

(** An empty manifest: both constructors return a data set of length 0. *)
Example evaluation_manifest_without_rows :
  ∃ d1 d2,
    (Dataset.construct example_env Dataset.CImageNetKamon "evaluation"
       example_empty_world).1 = Ok d1
    ∧ (Dataset.construct example_env Dataset.CKamon "evaluation"
         example_empty_world).1 = Ok d2
    ∧ Dataset.length d1 = Ok 0 ∧ Dataset.length d2 = Ok 0.
Proof. do 2 eexists. repeat split; vm_compute; reflexivity. Qed.

(** ** DummyDataset: the data frame *)

Lemma length_filter_fmap {A B} (P : B → Prop) `{∀ x, Decision (P x)} (f : A → B)
    (l : list A) :
  length (filter P (f <$> l)) = length (filter (λ x, P (f x)) l).
Proof.
  induction l as [|x l IH]; [done|]. rewrite fmap_cons, !filter_cons.
  destruct (decide (P (f x))); simpl; by rewrite IH.
Qed.

Lemma zip_fmap_self {A B} (f : A → B) (l : list A) :
  zip (f <$> l) l = (λ x, (f x, x)) <$> l.
Proof. induction l as [|x l IH]; [done|]. simpl. f_equal. exact IH. Qed.

(** [__init__] of DummyDataset when the product of its first two
    parameters is a size. *)
Lemma DummyDataset_init_Ok (spc nc nf : Z) :
  0 ≤ spc * nc ≤ sys_maxsize →
  DummyDataset.init spc nc nf
  = Ok {| DummyDataset.samples_per_class := spc;
          DummyDataset.n_classes := nc;
          DummyDataset.n_features := nf;
          DummyDataset.df := (λ i, (i mod nc, i)) <$> seqZ 0 (spc * nc) |}.
Proof.
  intros Hn. unfold DummyDataset.init, py_len. rewrite !decide_False by lia. simpl.
  rewrite (rmapM_Ok_fmap _ (λ i, i mod nc)).
  - simpl. by rewrite zip_fmap_self.
  - apply Forall_seqZ. intros i Hi. unfold py_mod.
    rewrite decide_False; [done|]. intros ->. lia.
Qed.

(** A constructor that returns was given a product that is a size. *)
Lemma DummyDataset_init_Ok_inv (spc nc nf : Z) (d : DummyDataset.t) :
  DummyDataset.init spc nc nf = Ok d → 0 ≤ spc * nc ≤ sys_maxsize.
Proof.
  unfold DummyDataset.init, py_len. intros Hinit.
  destruct (decide (spc * nc < 0)); [done|].
  destruct (decide (sys_maxsize < spc * nc)); [done|]. lia.
Qed.

(** Rounding to 53 bits does not pass the next power of two. *)
Lemma round_to_double_bound (a e : Z) :
  53 ≤ e → 0 ≤ a < 2 ^ e → round_to_double a ≤ 2 ^ e.
Proof.
  intros He Ha. unfold round_to_double. case_decide as Hsmall; [lia|].
  assert (2 ^ 53 ≤ a) as Hbig by lia.
  assert (53 ≤ Z.log2 a) as Hlog by (apply Z.log2_le_pow2; lia).
  assert (Z.log2 a < e) as Hlog' by (apply Z.log2_lt_pow2; lia).
  set (s := Z.log2 a - 52). cbv zeta.
  assert (1 ≤ s) as Hs by (unfold s; lia).
  rewrite Z.shiftr_div_pow2 by lia.
  assert (0 < 2 ^ s) as Hpos by (apply Z.pow_pos_nonneg; lia).
  assert (a < 2 ^ 53 * 2 ^ s) as Hup.
  { rewrite <-Z.pow_add_r by lia. replace (53 + s) with (Z.succ (Z.log2 a)) by (unfold s; lia).
    apply Z.log2_spec. lia. }
  assert (a / 2 ^ s < 2 ^ 53) as Hq.
  { apply Z.div_lt_upper_bound; [done|]. lia. }
  assert (2 ^ 53 * 2 ^ s ≤ 2 ^ e) as Hpow.
  { rewrite <-Z.pow_add_r by lia. apply Z.pow_le_mono_r; [lia|]. unfold s. lia. }
  set (q := a / 2 ^ s) in *.
  match goal with
  | |- Z.shiftl ?x s ≤ _ =>
      assert (x ≤ 2 ^ 53) as Hround by (repeat case_decide; lia);
      generalize dependent x
  end.
  intros rounded Hround. rewrite Z.shiftl_mul_pow2 by lia. nia.
Qed.

(** An int below [2^1023] in magnitude has a double: the conversion
    returns. *)
Lemma float_of_int_total (z : Z) :
  Z.abs z < 2 ^ 1023 → ∃ l, float_of_int z = Ok l.
Proof.
  intros Hz. unfold float_of_int. cbv zeta.
  pose proof (round_to_double_bound (Z.abs z) 1023 ltac:(lia) ltac:(lia)) as Hr.
  assert (2 ^ 1023 < 2 ^ 1024) as Hlt by (apply Z.pow_lt_mono_r; lia).
  rewrite decide_False by lia. by eexists.
Qed.

(** One residue in every block of [nc] consecutive integers. *)
Lemma count_residue_block (nc c k : Z) :
  0 ≤ c < nc → 0 ≤ k →
  length (filter (λ i, i mod nc = c) (seqZ (k * nc) nc)) = 1%nat.
Proof.
  intros Hc Hk.
  assert (∀ j, 0 ≤ j < nc → (k * nc + j) mod nc = j) as Hmod.
  { intros j Hj. rewrite Z.add_comm, Z_mod_plus_full. apply Z.mod_small. lia. }
  assert (seqZ (k * nc) nc
          = seqZ (k * nc) c ++ seqZ (k * nc + c) 1 ++ seqZ (k * nc + c + 1) (nc - c - 1))
    as ->.
  { rewrite <-!seqZ_app by lia. f_equal. lia. }
  rewrite !filter_app, !length_app.
  rewrite (filter_none _ (seqZ (k * nc) c)).
  2:{ apply Forall_seqZ. intros i Hi.
      replace i with (k * nc + (i - k * nc)) by lia. rewrite Hmod by lia. lia. }
  rewrite (filter_none _ (seqZ (k * nc + c + 1) (nc - c - 1))).
  2:{ apply Forall_seqZ. intros i Hi.
      replace i with (k * nc + (i - k * nc)) by lia. rewrite Hmod by lia. lia. }
  rewrite (filter_all _ (seqZ (k * nc + c) 1)).
  2:{ apply Forall_seqZ. intros i Hi.
      replace i with (k * nc + c) by lia. by apply Hmod. }
  by rewrite length_seqZ.
Qed.

Lemma count_residue (nc c : Z) (k : nat) :
  0 ≤ c < nc →
  length (filter (λ i, i mod nc = c) (seqZ 0 (Z.of_nat k * nc))) = k.
Proof.
  intros Hc. induction k as [|k IH]; [done|].
  replace (Z.of_nat (S k) * nc) with (Z.of_nat k * nc + nc) by lia.
  rewrite seqZ_app by nia. rewrite filter_app, length_app, IH.
  rewrite Z.add_0_l, count_residue_block by lia. lia.
Qed.

(** X16.  The data frame of a DummyDataset.  [len] of the data set is
    evaluated while the frame is made, so the constructor raises ValueError
    when [samples_per_class * n_classes] is negative and OverflowError when
    it is above [sys.maxsize]; it returns otherwise, also with
    [n_classes = 0].  The frame then has one row per sample, row [i]
    holding the id [i] and the class id [i % n_classes].  [get(i)] on such
    a row raises OverflowError when [n_features] is above [sys.maxsize];
    otherwise it returns, with the class id of the row converted to
    float64 as its label, which is the class id itself when that is at
    most [2^53] in magnitude. *)
Theorem DummyDataset_frame (spc nc nf : Z) :
  (spc * nc < 0 → DummyDataset.init spc nc nf = Raise ValueError)
  ∧ (sys_maxsize < spc * nc → DummyDataset.init spc nc nf = Raise OverflowError)
  ∧ (0 ≤ spc * nc ≤ sys_maxsize →
     ∃ d, DummyDataset.init spc nc nf = Ok d
          ∧ Z.of_nat (length (DummyDataset.df d)) = spc * nc
          ∧ ∀ i, 0 ≤ i < spc * nc →
                 DummyDataset.df d !! Z.to_nat i = Some (i mod nc, i)
                 ∧ (sys_maxsize < nf → DummyDataset.getitem d i = Raise OverflowError)
                 ∧ (nf ≤ sys_maxsize →
                    ∃ v l, DummyDataset.getitem d i = Ok (v, l)
                           ∧ float_of_int (i mod nc) = Ok l
                           ∧ (- 2 ^ 53 ≤ i mod nc ≤ 2 ^ 53 →
                              l = Fin (inject_Z (i mod nc))))).
Proof.
  split; [|split].
  - intros Hneg. unfold DummyDataset.init, py_len. by rewrite decide_True by lia.
  - intros Hbig. unfold DummyDataset.init, py_len.
    rewrite decide_False by (unfold sys_maxsize in Hbig; lia).
    by rewrite decide_True by lia.
  - intros Hn. eexists. split; [by apply DummyDataset_init_Ok|].
    cbn [DummyDataset.df]. split; [rewrite length_fmap, length_seqZ; lia|].
    intros i Hi.
    assert (nc ≠ 0) as Hnc by (intros ->; lia).
    assert (Z.abs i < 2 ^ 1023 ∧ Z.abs (i mod nc) < 2 ^ 1023) as [Hi' Hc'].
    { assert (2 ^ 64 ≤ 2 ^ 1023) as Hpow by (apply Z.pow_le_mono_r; lia).
      change (2 ^ 64) with 18446744073709551616 in Hpow.
      generalize dependent (2 ^ 1023). intros bound Hpow.
      unfold sys_maxsize in Hn.
      assert (Z.abs nc ≤ spc * nc) as Habs.
      { destruct (Z.abs_spec nc) as [[? ->]|[? ->]].
        - assert (1 ≤ spc) by nia. nia.
        - assert (spc ≤ -1) by nia. nia. }
      destruct (Z.mod_bound_or i nc Hnc) as [Hm|Hm]; split; lia. }
    split; [|split].
    + rewrite list_lookup_fmap, (lookup_seqZ_lt 0 _ (Z.to_nat i)) by lia.
      simpl. by replace (0 + Z.of_nat (Z.to_nat i)) with i by lia.
    + intros Hnf. unfold DummyDataset.getitem, py_mod.
      cbn [DummyDataset.n_classes DummyDataset.n_features].
      rewrite decide_False by done. cbn [mbind result_bind].
      unfold py_list_mul. by rewrite decide_True by done.
    + intros Hnf. destruct (float_of_int_total _ Hc') as [l Hl].
      destruct (rmapM_total float_of_int ([i] ++ replicate (Z.to_nat nf) (i mod nc)))
        as [v Hv].
      { apply Forall_app. split.
        - apply Forall_singleton. by apply float_of_int_total.
        - apply Forall_replicate. by apply float_of_int_total. }
      exists v, l. split; [|split; [done|]].
      * unfold DummyDataset.getitem, py_mod.
        cbn [DummyDataset.n_classes DummyDataset.n_features].
        rewrite decide_False by done. cbn [mbind result_bind].
        rewrite py_list_mul_singleton by done. cbn [mbind result_bind].
        rewrite Hv. cbn [mbind result_bind]. by rewrite Hl.
      * intros Hsmall. rewrite float_of_int_exact in Hl by done. by injection Hl.
Qed.

(** A DummyDataset whose length would be [2^63]: the constructor raises
    OverflowError. *)
Example DummyDataset_too_long :
  DummyDataset.init (2 ^ 62) 2 1 = Raise OverflowError.
Proof. reflexivity. Qed.

(** X17.  A DummyDataset is balanced: with [n_classes] positive and
    [samples_per_class] not negative, every class id of [0..n_classes-1]
    is the class id of exactly [samples_per_class] rows of the data
    frame. *)
Theorem DummyDataset_balanced (spc nc nf c : Z) (d : DummyDataset.t) :
  DummyDataset.init spc nc nf = Ok d →
  0 ≤ spc → 0 < nc → 0 ≤ c < nc →
  Z.of_nat (length (filter (λ row, row.1 = c) (DummyDataset.df d))) = spc.
Proof.
  intros Hinit Hspc Hnc Hc.
  pose proof (DummyDataset_init_Ok_inv _ _ _ _ Hinit) as Hn.
  rewrite DummyDataset_init_Ok in Hinit by done.
  injection Hinit as <-. cbn [DummyDataset.df].
  rewrite (length_filter_fmap (λ row : Z * Z, row.1 = c)). simpl.
  replace spc with (Z.of_nat (Z.to_nat spc)) at 1 by lia.
  rewrite count_residue by done. lia.
Qed.

Lemma DummyDataset_balanced_witness :
  Z.of_nat (length (filter (λ row : Z * Z, row.1 = 1)
                      (DummyDataset.df
                         {| DummyDataset.samples_per_class := 2;
                            DummyDataset.n_classes := 3;
                            DummyDataset.n_features := 1;
                            DummyDataset.df :=
                              [(0, 0); (1, 1); (2, 2); (0, 3); (1, 4); (2, 5)] |})))
  = 2.
Proof.
  apply (DummyDataset_balanced 2 3 1 1); [reflexivity | lia | lia | lia].
Defined.

(** ** categorical_accuracy: what it does not depend on, and shapes *)

Section categorical_accuracy_more.
Import metrics.

Lemma argmax_from_monotone (f : Q → Q) (row : list Q) (best_i i : nat) (best : Q) :
  (∀ a b, (f a <= f b)%Q ↔ (a <= b)%Q) →
  argmax_from best_i (f best) i (f <$> row) = argmax_from best_i best i row.
Proof.
  intros Hf. revert best_i i best.
  induction row as [|x row IH]; intros best_i i best; [done|]. cbn [fmap list_fmap argmax_from].
  change (list_fmap Q Q f row) with (f <$> row).
  assert (Qle_bool (f x) (f best) = Qle_bool x best) as ->.
  { destruct (Qle_bool x best) eqn:Hx.
    - apply Qle_bool_iff, (proj2 (Hf _ _)). by apply Qle_bool_iff.
    - destruct (Qle_bool (f x) (f best)) eqn:Hfx; [|done].
      apply Qle_bool_iff in Hfx. apply (proj1 (Hf _ _)) in Hfx.
      apply Qle_bool_iff in Hfx. congruence. }
  destruct (Qle_bool x best); apply IH.
Qed.

Lemma argmax_monotone (f : Q → Q) (row : list Q) :
  (∀ a b, (f a <= f b)%Q ↔ (a <= b)%Q) →
  argmax (f <$> row) = argmax row.
Proof.
  intros Hf. destruct row as [|x row]; [done|]. cbn [fmap list_fmap argmax].
  change (list_fmap Q Q f row) with (f <$> row).
  by rewrite argmax_from_monotone.
Qed.

End categorical_accuracy_more.

(** X18.  The accuracy depends on the order of the scores of a row only:
    applying the same strictly increasing function to every score (a
    positive scale, a shift, a temperature) changes neither the outcome
    nor the value of [categorical_accuracy]. *)
Theorem categorical_accuracy_monotone (f : Q → Q) (y : list Z) (y_pred : list (list Q)) :
  (∀ a b, (f a <= f b)%Q ↔ (a <= b)%Q) →
  metrics.categorical_accuracy y ((λ row : list Q, f <$> row) <$> y_pred)
  = metrics.categorical_accuracy y y_pred.
Proof.
  intros Hf. unfold metrics.categorical_accuracy.
  assert (rmapM metrics.argmax ((λ row : list Q, f <$> row) <$> y_pred)
          = rmapM metrics.argmax y_pred) as ->.
  { induction y_pred as [|row y_pred IH]; [done|]. rewrite fmap_cons.
    cbn [rmapM]. by rewrite argmax_monotone, IH. }
  by rewrite length_fmap.
Qed.

Lemma categorical_accuracy_monotone_witness :
  metrics.categorical_accuracy [1; 0]
    ((λ row : list Q, (λ q, q + 1)%Q <$> row) <$> [[0.1; 0.9]; [0.2; 0.8]]%Q)
  = metrics.categorical_accuracy [1; 0] [[0.1; 0.9]; [0.2; 0.8]]%Q.
Proof.
  apply (categorical_accuracy_monotone (λ q, q + 1)%Q).
  intros a b. apply Qplus_le_l.
Defined.

(** X19.  When the number of labels is not the number of rows of scores,
    [torch.eq] broadcasts or fails.  With one row of scores its argmax is
    compared with every label and the count of hits is divided by 1, so
    the result is a count, not a rate; with one label every argmax is
    compared with it; and in every other case the comparison raises
    RuntimeError. *)
Theorem categorical_accuracy_broadcast (y : list Z) (y_pred : list (list Q)) :
  y_pred ≠ [] →
  Forall (λ row, row ≠ []) y_pred →
  length y ≠ length y_pred →
  match y_pred, y with
  | [row], _ =>
      ∃ k, metrics.argmax row = Ok k
           ∧ metrics.categorical_accuracy y y_pred
             = Ok (inject_Z (Z.of_nat (length (filter (λ l, l = Z.of_nat k) y)))
                   / inject_Z 1)%Q
  | _, [l] =>
      ∃ ks, rmapM metrics.argmax y_pred = Ok ks
            ∧ metrics.categorical_accuracy y y_pred
              = Ok (inject_Z (Z.of_nat (length (filter (λ k, Z.of_nat k = l) ks)))
                    / inject_Z (Z.of_nat (length y_pred)))%Q
  | _, _ => metrics.categorical_accuracy y y_pred = Raise RuntimeError
  end.
Proof.
  intros Hne Hrows Hlen.
  destruct (rmapM_total metrics.argmax y_pred) as [ks Hks].
  { eapply Forall_impl; [exact Hrows|]. intros row Hrow.
    destruct (argmax_spec row Hrow) as (k & Hk & _). eauto. }
  pose proof (rmapM_Ok_length _ _ _ Hks) as Hkslen.
  assert (∀ (A : Type) (P : A → Prop) `{∀ x, Decision (P x)} (l : list A),
            metrics.sum_item ((λ x, bool_decide (P x)) <$> l)
            = Z.of_nat (length (filter P l))) as Hsum.
  { intros A P ? l. unfold metrics.sum_item. f_equal.
    induction l as [|x l IH]; [done|]. rewrite fmap_cons, !filter_cons.
    destruct (decide (P x)) as [Hx|Hx].
    - rewrite bool_decide_eq_true_2 by done. rewrite decide_True by done.
      simpl. by rewrite IH.
    - rewrite bool_decide_eq_false_2 by done. rewrite decide_False by done. done. }
  unfold metrics.categorical_accuracy. rewrite Hks. cbn [mbind result_bind].
  unfold metrics.torch_eq. rewrite decide_False by (rewrite length_fmap; lia).
  destruct y_pred as [|row [|row' y_pred]]; [done| |].
  - destruct ks as [|k [|k' ks]]; try done.
    exists k. split.
    + simpl in Hks. destruct (metrics.argmax row); [|done]. simpl in Hks. congruence.
    + cbn [fmap list_fmap mbind result_bind].
      rewrite (Hsum Z (λ l0, Z.of_nat k = l0)). unfold py_truediv.
      rewrite decide_False by (simpl; lia).
      by rewrite (list_filter_iff (λ l0, Z.of_nat k = l0) (λ l0, l0 = Z.of_nat k))
        by (intros; split; congruence).
  - destruct ks as [|k [|k' ks]]; try done.
    destruct y as [|l [|l' y]]; [done| |done].
    exists (k :: k' :: ks). split; [done|].
    change (Z.of_nat <$> k :: k' :: ks)
      with (Z.of_nat k :: Z.of_nat k' :: (Z.of_nat <$> ks)) at 1.
    cbv iota. cbn [mbind result_bind].
    assert ((λ x0 : Z, bool_decide (x0 = l)) <$> (Z.of_nat <$> k :: k' :: ks)
            = (λ k0 : nat, bool_decide (Z.of_nat k0 = l)) <$> (k :: k' :: ks)) as ->
      by (by rewrite <-list_fmap_compose).
    rewrite (Hsum nat (λ k0, Z.of_nat k0 = l)). unfold py_truediv.
    rewrite decide_False by (simpl; lia). done.
Qed.

Lemma categorical_accuracy_broadcast_witness :
  ∃ k, metrics.argmax [0.1; 0.9]%Q = Ok k
       ∧ metrics.categorical_accuracy [1; 1; 1] [[0.1; 0.9]%Q]
         = Ok (inject_Z (Z.of_nat (length (filter (λ l, l = Z.of_nat k) [1; 1; 1]%Z)))
               / inject_Z 1)%Q.
Proof.
  apply (categorical_accuracy_broadcast [1; 1; 1] [[0.1; 0.9]%Q]).
  - discriminate.
  - repeat constructor; discriminate.
  - simpl. lia.
Defined.
